(** * QUEST: project registry and URI scheme

    A shallow embedding of [quest/util/misc.py] (URI construction, parsing and
    classification, identifier generation) and of [quest/api/projects.py]
    (the project registry and the active-project pointer), followed by the
    properties proved about them.

    Conventions.
    - Python [str] is [string]; a value that is a [str] or [None] is
      [option string].
    - Python [int] is [Z]; the bit operations of [uuid.UUID] are [Z.land],
      [Z.lor], [Z.lnot] and [Z.shiftl].
    - A Python [dict] is an association list in insertion order with unique
      keys: [list(d.keys())[0]] is the key of its head.
    - Functions that read or write the index file, the file system or a
      project store are computations in the monad [M]: they take the world
      and return the world reached together with a value or the exception
      raised.  A raised exception keeps the writes made before it. *)

From Stdlib Require Import Bool Arith ZArith List Ascii String Lia.
Import ListNotations.

Local Open Scope list_scope.
Local Open Scope string_scope.

(* ================================================================= *)
(** * Part I: definitions *)
(* ================================================================= *)

(** ** Python values and exceptions *)

Inductive exn : Type :=
| ValueError (msg : string)
| KeyError (key : string)
| IndexError
| AttributeError
| StoreError.

Inductive result (A : Type) : Type :=
| Ok (a : A)
| Raise (e : exn).

Arguments Ok {A} a.
Arguments Raise {A} e.

(** ** String primitives of Python used by the sources *)

(** [s.startswith(p)]. *)
Fixpoint startswith (s p : string) {struct p} : bool :=
  match p with
  | EmptyString => true
  | String b p' =>
      match s with
      | EmptyString => false
      | String a s' => Ascii.eqb a b && startswith s' p'
      end
  end.

(** [sub in s]. *)
Fixpoint contains (sub s : string) : bool :=
  startswith s sub ||
  match s with
  | EmptyString => false
  | String _ s' => contains sub s'
  end.

(** Put a character in front of the first piece of a list of pieces. *)
Definition push (c : ascii) (pieces : list string) : list string :=
  match pieces with
  | [] => [String c EmptyString]
  | h :: t => String c h :: t
  end.

Definition can_split (maxsplit : option nat) : bool :=
  match maxsplit with
  | Some O => false
  | _ => true
  end.

Definition dec_split (maxsplit : option nat) : option nat :=
  option_map Nat.pred maxsplit.

(** [s.split(sep, maxsplit)] for a non-empty [sep] (Python raises
    [ValueError] on an empty separator; every call in the sources passes a
    literal).  [maxsplit = None] is Python's default [-1].  The scan goes from
    left to right; at an occurrence of [sep] the current piece ends and the
    next [length sep - 1] characters are skipped. *)
Fixpoint split_from (sep : string) (maxsplit : option nat) (skip : nat)
         (s : string) : list string :=
  match s with
  | EmptyString => [EmptyString]
  | String c s' =>
      match skip with
      | S k => split_from sep maxsplit k s'
      | O =>
          if startswith s sep && can_split maxsplit
          then EmptyString :: split_from sep (dec_split maxsplit) (String.length sep - 1) s'
          else push c (split_from sep maxsplit 0 s')
      end
  end.

Definition split (sep : string) (maxsplit : option nat) (s : string) : list string :=
  split_from sep maxsplit 0 s.

(** [s.replace(old, new)] for a non-empty [old]. *)
Fixpoint replace_from (old new : string) (skip : nat) (s : string) : string :=
  match s with
  | EmptyString => EmptyString
  | String c s' =>
      match skip with
      | S k => replace_from old new k s'
      | O =>
          if startswith s old
          then new ++ replace_from old new (String.length old - 1) s'
          else String c (replace_from old new 0 s')
      end
  end.

Definition replace (old new s : string) : string := replace_from old new 0 s.

Fixpoint mem_char (c : ascii) (chars : string) : bool :=
  match chars with
  | EmptyString => false
  | String d chars' => Ascii.eqb c d || mem_char c chars'
  end.

(** [s.lstrip(chars)], [s.rstrip(chars)] and [s.strip(chars)]. *)
Fixpoint lstrip (chars s : string) : string :=
  match s with
  | EmptyString => EmptyString
  | String c s' => if mem_char c chars then lstrip chars s' else s
  end.

Fixpoint rstrip (chars s : string) : string :=
  match s with
  | EmptyString => EmptyString
  | String c s' =>
      match rstrip chars s' with
      | EmptyString => if mem_char c chars then EmptyString else String c EmptyString
      | r => String c r
      end
  end.

Definition strip (chars s : string) : string := rstrip chars (lstrip chars s).

(** [s.lower()] on ASCII text: the letters [A]..[Z] move to [a]..[z]. *)
Definition lower_char (c : ascii) : ascii :=
  let n := nat_of_ascii c in
  if (65 <=? n)%nat && (n <=? 90)%nat then ascii_of_nat (n + 32) else c.

Fixpoint lower (s : string) : string :=
  match s with
  | EmptyString => EmptyString
  | String c s' => String (lower_char c) (lower s')
  end.

(** [l[-1]]. *)
Fixpoint last_item {A : Type} (l : list A) : result A :=
  match l with
  | [] => Raise IndexError
  | [a] => Ok a
  | _ :: t => last_item t
  end.

(** ** [quest/util/misc.py]: service URIs *)

(** [construct_service_uri(provider, service, feature=None)]. *)
Definition construct_service_uri (provider service : string)
           (feature : option string) : string :=
  let uri := "svc://" ++ provider ++ ":" ++ service in
  match feature with
  | Some feature => uri ++ "/" ++ feature
  | None => uri
  end.

(** [parse_service_uri(uri)].  The two tuple assignments unpack a list that
    must have exactly two items; the items are strings or [None]. *)
Definition parse_service_uri (uri : string)
  : result (option string * option string * option string) :=
  match last_item (split "://" None uri) with
  | Raise e => Raise e
  | Ok tail =>
      match firstn 2 (map Some (split "/" (Some 1%nat) tail) ++ [None])%list with
      | [svc; feature] =>
          match svc with
          | None => Raise AttributeError
          | Some svc =>
              match firstn 2 (map Some (split ":" None svc) ++ [None])%list with
              | [provider; service] => Ok (provider, service, feature)
              | _ => Raise (ValueError "not enough values to unpack")
              end
          end
      | _ => Raise (ValueError "not enough values to unpack")
      end
  end.

(** ** [uuid.UUID] of the Python library, as far as [misc.py] uses it *)

Local Open Scope Z_scope.

Definition hexdigits : list ascii := list_ascii_of_string "0123456789abcdef".

Definition hexdigit (d : Z) : ascii := nth (Z.to_nat d) hexdigits "0"%char.

(** ['%0<width>x' % n] for [0 <= n < 16 ^ width]: exactly [width] lower-case
    hexadecimal digits, most significant first. *)
Fixpoint format_x (width : nat) (n : Z) : string :=
  match width with
  | O => EmptyString
  | S k => String (hexdigit ((n / 16 ^ Z.of_nat k) mod 16)) (format_x k n)
  end.

(** Value of a hexadecimal digit of either case. *)
Definition hexval (c : ascii) : option Z :=
  let n := Z.of_nat (nat_of_ascii c) in
  if (48 <=? n) && (n <=? 57) then Some (n - 48)
  else if (97 <=? n) && (n <=? 102) then Some (n - 87)
  else if (65 <=? n) && (n <=? 70) then Some (n - 55)
  else None.

Fixpoint int16_from (acc : Z) (s : string) : option Z :=
  match s with
  | EmptyString => Some acc
  | String c s' =>
      match hexval c with
      | Some d => int16_from (acc * 16 + d) s'
      | None => None
      end
  end.

(** [int(s, 16)] on a string of hexadecimal digits; [None] stands for the
    [ValueError] of a malformed literal.  Python's [int] also accepts
    surrounding white space, a sign, a [0x] prefix and single underscores
    between digits; [UUID.hex] never contains any of them, so [is_uuid] below
    answers [False] on such an input whether it is parsed or refused. *)
Definition int16 (s : string) : option Z :=
  match s with
  | EmptyString => None
  | _ => int16_from 0 s
  end.

(** The four assignments of [UUID.__init__] that set the variant to
    RFC 4122 and the version number. *)
Definition set_variant_version (int version : Z) : Z :=
  let int := Z.land int (Z.lnot (Z.shiftl 0xc000 48)) in
  let int := Z.lor int (Z.shiftl 0x8000 48) in
  let int := Z.land int (Z.lnot (Z.shiftl 0xf000 64)) in
  let int := Z.lor int (Z.shiftl version 76) in
  int.

(** The tail of [UUID.__init__]: the range check, then the variant and
    version when [version] is given.  A UUID object is represented by its
    [int]. *)
Definition UUID_init (int : Z) (version : option Z) : result Z :=
  if negb ((0 <=? int) && (int <? Z.shiftl 1 128))
  then Raise (ValueError "int is out of range (need a 128-bit value)")
  else
    match version with
    | None => Ok int
    | Some version =>
        if negb ((1 <=? version) && (version <=? 5))
        then Raise (ValueError "illegal version number")
        else Ok (set_variant_version int version)
    end.

(** [UUID(hex, version=version)]. *)
Definition UUID (hex : string) (version : option Z) : result Z :=
  let hex := replace "uuid:" "" (replace "urn:" "" hex) in
  let hex := replace "-" "" (strip "{}" hex) in
  if negb (String.length hex =? 32)%nat
  then Raise (ValueError "badly formed hexadecimal UUID string")
  else
    match int16 hex with
    | None => Raise (ValueError "invalid literal for int() with base 16")
    | Some int => UUID_init int version
    end.

(** [UUID.hex]: ['%032x' % self.int]. *)
Definition UUID_hex (val : Z) : string := format_x 32 val.

(** [uuid4()] is [UUID(bytes=os.urandom(16), version=4)]; [rand] is the
    integer [int.from_bytes(os.urandom(16), 'big')]. *)
Definition uuid4 (rand : Z) : result Z := UUID_init rand (Some 4).

(** ** [quest/util/misc.py]: identifiers and classification *)

(** [is_uuid(uuid)] on a string. *)
Definition is_uuid (uuid : string) : bool :=
  match UUID uuid (Some 4) with
  | Raise _ => false
  | Ok val => String.eqb (UUID_hex val) uuid
  end.

(** [uuid[1:]]. *)
Definition drop_first (s : string) : string :=
  match s with
  | EmptyString => EmptyString
  | String _ s' => s'
  end.

(** [uuid(resource_type)], with the entropy [rand] drawn by [uuid4]. *)
Definition uuid (resource_type : string) (rand : Z) : result string :=
  match uuid4 rand with
  | Raise e => Raise e
  | Ok val =>
      let uuid := UUID_hex val in
      let uuid := if String.eqb resource_type "feature"
                  then "f" ++ drop_first uuid else uuid in
      let uuid := if String.eqb resource_type "dataset"
                  then "d" ++ drop_first uuid else uuid in
      Ok uuid
  end.

Local Close Scope Z_scope.

(** A data frame with the columns [uri] and [type], row by row. *)
Record frame : Type := { col_uri : list string; col_type : list string }.

(** [df['type'][mask] = v]. *)
Fixpoint set_where (col : list string) (mask : list bool) (v : string) : list string :=
  match col, mask with
  | c :: col', m :: mask' => (if m then v else c) :: set_where col' mask' v
  | _, _ => col
  end.

(** [a & b] on boolean columns. *)
Fixpoint and_mask (a b : list bool) : list bool :=
  match a, b with
  | x :: a', y :: b' => (x && y) :: and_mask a' b'
  | _, _ => []
  end.

(** The five values the [type] column takes, in the sorted order in which
    [groupby] lists its groups. *)
Definition type_names : list string :=
  ["collections"; "datasets"; "features"; "publishers"; "services"].

Fixpoint rows_of_type (t : string) (uris types : list string) : list string :=
  match uris, types with
  | u :: uris', ty :: types' =>
      if String.eqb ty t then u :: rows_of_type t uris' types'
      else rows_of_type t uris' types'
  | _, _ => []
  end.

(** [df.groupby('type').groups]: for every type that occurs, the index
    labels (the uris) of its rows. *)
Definition groups (df : frame) : list (string * list string) :=
  filter (fun g => negb (Nat.eqb (List.length (snd g)) 0))
         (map (fun t => (t, rows_of_type t (col_uri df) (col_type df))) type_names).

Inductive classified : Type :=
| AsDict (g : list (string * list string))
| AsGroupBy (df : frame) (g : list (string * list string))
| AsFrame (df : frame).

(** [classify_uris(uris, grouped, as_dataframe, require_same_type, exclude)]
    on a list of strings ([listify] returns a list unchanged). *)
Definition classify_uris (uris : list string) (grouped as_dataframe : bool)
           (require_same_type : bool) (exclude : option (list string))
  : result classified :=
  let types := map (fun _ => "collections") uris in
  let uuid_idx := map is_uuid uris in
  let service_idx := map (fun u => startswith u "svc://") uris in
  let publish_idx := map (fun u => startswith u "pub://") uris in
  let feature_idx := and_mask uuid_idx (map (fun u => startswith u "f") uris) in
  let dataset_idx := and_mask uuid_idx (map (fun u => startswith u "d") uris) in
  let types := set_where types service_idx "services" in
  let types := set_where types publish_idx "publishers" in
  let types := set_where types feature_idx "features" in
  let types := set_where types dataset_idx "datasets" in
  let df := {| col_uri := uris; col_type := types |} in
  let g := groups df in
  let excluded :=
    match exclude with
    | None => None
    | Some ex => find (fun t => existsb (fun kv => String.eqb (fst kv) t) g) ex
    end in
  match excluded with
  | Some t => Raise (ValueError ("Uris for " ++ t ++ " are not allowed."))
  | None =>
      if require_same_type && (1 <? List.length g)%nat
      then Raise (ValueError "All uris must be of the same type")
      else if negb as_dataframe then Ok (AsDict g)
      else if grouped then Ok (AsGroupBy df g)
      else Ok (AsFrame df)
  end.

(** The decision list of the specification (4.1), in its order: a UUID with
    the tag prefix [f], a UUID with the tag prefix [d], the prefix [svc://],
    the prefix [pub://], otherwise [collections]. *)
Definition spec_type (uri : string) : string :=
  if is_uuid uri && startswith uri "f" then "features"
  else if is_uuid uri && startswith uri "d" then "datasets"
  else if startswith uri "svc://" then "services"
  else if startswith uri "pub://" then "publishers"
  else "collections".

(** ** Paths: [os.path] on POSIX and the directories of [misc.py] *)

Fixpoint endswith_sep (s : string) : bool :=
  match s with
  | EmptyString => false
  | String c EmptyString => Ascii.eqb c "/"
  | String _ s' => endswith_sep s'
  end.

(** [os.path.isabs(p)]. *)
Definition isabs (p : string) : bool := startswith p "/".

(** [os.path.join(a, b)]. *)
Definition join (a b : string) : string :=
  if startswith b "/" then b
  else if (String.length a =? 0)%nat || endswith_sep a then a ++ b
  else a ++ "/" ++ b.

(** The settings [get_settings()] returns ([quest/util/config.py] is not
    among the sources; the two entries read here are taken as given). *)
Record settings : Type := { BASE_DIR : string; PROJECTS_DIR : string }.

Definition get_quest_dir (cfg : settings) : string := BASE_DIR cfg.

(** [_abs_path(path, mkdir=False)]. *)
Definition _abs_path (cfg : settings) (path : string) : string :=
  if negb (isabs path) then join (get_quest_dir cfg) path else path.

Definition get_projects_dir (cfg : settings) : string :=
  _abs_path cfg (PROJECTS_DIR cfg).

(** ** Dictionaries *)

Definition dict (V : Type) : Type := list (string * V).

(** [list(d.keys())]. *)
Definition keys {V : Type} (d : dict V) : list string := map fst d.

(** [k in d.keys()]. *)
Definition dict_mem {V : Type} (k : string) (d : dict V) : bool :=
  existsb (String.eqb k) (keys d).

(** [d[k]]; [None] stands for [KeyError]. *)
Fixpoint dict_get {V : Type} (k : string) (d : dict V) : option V :=
  match d with
  | [] => None
  | (k', v) :: d' => if String.eqb k k' then Some v else dict_get k d'
  end.

(** [d.update({k: v})]: a present key keeps its place, a new key goes last. *)
Fixpoint dict_update {V : Type} (k : string) (v : V) (d : dict V) : dict V :=
  match d with
  | [] => [(k, v)]
  | (k', v') :: d' =>
      if String.eqb k k' then (k, v) :: d' else (k', v') :: dict_update k v d'
  end.

(** [del d[k]] and [d.pop(k)] on a present key. *)
Fixpoint dict_del {V : Type} (k : string) (d : dict V) : dict V :=
  match d with
  | [] => []
  | (k', v') :: d' =>
      if String.eqb k k' then d' else (k', v') :: dict_del k d'
  end.

(** ** The persisted state and the collaborators *)

Definition PROJECT_DB_FILE : string := "metadata.db".
Definition PROJECT_INDEX_FILE : string := "project_index.yml".

(** The attribute record of a project store. *)
Record attrs : Type :=
  { display_name : string;
    description : string;
    metadata : list (string * string) }.

(** A registry entry [{'folder': folder}]. *)
Record entry : Type := { folder : string }.

(** Modelled from the spec: [util.read_yaml] and [util.write_yaml]
    ([quest/util/io.py]) are not among the sources.  The index file
    [project_index.yml] is the mapping they read and write, with its two keys
    [active_project] and [projects]; a key the file lacks is [None]. *)
Record index_file : Type :=
  { active_project : option string;
    projects : option (dict entry) }.

(** Modelled from the spec: [quest/api/database.py] ([init_db], [get_db], the
    [Project] entity) is not among the sources, and the file system is
    outside the program.  The registry consumes them through this interface
    (spec 4.4); [B] is the state of the file system, of the stores in it and
    of the database connection.
    - [os_path_exists path]: [os.path.exists(path)];
    - [makedirs path]: [os.makedirs(path, exist_ok=True)];
    - [rmtree path]: [shutil.rmtree(path)];
    - [init_db dbpath]: open the store at [dbpath], creating it when absent;
    - [Project_create dbpath a]: insert an attribute record in that store;
    - [Project_get dbpath]: [db.Project.get().to_dict()] without its [id],
      [None] when the store does not yield one record and the call raises;
    - [get_db dbpath]: [get_db(dbpath, reconnect=True)].
    The operations are total: input/output faults of the machine are not
    modelled, and the index file lies outside every project folder. *)
Class Backend (B : Type) : Type :=
  { os_path_exists : string -> B -> bool;
    makedirs : string -> B -> B;
    rmtree : string -> B -> B;
    init_db : string -> B -> B;
    Project_create : string -> attrs -> B -> B;
    Project_get : string -> B -> option attrs;
    get_db : string -> B -> B }.

Record world (B : Type) : Type := { index : index_file; disk : B }.

Arguments index {B} w.
Arguments disk {B} w.

(** ** The monad of the registry functions *)

Definition M (B A : Type) : Type := world B -> world B * result A.

Definition ret {B A : Type} (a : A) : M B A := fun w => (w, Ok a).

Definition raise {B A : Type} (e : exn) : M B A := fun w => (w, Raise e).

Definition bind {B A C : Type} (m : M B A) (k : A -> M B C) : M B C :=
  fun w =>
    match m w with
    | (w', Ok a) => k a w'
    | (w', Raise e) => (w', Raise e)
    end.

(** [try: m except Exception as e: h e]. *)
Definition try_except {B A : Type} (m : M B A) (h : exn -> M B A) : M B A :=
  fun w =>
    match m w with
    | (w', Ok a) => (w', Ok a)
    | (w', Raise e) => h e w'
    end.

Notation "x <- m ;; k" := (bind m (fun x => k))
  (at level 61, m at next level, right associativity).
Notation "m ;;; k" := (bind m (fun _ => k))
  (at level 61, right associativity).

(** What [remove_project] and [delete_project] return: the dictionary
    [projects], or the list [get_projects()] after [default] was re-created. *)
Inductive remaining_projects : Type :=
| Projects (d : dict entry)
| Names (l : list string).

(** ** [quest/api/projects.py] *)

Section Projects.

Context {B : Type} `{Backend B}.
Variable cfg : settings.

(** Lift an operation of the collaborators to the monad. *)
Definition on_disk (f : B -> B) : M B unit :=
  fun w => ({| index := index w; disk := f (disk w) |}, Ok tt).

Definition read_yaml : M B index_file := fun w => (w, Ok (index w)).

Definition write_yaml (contents : index_file) : M B unit :=
  fun w => ({| index := contents; disk := disk w |}, Ok tt).

Definition path_exists (path : string) : M B bool :=
  fun w => (w, Ok (os_path_exists path (disk w))).

Definition mkdir_if_doesnt_exist (dir_path : string) : M B unit :=
  on_disk (makedirs dir_path).

Definition _get_projects_index_file : string :=
  join (get_projects_dir cfg) PROJECT_INDEX_FILE.

Definition _load_projects : M B (dict entry) :=
  contents <- read_yaml ;;
  match projects contents with
  | None => ret []
  | Some [] => ret []
  | Some projects => ret projects
  end.

Definition _write_projects (projects : dict entry) : M B unit :=
  contents <- read_yaml ;;
  write_yaml {| active_project := active_project contents;
                projects := Some projects |}.

Definition get_active_project : M B string :=
  contents <- read_yaml ;;
  match active_project contents with
  | Some name => ret name
  | None => ret "default"
  end.

(** [get_projects()] with [expand=False] and [as_dataframe=False]. *)
Definition get_projects : M B (list string) :=
  projects <- _load_projects ;;
  ret (keys projects).

Definition _get_project_db (name : string) : M B string :=
  projects <- _load_projects ;;
  if negb (dict_mem name projects)
  then raise (ValueError ("Project " ++ name ++ " not found"))
  else
    match dict_get name projects with
    | None => raise (KeyError name)
    | Some e =>
        let path := folder e in
        let path := if negb (isabs path)
                    then join (get_projects_dir cfg) path else path in
        mkdir_if_doesnt_exist path ;;;
        ret (join path PROJECT_DB_FILE)
    end.

Definition _load_project (name : string) : M B attrs :=
  dbpath <- _get_project_db name ;;
  on_disk (init_db dbpath) ;;;
  fun w =>
    match Project_get dbpath (disk w) with
    | Some project => (w, Ok project)
    | None => (w, Raise StoreError)
    end.

Definition active_db : M B string :=
  name <- get_active_project ;;
  _get_project_db name.

Definition set_active_project (name : string) : M B string :=
  contents <- read_yaml ;;
  match projects contents with
  | None => raise (KeyError "projects")
  | Some registered =>
      if negb (dict_mem name registered)
      then raise (ValueError ("Project " ++ name ++ " does not exist"))
      else
        write_yaml {| active_project := Some name;
                      projects := projects contents |} ;;;
        dbpath <- active_db ;;
        on_disk (get_db dbpath) ;;;
        ret name
  end.

Definition new_project (name : string) (display_name description : option string)
           (metadata : option (list (string * string)))
           (folder : option string) (activate : bool) : M B attrs :=
  let name := lower name in
  projects <- _load_projects ;;
  if dict_mem name projects
  then raise (ValueError ("Project " ++ name ++ " exists, please use a unique name"))
  else
    let display_name := match display_name with Some d => d | None => name end in
    let description := match description with Some d => d | None => "" end in
    let folder := match folder with Some f => f | None => name end in
    let metadata := match metadata with Some m => m | None => [] end in
    let path := if negb (isabs folder)
                then join (get_projects_dir cfg) folder else folder in
    mkdir_if_doesnt_exist path ;;;
    let dbpath := join path PROJECT_DB_FILE in
    on_disk (init_db dbpath) ;;;
    on_disk (Project_create dbpath {| display_name := display_name;
                                      description := description;
                                      metadata := metadata |}) ;;;
    let projects := dict_update name {| folder := folder |} projects in
    _write_projects projects ;;;
    (if activate then set_active_project name ;;; ret tt else ret tt) ;;;
    _load_project name.

(** In the handler [projects] is the dictionary the [try] block updated. *)
Definition add_project (name path : string) (activate : bool) : M B attrs :=
  let name := lower name in
  projects <- _load_projects ;;
  if dict_mem name projects
  then raise (ValueError ("Project " ++ name ++ " exists, please use a unique name"))
  else
    found <- path_exists path ;;
    if negb found
    then raise (ValueError ("Path does not exist: " ++ path))
    else
      let folder := path in
      let projects := dict_update name {| folder := folder |} projects in
      project <- try_except
                   (_write_projects projects ;;; _load_project name)
                   (fun _ =>
                      if negb (dict_mem name projects) then raise (KeyError name)
                      else
                        _write_projects (dict_del name projects) ;;;
                        raise (ValueError ("Invalid Project Folder: " ++ path))) ;;
      (if activate then set_active_project name ;;; ret tt else ret tt) ;;;
      ret project.

Definition remove_project (name : string) : M B remaining_projects :=
  projects <- _load_projects ;;
  if negb (dict_mem name projects)
  then ret (Projects projects)
  else
    let projects := dict_del name projects in
    _write_projects projects ;;;
    current <- get_active_project ;;
    if String.eqb name current
    then
      let active :=
        if dict_mem "default" projects then Some "default"
        else if (0 <? List.length projects)%nat then hd_error (keys projects)
        else None in
      match active with
      | None =>
          new_project "default" None None None None true ;;;
          names <- get_projects ;;
          ret (Names names)
      | Some active =>
          set_active_project active ;;;
          ret (Projects projects)
      end
    else ret (Projects projects).

Definition delete_project (name : string) : M B remaining_projects :=
  projects <- _load_projects ;;
  if negb (dict_mem name projects)
  then ret (Projects projects)
  else
    match dict_get name projects with
    | None => raise (KeyError name)
    | Some e =>
        let folder := folder e in
        let path := if negb (isabs folder)
                    then join (get_projects_dir cfg) folder else folder in
        found <- path_exists path ;;
        (if found then on_disk (rmtree path) else ret tt) ;;;
        remove_project name
    end.

(** A call of the public interface, and the world it leaves behind
    whether it returns or raises. *)
Inductive call : Type :=
| NewProject (name : string) (display_name description : option string)
             (metadata : option (list (string * string)))
             (folder : option string) (activate : bool)
| AddProject (name path : string) (activate : bool)
| DeleteProject (name : string)
| RemoveProject (name : string)
| SetActiveProject (name : string).

Definition exec (c : call) (w : world B) : world B :=
  match c with
  | NewProject name display_name description metadata folder activate =>
      fst (new_project name display_name description metadata folder activate w)
  | AddProject name path activate => fst (add_project name path activate w)
  | DeleteProject name => fst (delete_project name w)
  | RemoveProject name => fst (remove_project name w)
  | SetActiveProject name => fst (set_active_project name w)
  end.

Definition run (calls : list call) (w : world B) : world B :=
  fold_left (fun w c => exec c w) calls w.

(** A call that deletes or unregisters a project. *)
Definition is_removal (c : call) : bool :=
  match c with
  | DeleteProject _ | RemoveProject _ => true
  | _ => false
  end.

(** The path of a project folder, as the functions above compute it. *)
Definition folder_path (folder : string) : string :=
  if negb (isabs folder) then join (get_projects_dir cfg) folder else folder.

(** What [_load_projects] and [get_active_project] read in a world. *)
Definition registry (w : world B) : dict entry :=
  match projects (index w) with
  | Some projects => projects
  | None => []
  end.

Definition active (w : world B) : string :=
  match active_project (index w) with
  | Some name => name
  | None => "default"
  end.

(** The active project is a registered one. *)
Definition active_registered (w : world B) : Prop :=
  In (active w) (keys (registry w)).

(** A computation that leaves the index file as it found it. *)
Definition keeps_index {A : Type} (m : M B A) : Prop :=
  forall w, index (fst (m w)) = index w.

End Projects.

(** ** Auxiliary notions used in the proofs *)

(** A lower-case hexadecimal digit. *)
Definition lower_hex (c : ascii) : bool := mem_char c "0123456789abcdef".

Fixpoint all_chars (P : ascii -> bool) (s : string) : bool :=
  match s with
  | EmptyString => true
  | String c s' => P c && all_chars P s'
  end.

(** The number whose rendering is the rendering of [n] with the first of
    its 32 digits replaced by the digit [t]. *)
Definition retag (t n : Z) : Z := (t * 16 ^ 31 + n mod 16 ^ 31)%Z.

(** ** A reference implementation of the collaborators

    Directories are a list of paths; a store is the list of attribute records
    kept under its path.  [Project_get] answers when the store holds exactly
    one record. *)

Record sim_disk : Type :=
  { dirs : list string;
    dbs : dict (list attrs) }.

Definition under (root path : string) : bool :=
  String.eqb path root || startswith path (root ++ "/").

Definition sim_exists (path : string) (d : sim_disk) : bool :=
  existsb (String.eqb path) (dirs d) || dict_mem path (dbs d).

Definition sim_makedirs (path : string) (d : sim_disk) : sim_disk :=
  if existsb (String.eqb path) (dirs d) then d
  else {| dirs := (dirs d ++ [path])%list; dbs := dbs d |}.

Definition sim_rmtree (path : string) (d : sim_disk) : sim_disk :=
  {| dirs := filter (fun p => negb (under path p)) (dirs d);
     dbs := filter (fun kv => negb (under path (fst kv))) (dbs d) |}.

Definition sim_init_db (dbpath : string) (d : sim_disk) : sim_disk :=
  if dict_mem dbpath (dbs d) then d
  else {| dirs := dirs d; dbs := dict_update dbpath [] (dbs d) |}.

Definition sim_create (dbpath : string) (a : attrs) (d : sim_disk) : sim_disk :=
  let records := match dict_get dbpath (dbs d) with Some r => r | None => [] end in
  {| dirs := dirs d; dbs := dict_update dbpath (records ++ [a])%list (dbs d) |}.

Definition sim_get (dbpath : string) (d : sim_disk) : option attrs :=
  match dict_get dbpath (dbs d) with
  | Some [a] => Some a
  | _ => None
  end.

#[export] Instance sim_backend : Backend sim_disk :=
  { os_path_exists := sim_exists;
    makedirs := sim_makedirs;
    rmtree := sim_rmtree;
    init_db := sim_init_db;
    Project_create := sim_create;
    Project_get := sim_get;
    get_db := sim_init_db }.

(** A configuration and three worlds used in the examples below. *)
Definition cfg0 : settings := {| BASE_DIR := "/q"; PROJECTS_DIR := "projects" |}.

Definition attrs_of (name : string) : attrs :=
  {| display_name := name; description := ""; metadata := [] |}.

Definition disk_of (names : list string) : sim_disk :=
  {| dirs := map (fun n => "/q/projects/" ++ n) names;
     dbs := map (fun n => ("/q/projects/" ++ n ++ "/metadata.db", [attrs_of n])) names |}.

Definition world_of (active : string) (names : list string) : world sim_disk :=
  {| index := {| active_project := Some active;
                 projects := Some (map (fun n => (n, {| folder := n |})) names) |};
     disk := disk_of names |}.

(** A world with a folder [/data/x] that holds no store. *)
Definition world_with_folder : world sim_disk :=
  {| index := {| active_project := Some "default";
                 projects := Some [("default", {| folder := "default" |})] |};
     disk := {| dirs := ["/q/projects/default"; "/data/x"];
                dbs := [("/q/projects/default/metadata.db", [attrs_of "default"])] |} |}.

(** ** Further functions of [quest/util/misc.py] *)

(** [is_remote_uri(path)]: [re.search] of the pattern [^https?\://] finds
    [http], an optional [s] and then [://] at the start of [path]. *)
Definition is_remote_uri (path : string) : bool :=
  startswith path "http://" || startswith path "https://".

(** The ASCII characters [str.strip()] removes: tab, line feed, vertical
    tab, form feed, carriage return, the four separators [\x1c] to [\x1f]
    and the space. *)
Definition whitespace : string :=
  string_of_list_ascii
    (map ascii_of_nat [9; 10; 11; 12; 13; 28; 29; 30; 31; 32]).

(** The Python values [listify] tells apart. *)
#[warnings="-register-all"] Inductive value : Type :=
| VNone
| VStr (s : string)
| VList (items : list value)
| VDict (items : list (string * value))
| VInt (n : Z).

(** [listify(liststr, delimiter=',')]; [str.split] raises [ValueError] on an
    empty separator. *)
Definition listify (liststr : value) (delimiter : string) : result value :=
  match liststr with
  | VNone => Ok VNone
  | VDict _ | VList _ => Ok liststr
  | VStr s =>
      match delimiter with
      | EmptyString => Raise (ValueError "empty separator")
      | _ => Ok (VList (map (fun piece => VStr (strip whitespace piece))
                            (split delimiter None s)))
      end
  | _ => Ok (VList [liststr])
  end.

(** [s.find(sub)]: the index of the first occurrence, or [-1]. *)
Fixpoint find_from (sub s : string) (i : Z) : Z :=
  if startswith s sub then i
  else
    match s with
    | EmptyString => (-1)%Z
    | String _ s' => find_from sub s' (i + 1)%Z
    end.

Definition find (sub s : string) : Z := find_from sub s 0%Z.

(** [s[b:e]]: a negative bound counts from the end, and both are clipped to
    the string. *)
Definition slice (s : string) (b e : Z) : string :=
  let len := Z.of_nat (String.length s) in
  let clip i := if (i <? 0)%Z then Z.max 0 (i + len) else Z.min i len in
  let b := clip b in
  let e := clip e in
  String.substring (Z.to_nat b) (Z.to_nat (e - b)) s.

(** ** [quest_tool_plugins/raster/raster.py] *)

Section RstUnitConversion.

(** The data a raster holds, the factor the unit registry returns and their
    product are outside the sources: [data] is what [df.read()] returns,
    [convert src dst] is [unit_registry().convert(1, src=src, dst=dst)],
    which raises on units it cannot convert, and [scale] is [result *
    conversion]. *)
Variables (D F : Type).
Variable scale : D -> F -> D.
Variable convert : string -> string -> result F.

(** The two objects [_run] writes to: the dictionary passed as
    [orig_metadata] (the local [metadata] is the same object) and the
    attribute [df.metadata], which ends up referring to that dictionary. *)
Record rst_state : Type :=
  { orig_metadata : dict string;
    df_metadata : option (dict string) }.

(** [RstUnitConversion._run(self, df, orig_metadata)] with [self.to_units]
    and the data of [df]; the state reached is returned with the result. *)
Definition RstUnitConversion_run (to_units : option string) (data : D)
           (st : rst_state) : rst_state * result D :=
  match to_units with
  | None => (st, Raise (ValueError "to_units cannot be None"))
  | Some self_to_units =>
      let metadata := orig_metadata st in
      let metadata := if dict_mem "file_path" metadata
                      then dict_del "file_path" metadata else metadata in
      let st := {| orig_metadata := metadata; df_metadata := df_metadata st |} in
      match dict_get "unit" metadata with
      | None => (st, Raise (KeyError "unit"))
      | Some from_units =>
          let to_units :=
            if contains "/" from_units && negb (contains "/" self_to_units)
            then
              let beg := find "/" from_units in
              let end_ := Z.of_nat (String.length from_units) in
              let default_time := slice from_units beg end_ in
              self_to_units ++ default_time
            else self_to_units in
          match convert from_units to_units with
          | Raise e => (st, Raise e)
          | Ok conversion =>
              let result := scale data conversion in
              let metadata := dict_update "unit" to_units metadata in
              ({| orig_metadata := metadata; df_metadata := Some metadata |},
               Ok result)
          end
      end
  end.

End RstUnitConversion.

(** ** [bbox2poly] of [quest/util/misc.py] *)

(** The floating-point numbers of Python, as far as [bbox2poly] uses them:
    comparison, addition, subtraction, the integer constants and the truth
    value of a number ([x or y] takes [y] when [x] is zero). *)
Class Float (F : Type) : Type :=
  { float_lt : F -> F -> bool;
    float_add : F -> F -> F;
    float_sub : F -> F -> F;
    float_of_int : Z -> F;
    float_truth : F -> bool }.

(** The library whose [Polygon] and [MultiPolygon] build the result. *)
Inductive geometry_library : Type := geojson | shapely.

Inductive bbox_result (F : Type) : Type :=
| PlainRing (ring : list (F * F))
| Polygon (library : geometry_library) (ring : list (F * F))
| MultiPolygon (library : geometry_library) (polygons : list (list (F * F))).

Arguments PlainRing {F} ring.
Arguments Polygon {F} library ring.
Arguments MultiPolygon {F} library polygons.

Section Bbox.

Context {F : Type} `{Float F}.

(** [list([[xmin, ymin], [xmin, ymax], [xmax, ymax], [xmax, ymin]])] with
    its first point appended. *)
Definition closed_ring (xmin ymin xmax ymax : F) : list (F * F) :=
  let poly := [(xmin, ymin); (xmin, ymax); (xmax, ymax); (xmax, ymin)] in
  (poly ++ [hd (xmin, ymin) poly])%list.

(** [bbox2poly(x1, y1, x2, y2, reverse_order, as_geojson, as_shapely)] on
    numbers that are floats already. *)
Definition bbox2poly (x1 y1 x2 y2 : F) (reverse_order as_geojson as_shapely : bool)
  : bbox_result F :=
  let '(x1, y1, x2, y2) :=
    if reverse_order then (y1, x1, y2, x2) else (x1, y1, x2, y2) in
  let xmin := x1 in
  let xmax := x2 in
  let ymin := y1 in
  let ymax := y2 in
  let poly := closed_ring xmin ymin xmax ymax in
  if negb (as_geojson || as_shapely) then PlainRing poly
  else
    let library := if as_shapely then shapely else geojson in
    let xmin2 := if float_lt xmin (float_of_int (-180))
                 then Some (float_add (float_of_int 360) xmin) else None in
    let xmin := if float_lt xmin (float_of_int (-180))
                then float_of_int (-180) else xmin in
    let xmax2 := if float_lt (float_of_int 180) xmax
                 then Some (float_sub xmax (float_of_int 360)) else None in
    let xmax := if float_lt (float_of_int 180) xmax
                then float_of_int 180 else xmax in
    match xmin2, xmax2 with
    | None, None => Polygon library poly
    | _, _ =>
        let poly1 := closed_ring xmin ymin xmax ymax in
        let or_else (x : option F) (y : F) :=
          match x with
          | Some v => if float_truth v then v else y
          | None => y
          end in
        let xmin := or_else xmin2 (float_of_int (-180)) in
        let xmax := or_else xmax2 (float_of_int 180) in
        let poly2 := closed_ring xmin ymin xmax ymax in
        MultiPolygon library [poly1; poly2]
    end.

End Bbox.

(** The rings a result is made of. *)
Definition rings {F : Type} (r : bbox_result F) : list (list (F * F)) :=
  match r with
  | PlainRing ring => [ring]
  | Polygon _ ring => [ring]
  | MultiPolygon _ polygons => polygons
  end.

(** Integers as numbers, for the examples. *)
#[export] Instance Z_float : Float Z :=
  { float_lt := Z.ltb;
    float_add := Z.add;
    float_sub := Z.sub;
    float_of_int := fun n => n;
    float_truth := fun n => negb (Z.eqb n 0) }.

(** ** Further functions of [quest/api/projects.py] *)

Section ProjectsMore.

Context {B : Type} `{Backend B}.
Variable cfg : settings.

(** A row of the expanded listing: the attributes of the store with the
    keys [name] and [folder] added. *)
Record expanded : Type :=
  { project_attrs : attrs;
    project_name : string;
    project_folder : string }.

(** The loop of [get_projects] over [_load_projects().items()]. *)
Fixpoint expand_projects (items : list (string * entry)) (projects : dict expanded)
  : M B (dict expanded) :=
  match items with
  | [] => ret projects
  | (name, project) :: items' =>
      let path := folder project in
      let path := if negb (isabs path)
                  then join (get_projects_dir cfg) path else path in
      data <- _load_project cfg name ;;
      let data := {| project_attrs := data;
                     project_name := name;
                     project_folder := path |} in
      expand_projects items' (dict_update name data projects)
  end.

(** The key, the [name] and the [folder] of each row of a listing, and for
    each registry entry the key, the key again and the resolved folder. *)
Definition row_summary (rows : dict expanded) : list (string * string * string) :=
  map (fun kv => (fst kv, project_name (snd kv), project_folder (snd kv))) rows.

Definition entry_summary (projects : dict entry) : list (string * string * string) :=
  map (fun kv => (fst kv, fst kv, folder_path cfg (folder (snd kv)))) projects.

(** What [get_projects(expand, as_dataframe)] returns: the list of names,
    the dictionary of rows, or the data frame made of the same rows. *)
Inductive listing : Type :=
| NameList (names : list string)
| RowDict (rows : dict expanded)
| RowFrame (rows : dict expanded).

Definition get_projects_with (expand as_dataframe : bool) : M B listing :=
  if negb expand && negb as_dataframe
  then
    projects <- _load_projects ;;
    ret (NameList (keys projects))
  else
    items <- _load_projects ;;
    projects <- expand_projects items [] ;;
    if as_dataframe then ret (RowFrame projects) else ret (RowDict projects).

(** [_get_project_dir()]. *)
Definition _get_project_dir : M B string :=
  listed <- get_projects_with true false ;;
  current <- get_active_project ;;
  match listed with
  | RowDict rows =>
      match dict_get current rows with
      | Some row => ret (project_folder row)
      | None => raise (KeyError current)
      end
  | _ => raise AttributeError
  end.

End ProjectsMore.

(** The groups of the frame [classify_uris] builds for a list of URIs. *)
Definition groups_of (uris : list string) : list (string * list string) :=
  groups {| col_uri := uris; col_type := map spec_type uris |}.

(* ================================================================= *)
(** * Part II: properties *)
(* ================================================================= *)

(** ** Scenarios of the specification, by evaluation *)

Example scenario_A :
  fst (get_projects (exec cfg0 (NewProject "test" None None None None true)
                          (world_of "default" ["default"])))
  = world_of "test" ["default"; "test"]
  /\ snd (get_projects (world_of "test" ["default"; "test"])) = Ok ["default"; "test"].
Proof. vm_compute. split; reflexivity. Qed.

Example scenario_B :
  let w := exec cfg0 (DeleteProject "p1") (world_of "p1" ["default"; "p1"; "p2"]) in
  snd (get_active_project w) = Ok "default" /\ snd (get_projects w) = Ok ["default"; "p2"].
Proof. vm_compute. split; reflexivity. Qed.

Example scenario_C :
  let w := exec cfg0 (DeleteProject "p1") (world_of "p1" ["p1"; "p2"]) in
  snd (get_active_project w) = Ok "p2" /\ snd (get_projects w) = Ok ["p2"].
Proof. vm_compute. split; reflexivity. Qed.

Example scenario_D :
  delete_project cfg0 "default" (world_of "default" ["default"])
  = (world_of "default" ["default"], Ok (Names ["default"])).
Proof. vm_compute. reflexivity. Qed.

Example scenario_F :
  classify_uris ["f0000000000040008000000000000000";
                 "d0000000000040008000000000000000";
                 "svc://a:b"; "pub://c"; "rawcollection"] true false false None
  = Ok (AsDict [("collections", ["rawcollection"]);
                ("datasets", ["d0000000000040008000000000000000"]);
                ("features", ["f0000000000040008000000000000000"]);
                ("publishers", ["pub://c"]);
                ("services", ["svc://a:b"])]).
Proof. vm_compute. reflexivity. Qed.

(** ** Splitting *)

Lemma startswith_char (c : ascii) (s : string) :
  startswith s (String c EmptyString) =
  match s with
  | EmptyString => false
  | String a _ => Ascii.eqb a c
  end.
Proof.
  destruct s as [|a s']; simpl; [reflexivity|].
  apply andb_true_r.
Qed.

Lemma split_from_nonempty (sep : string) (s : string) :
  forall maxsplit skip, split_from sep maxsplit skip s <> [].
Proof.
  induction s as [|c s' IH]; intros maxsplit skip; simpl.
  - discriminate.
  - destruct skip as [|k]; [|apply IH].
    destruct (_ && can_split maxsplit); [discriminate|].
    specialize (IH maxsplit 0%nat).
    destruct (split_from sep maxsplit 0 s'); [congruence|discriminate].
Qed.

Lemma split_absent (sep : string) (maxsplit : option nat) (s : string) :
  contains sep s = false -> split sep maxsplit s = [s].
Proof.
  unfold split.
  induction s as [|c s' IH]; intros Hc; [reflexivity|].
  cbn [contains] in Hc. apply orb_false_iff in Hc as [Hp Hc].
  cbn [split_from]. rewrite Hp. cbn [andb].
  rewrite (IH Hc). reflexivity.
Qed.

Lemma split_exhausted (sep : string) (s : string) :
  split sep (Some 0%nat) s = [s].
Proof.
  unfold split.
  induction s as [|c s' IH]; [reflexivity|].
  cbn [split_from can_split]. rewrite andb_false_r, IH. reflexivity.
Qed.

Lemma split_at_char (c : ascii) (maxsplit : option nat) (a b : string) :
  contains (String c EmptyString) a = false ->
  can_split maxsplit = true ->
  split (String c EmptyString) maxsplit (a ++ String c b)
  = a :: split (String c EmptyString) (dec_split maxsplit) b.
Proof.
  unfold split. intros Ha Hm.
  induction a as [|x a' IH].
  - cbn [append split_from]. rewrite startswith_char, Ascii.eqb_refl, Hm.
    reflexivity.
  - cbn [contains] in Ha. apply orb_false_iff in Ha as [Hx Ha].
    rewrite startswith_char in Hx.
    cbn [append split_from]. rewrite startswith_char, Hx. cbn [andb].
    rewrite (IH Ha). reflexivity.
Qed.

Lemma contains_char_app (c : ascii) (a b : string) :
  contains (String c EmptyString) (a ++ b)
  = contains (String c EmptyString) a || contains (String c EmptyString) b.
Proof.
  induction a as [|x a' IH].
  - cbn [append]. rewrite (startswith_char c EmptyString) at 1.
    simpl. reflexivity.
  - cbn [append contains]. rewrite !startswith_char, IH.
    apply orb_assoc.
Qed.

Lemma contains_char_cons (c x : ascii) (s : string) :
  contains (String c EmptyString) (String x s)
  = Ascii.eqb x c || contains (String c EmptyString) s.
Proof. cbn [contains]. rewrite startswith_char. reflexivity. Qed.

(** A string without [/] has no [://] in it. *)
Lemma no_slash_no_scheme (s : string) :
  contains "/" s = false -> contains "://" s = false.
Proof.
  induction s as [|x s' IH]; intros Hs; [reflexivity|].
  rewrite contains_char_cons in Hs. apply orb_false_iff in Hs as [Hx Hs].
  cbn [contains]. rewrite (IH Hs), orb_false_r.
  cbn [startswith]. destruct (Ascii.eqb x ":"); [|reflexivity].
  destruct s' as [|y s'']; [reflexivity|].
  rewrite contains_char_cons in Hs. apply orb_false_iff in Hs as [Hy _].
  cbn [andb startswith]. rewrite Hy. reflexivity.
Qed.

Lemma last_item_split (sep : string) (s : string) :
  exists tail, last_item (split sep None s) = Ok tail.
Proof.
  unfold split.
  pose proof (split_from_nonempty sep s None 0) as Hne.
  induction (split_from sep None 0 s) as [|h t IH]; [congruence|].
  destruct t as [|h' t'].
  - exists h. reflexivity.
  - destruct IH as [tail Htail]; [discriminate|].
    exists tail. exact Htail.
Qed.

(** The svc:// scheme is cut off when nothing after it contains [://]. *)
Lemma split_scheme (rest : string) :
  contains "://" rest = false ->
  last_item (split "://" None ("svc://" ++ rest)) = Ok rest.
Proof.
  intros Hrest. unfold split. cbn.
  change (split_from "://" None 0 rest) with (split "://" None rest).
  rewrite (split_absent _ _ _ Hrest). reflexivity.
Qed.

(** ** Service URIs *)

Lemma firstn_two_of_pieces (h : string) (t : list string) :
  firstn 2 (map Some (h :: t) ++ [None])%list
  = [Some h; match t with [] => None | y :: _ => Some y end].
Proof. destruct t; reflexivity. Qed.

Lemma append_assoc (a b c : string) : (a ++ b) ++ c = a ++ b ++ c.
Proof. induction a as [|x a' IH]; simpl; [reflexivity|]. now rewrite IH. Qed.

(** A URI without [/] and without [:] is a provider and nothing else. *)
Lemma parse_provider_only (uri : string) :
  contains "/" uri = false -> contains ":" uri = false ->
  parse_service_uri uri = Ok (Some uri, None, None).
Proof.
  intros Hslash Hcolon. unfold parse_service_uri.
  rewrite (split_absent "://" None uri (no_slash_no_scheme uri Hslash)).
  cbn [last_item].
  rewrite (split_absent "/" _ uri Hslash). cbn [map app firstn].
  rewrite (split_absent ":" _ uri Hcolon). reflexivity.
Qed.

(** C8.  [parse_service_uri] returns the three segments of the two URIs of
    scenario E.  On every string it returns a triple (it never raises) whose
    first component is a string; a URI without [/] has the feature [None],
    and one that has no [:] either is its own provider, with the service
    [None]. *)
Theorem parse_service_uri_segments :
  parse_service_uri "usgs-nwis:iv/01529500"
    = Ok (Some "usgs-nwis", Some "iv", Some "01529500")
  /\ parse_service_uri "gebco-bathymetry" = Ok (Some "gebco-bathymetry", None, None)
  /\ (forall uri, exists provider service feature,
         parse_service_uri uri = Ok (Some provider, service, feature))
  /\ (forall uri, contains "/" uri = false ->
         exists provider service,
           parse_service_uri uri = Ok (Some provider, service, None))
  /\ (forall uri, contains "/" uri = false -> contains ":" uri = false ->
         parse_service_uri uri = Ok (Some uri, None, None)).
Proof.
  split; [reflexivity|]. split; [reflexivity|]. split; [|split].
  - intros uri. unfold parse_service_uri.
    destruct (last_item_split "://" uri) as [tail ->].
    pose proof (split_from_nonempty "/" tail (Some 1%nat) 0) as Hne.
    unfold split at 1.
    destruct (split_from "/" (Some 1%nat) 0 tail) as [|svc rest]; [congruence|].
    rewrite firstn_two_of_pieces.
    pose proof (split_from_nonempty ":" svc None 0) as Hne'.
    unfold split.
    destruct (split_from ":" None 0 svc) as [|provider rest']; [congruence|].
    rewrite firstn_two_of_pieces.
    eexists _, _, _. reflexivity.
  - intros uri Hslash. unfold parse_service_uri.
    rewrite (split_absent "://" None uri (no_slash_no_scheme uri Hslash)).
    cbn [last_item].
    rewrite (split_absent "/" _ uri Hslash).
    change (firstn 2 (map Some [uri] ++ [None])%list) with [Some uri; @None string].
    cbv beta iota.
    pose proof (split_from_nonempty ":" uri None 0) as Hne.
    unfold split.
    destruct (split_from ":" None 0 uri) as [|provider rest]; [congruence|].
    rewrite firstn_two_of_pieces.
    eexists _, _. reflexivity.
  - exact parse_provider_only.
Qed.

Lemma parse_service_uri_segments_witness :
  contains "/" "usgs-ned:1-arc-second" = false
  /\ exists provider service,
       parse_service_uri "usgs-ned:1-arc-second" = Ok (Some provider, service, None).
Proof.
  split; [reflexivity|].
  apply (proj1 (proj2 (proj2 (proj2 parse_service_uri_segments)))).
  reflexivity.
Defined.

(** C9, as amended.  For a provider without [:] and [/], a service without
    [:] and [/], and a feature that is [None] or a string such that
    [provider:service/feature] contains no [://], parsing the constructed
    URI gives back the three parts. *)
Theorem parse_construct_roundtrip (provider service : string) (feature : option string) :
  contains ":" provider = false ->
  contains "/" provider = false ->
  contains ":" service = false ->
  contains "/" service = false ->
  match feature with
  | None => True
  | Some f => contains "://" (provider ++ ":" ++ service ++ "/" ++ f) = false
  end ->
  parse_service_uri (construct_service_uri provider service feature)
  = Ok (Some provider, Some service, feature).
Proof.
  intros Hpc Hps Hsc Hss Hf.
  assert (Hsvc : contains "/" (provider ++ ":" ++ service) = false).
  { rewrite contains_char_app, Hps. cbn [orb append].
    rewrite contains_char_cons, Hss. reflexivity. }
  assert (Hcolon : split ":" None (provider ++ ":" ++ service) = [provider; service]).
  { cbn [append].
    rewrite (split_at_char ":" None provider service Hpc eq_refl).
    cbn [dec_split option_map]. rewrite (split_absent ":" None service Hsc).
    reflexivity. }
  unfold parse_service_uri, construct_service_uri.
  destruct feature as [f|].
  - assert (Huri : ("svc://" ++ provider ++ ":" ++ service) ++ "/" ++ f
                   = "svc://" ++ (provider ++ ":" ++ service) ++ String "/" f).
    { rewrite append_assoc. reflexivity. }
    assert (Hrest : contains "://" ((provider ++ ":" ++ service) ++ String "/" f) = false).
    { rewrite !append_assoc. exact Hf. }
    rewrite Huri, (split_scheme _ Hrest).
    rewrite (split_at_char "/" (Some 1%nat) _ f Hsvc eq_refl).
    cbn [dec_split option_map Nat.pred]. rewrite split_exhausted.
    cbn [map app firstn]. rewrite Hcolon. reflexivity.
  - rewrite (split_scheme _ (no_slash_no_scheme _ Hsvc)).
    rewrite (split_absent "/" _ _ Hsvc). cbn [map app firstn].
    rewrite Hcolon. reflexivity.
Qed.

Lemma parse_construct_roundtrip_witness :
  contains ":" "usgs-nwis" = false
  /\ contains "://" ("usgs-nwis" ++ ":" ++ "iv" ++ "/" ++ "01529500") = false
  /\ parse_service_uri (construct_service_uri "usgs-nwis" "iv" (Some "01529500"))
     = Ok (Some "usgs-nwis", Some "iv", Some "01529500").
Proof.
  split; [reflexivity|]. split; [reflexivity|].
  apply (parse_construct_roundtrip "usgs-nwis" "iv" (Some "01529500"));
    reflexivity.
Defined.

(** C9, as stated, fails: a service may contain [:] under its hypotheses,
    and [parse_service_uri] keeps only what precedes the second [:]. *)
Lemma roundtrip_fails_on_colon_in_service :
  ~ (forall (provider service : string) (feature : option string),
        contains ":" provider = false ->
        contains "/" provider = false ->
        contains "/" service = false ->
        parse_service_uri (construct_service_uri provider service feature)
        = Ok (Some provider, Some service, feature)).
Proof.
  intros Hall.
  specialize (Hall "p" "a:b" None eq_refl eq_refl eq_refl).
  vm_compute in Hall. discriminate Hall.
Qed.

(** The same failure at a feature that carries a scheme of its own. *)
Example roundtrip_fails_on_scheme_in_feature :
  parse_service_uri (construct_service_uri "p" "s" (Some "http://x"))
  = Ok (Some "x", None, None).
Proof. reflexivity. Qed.

(** ** Hexadecimal rendering and parsing *)

Local Open Scope Z_scope.

Lemma hexdigit_lower_hex (d : Z) : lower_hex (hexdigit d) = true.
Proof.
  unfold hexdigit. generalize (Z.to_nat d). intros k.
  do 16 (destruct k as [|k]; [reflexivity|]).
  destruct k; reflexivity.
Qed.

Lemma hexval_hexdigit (d : Z) : 0 <= d < 16 -> hexval (hexdigit d) = Some d.
Proof.
  intros Hd.
  assert (Hk : exists k, (k < 16)%nat /\ d = Z.of_nat k).
  { exists (Z.to_nat d). lia. }
  destruct Hk as (k & Hk & ->).
  do 16 (destruct k as [|k]; [reflexivity|]).
  lia.
Qed.

Lemma pow16_succ (k : nat) : 16 ^ Z.of_nat (S k) = 16 ^ Z.of_nat k * 16.
Proof. rewrite Nat2Z.inj_succ, Z.pow_succ_r by lia. ring. Qed.

Lemma pow16_pos (k : nat) : 0 < 16 ^ Z.of_nat k.
Proof. apply Z.pow_pos_nonneg; lia. Qed.

Lemma mod_pow16_succ (k : nat) (n : Z) :
  n mod 16 ^ Z.of_nat (S k)
  = n mod 16 ^ Z.of_nat k + 16 ^ Z.of_nat k * ((n / 16 ^ Z.of_nat k) mod 16).
Proof.
  rewrite pow16_succ. pose proof (pow16_pos k).
  apply Z.rem_mul_r; lia.
Qed.

Lemma length_format_x (k : nat) (n : Z) : String.length (format_x k n) = k.
Proof. induction k as [|k IH]; simpl; [reflexivity|]. now rewrite IH. Qed.

Lemma format_x_lower_hex (k : nat) (n : Z) : all_chars lower_hex (format_x k n) = true.
Proof.
  induction k as [|k IH]; [reflexivity|].
  cbn [format_x all_chars]. now rewrite hexdigit_lower_hex, IH.
Qed.

Lemma int16_from_format_x (k : nat) (n acc : Z) :
  int16_from acc (format_x k n) = Some (acc * 16 ^ Z.of_nat k + n mod 16 ^ Z.of_nat k).
Proof.
  revert acc. induction k as [|k IH]; intros acc.
  - cbn [format_x int16_from]. f_equal. change (16 ^ Z.of_nat 0) with 1.
    rewrite Z.mod_1_r. ring.
  - cbn [format_x int16_from].
    rewrite hexval_hexdigit by (apply Z.mod_pos_bound; lia).
    rewrite IH, mod_pow16_succ, pow16_succ. f_equal. ring.
Qed.

Lemma int16_format_x (k : nat) (n : Z) :
  0 <= n < 16 ^ Z.of_nat (S k) -> int16 (format_x (S k) n) = Some n.
Proof.
  intros Hn. unfold int16.
  change (match format_x (S k) n with EmptyString => None | _ => int16_from 0 (format_x (S k) n) end)
    with (int16_from 0 (format_x (S k) n)).
  rewrite int16_from_format_x, Z.mod_small by assumption. f_equal; ring.
Qed.

(** The rendering on [k] digits depends on [n] modulo [16 ^ k] only. *)
Lemma format_x_mod (k : nat) (n : Z) :
  format_x k (n mod 16 ^ Z.of_nat k) = format_x k n.
Proof.
  revert n. induction k as [|k IH]; intros n; [reflexivity|].
  pose proof (pow16_pos k) as Hpos.
  pose proof (Z.mod_pos_bound n (16 ^ Z.of_nat k) Hpos) as Hlow.
  cbn [format_x]. rewrite mod_pow16_succ. f_equal.
  - f_equal.
    rewrite (Z.mul_comm (16 ^ Z.of_nat k)), Z.div_add by lia.
    rewrite Z.div_small by lia. rewrite Z.add_0_l. apply Z.mod_mod. lia.
  - rewrite <- IH, (Z.mul_comm (16 ^ Z.of_nat k)), Z_mod_plus_full, Z.mod_mod by lia.
    apply IH.
Qed.

(** ** The variant and version bits *)

(** Bit by bit: bits 62 and 63 become [0] and [1], the nibble at bits 76 to
    79 becomes [4], every other bit is kept. *)
Lemma set_variant_version_4_bits (n i : Z) :
  0 <= i ->
  Z.testbit (set_variant_version n 4) i =
  if i =? 62 then false
  else if i =? 63 then true
  else if (i =? 76) || (i =? 77) || (i =? 79) then false
  else if i =? 78 then true
  else Z.testbit n i.
Proof.
  intros Hi. unfold set_variant_version.
  change (Z.shiftl 0xc000 48) with (Z.lor (2 ^ 62) (2 ^ 63)).
  change (Z.shiftl 0x8000 48) with (2 ^ 63).
  change (Z.shiftl 0xf000 64)
    with (Z.lor (Z.lor (2 ^ 76) (2 ^ 77)) (Z.lor (2 ^ 78) (2 ^ 79))).
  change (Z.shiftl 4 76) with (2 ^ 78).
  repeat (rewrite ?Z.lor_spec, ?Z.land_spec, ?Z.lnot_spec by exact Hi).
  rewrite !Z.pow2_bits_eqb by lia.
  rewrite !(Z.eqb_sym _ i).
  destruct (Z.eqb_spec i 62); destruct (Z.eqb_spec i 63);
    destruct (Z.eqb_spec i 76); destruct (Z.eqb_spec i 77);
    destruct (Z.eqb_spec i 78); destruct (Z.eqb_spec i 79);
    try lia; destruct (Z.testbit n i); reflexivity.
Qed.

Lemma set_variant_version_4_idem (n : Z) :
  set_variant_version (set_variant_version n 4) 4 = set_variant_version n 4.
Proof.
  apply Z.bits_inj'. intros i Hi.
  rewrite !set_variant_version_4_bits by exact Hi.
  repeat (match goal with |- context [if ?b then _ else _] => destruct b end;
          try reflexivity).
Qed.

Lemma set_variant_version_4_range (n : Z) :
  0 <= n < 2 ^ 128 -> 0 <= set_variant_version n 4 < 2 ^ 128.
Proof.
  intros Hn.
  assert (Hmod : set_variant_version n 4 mod 2 ^ 128 = set_variant_version n 4).
  { apply Z.bits_inj'. intros i Hi.
    rewrite Z.testbit_mod_pow2 by lia.
    destruct (Z.ltb_spec i 128) as [|Hhigh]; [reflexivity|].
    rewrite set_variant_version_4_bits by exact Hi.
    repeat (match goal with |- context [if ?b =? ?c then _ else _] =>
                              destruct (Z.eqb_spec b c); [lia|] end).
    destruct (Z.eqb_spec i 76); [lia|]. destruct (Z.eqb_spec i 77); [lia|].
    destruct (Z.eqb_spec i 79); [lia|]. destruct (Z.eqb_spec i 78); [lia|].
    cbn [orb andb].
    rewrite <- (Z.mod_small n (2 ^ 128)) by exact Hn.
    rewrite Z.testbit_mod_pow2 by lia.
    destruct (Z.ltb_spec i 128); [lia|reflexivity]. }
  rewrite <- Hmod. apply Z.mod_pos_bound. lia.
Qed.

Lemma retag_range (t n : Z) : 0 <= t < 16 -> 0 <= retag t n < 2 ^ 128.
Proof.
  intros Ht. unfold retag.
  pose proof (Z.mod_pos_bound n (16 ^ 31) ltac:(lia)).
  change (2 ^ 128) with (16 * 16 ^ 31). nia.
Qed.

Lemma retag_low_bits (t n i : Z) :
  0 <= i < 124 -> Z.testbit (retag t n) i = Z.testbit n i.
Proof.
  intros Hi. unfold retag. change (16 ^ 31) with (2 ^ 124).
  rewrite <- (Z.mod_pow2_bits_low (t * 2 ^ 124 + n mod 2 ^ 124) 124 i) by lia.
  rewrite Z.add_comm, Z_mod_plus_full, Z.mod_mod by lia.
  apply Z.mod_pow2_bits_low. lia.
Qed.

(** Retagging keeps a number whose variant and version bits are in place. *)
Lemma retag_keeps_version (t n : Z) :
  set_variant_version (retag t (set_variant_version n 4)) 4
  = retag t (set_variant_version n 4).
Proof.
  apply Z.bits_inj'. intros i Hi.
  rewrite set_variant_version_4_bits by exact Hi.
  destruct (Z.eqb_spec i 62) as [->|];
    [now rewrite retag_low_bits, set_variant_version_4_bits by lia|].
  destruct (Z.eqb_spec i 63) as [->|];
    [now rewrite retag_low_bits, set_variant_version_4_bits by lia|].
  destruct (Z.eqb_spec i 76) as [->|];
    [now rewrite retag_low_bits, set_variant_version_4_bits by lia|].
  destruct (Z.eqb_spec i 77) as [->|];
    [now rewrite retag_low_bits, set_variant_version_4_bits by lia|].
  destruct (Z.eqb_spec i 79) as [->|];
    [now rewrite retag_low_bits, set_variant_version_4_bits by lia|].
  destruct (Z.eqb_spec i 78) as [->|];
    [now rewrite retag_low_bits, set_variant_version_4_bits by lia|].
  reflexivity.
Qed.

Lemma format_x_retag (t n : Z) :
  0 <= t < 16 ->
  format_x 32 (retag t n) = String (hexdigit t) (drop_first (format_x 32 n)).
Proof.
  intros Ht. pose proof (Z.mod_pos_bound n (16 ^ 31) ltac:(lia)) as Hlow.
  change (format_x 32 (retag t n))
    with (String (hexdigit ((retag t n / 16 ^ 31) mod 16)) (format_x 31 (retag t n))).
  change (drop_first (format_x 32 n)) with (format_x 31 n).
  f_equal.
  - f_equal. unfold retag.
    rewrite Z.add_comm, Z.div_add, Z.div_small by lia.
    apply Z.mod_small. lia.
  - rewrite <- (format_x_mod 31 (retag t n)), <- (format_x_mod 31 n).
    f_equal. unfold retag. change (Z.of_nat 31) with 31.
    rewrite Z.add_comm, Z_mod_plus_full. apply Z.mod_mod. lia.
Qed.

(** ** [is_uuid] on rendered identifiers *)

Lemma replace_absent (P : ascii -> bool) (o : ascii) (old' new s : string) :
  P o = false -> all_chars P s = true -> replace (String o old') new s = s.
Proof.
  intros Ho. unfold replace.
  induction s as [|c s' IH]; intros Hs; [reflexivity|].
  cbn [all_chars] in Hs. apply andb_true_iff in Hs as [Hc Hs].
  cbn [replace_from startswith].
  destruct (Ascii.eqb_spec c o) as [->|_]; [congruence|].
  cbn [andb]. now rewrite (IH Hs).
Qed.

Lemma lstrip_absent (P : ascii -> bool) (chars s : string) :
  (forall c, P c = true -> mem_char c chars = false) ->
  all_chars P s = true -> lstrip chars s = s.
Proof.
  intros HP. destruct s as [|c s']; intros Hs; [reflexivity|].
  cbn [all_chars] in Hs. apply andb_true_iff in Hs as [Hc _].
  cbn [lstrip]. now rewrite (HP c Hc).
Qed.

Lemma rstrip_absent (P : ascii -> bool) (chars s : string) :
  (forall c, P c = true -> mem_char c chars = false) ->
  all_chars P s = true -> rstrip chars s = s.
Proof.
  intros HP. induction s as [|c s' IH]; intros Hs; [reflexivity|].
  cbn [all_chars] in Hs. apply andb_true_iff in Hs as [Hc Hs].
  cbn [rstrip]. rewrite (IH Hs), (HP c Hc).
  destruct s'; reflexivity.
Qed.

Lemma lower_hex_not_brace (c : ascii) :
  lower_hex c = true -> mem_char c "{}" = false.
Proof.
  intros Hc. cbn [mem_char].
  destruct (Ascii.eqb_spec c "{") as [->|_]; [discriminate Hc|].
  destruct (Ascii.eqb_spec c "}") as [->|_]; [discriminate Hc|].
  reflexivity.
Qed.

(** The clean-up that [UUID] applies to its argument leaves a string of
    lower-case hexadecimal digits as it is. *)
Lemma cleanup_lower_hex (s : string) :
  all_chars lower_hex s = true ->
  replace "-" "" (strip "{}" (replace "uuid:" "" (replace "urn:" "" s))) = s.
Proof.
  intros Hs.
  rewrite (replace_absent lower_hex "u" "rn:" "" s eq_refl Hs).
  rewrite (replace_absent lower_hex "u" "uid:" "" s eq_refl Hs).
  unfold strip.
  rewrite (lstrip_absent lower_hex "{}" s lower_hex_not_brace Hs).
  rewrite (rstrip_absent lower_hex "{}" s lower_hex_not_brace Hs).
  apply (replace_absent lower_hex "-" "" "" s eq_refl Hs).
Qed.

Lemma UUID_of_hex (n : Z) :
  0 <= n < 2 ^ 128 ->
  UUID (UUID_hex n) (Some 4) = Ok (set_variant_version n 4).
Proof.
  intros Hn. unfold UUID, UUID_hex.
  rewrite (cleanup_lower_hex _ (format_x_lower_hex 32 n)).
  rewrite length_format_x. cbn [Nat.eqb negb].
  rewrite (int16_format_x 31 n) by exact Hn.
  unfold UUID_init. change (Z.shiftl 1 128) with (2 ^ 128).
  destruct (Z.leb_spec 0 n); [|lia]. destruct (Z.ltb_spec n (2 ^ 128)); [|lia].
  reflexivity.
Qed.

(** A rendered 128-bit number is accepted exactly when its variant and
    version bits are already those of a version 4 UUID. *)
Lemma is_uuid_hex (n : Z) :
  0 <= n < 2 ^ 128 ->
  set_variant_version n 4 = n -> is_uuid (UUID_hex n) = true.
Proof.
  intros Hn Hv. unfold is_uuid.
  rewrite (UUID_of_hex n Hn), Hv. apply String.eqb_refl.
Qed.

(** What [is_uuid] accepts is the rendering of a number. *)
Lemma is_uuid_rendered (u : string) :
  is_uuid u = true -> exists n, u = UUID_hex n.
Proof.
  unfold is_uuid. destruct (UUID u (Some 4)) as [val|e]; [|discriminate].
  intros Heq. apply String.eqb_eq in Heq. exists val. now symmetry.
Qed.

Lemma is_uuid_first_char (u : string) :
  is_uuid u = true -> exists c rest, u = String c rest /\ lower_hex c = true.
Proof.
  intros Hu. destruct (is_uuid_rendered u Hu) as [n ->].
  eexists _, _. split; [reflexivity|]. apply hexdigit_lower_hex.
Qed.

Lemma is_uuid_not_scheme (u : string) :
  is_uuid u = true ->
  startswith u "svc://" = false /\ startswith u "pub://" = false.
Proof.
  intros Hu. destruct (is_uuid_first_char u Hu) as (c & rest & -> & Hc).
  cbn [startswith].
  destruct (Ascii.eqb_spec c "s") as [->|_]; [discriminate Hc|].
  destruct (Ascii.eqb_spec c "p") as [->|_]; [discriminate Hc|].
  split; reflexivity.
Qed.

Lemma is_uuid_iff (u : string) :
  is_uuid u = true <->
  exists n, 0 <= n < 2 ^ 128 /\ set_variant_version n 4 = n /\ u = UUID_hex n.
Proof.
  split.
  - unfold is_uuid, UUID.
    destruct (negb _); [discriminate|].
    destruct (int16 _) as [int|]; [|discriminate].
    unfold UUID_init. change (Z.shiftl 1 128) with (2 ^ 128).
    destruct (Z.leb_spec 0 int); [|discriminate].
    destruct (Z.ltb_spec int (2 ^ 128)); [|discriminate].
    cbn [andb negb Z.leb]. intros Heq. apply String.eqb_eq in Heq.
    exists (set_variant_version int 4).
    split; [apply set_variant_version_4_range; lia|].
    split; [apply set_variant_version_4_idem|now symmetry].
  - intros (n & Hn & Hv & ->). now apply is_uuid_hex.
Qed.

(** ** Classification *)

Local Close Scope Z_scope.

(** The type a row ends with after the four masked assignments, in the
    order of the source, is the type of the decision list. *)
Lemma masked_assignments_spec (u : string) :
  (if is_uuid u && startswith u "d" then "datasets"
   else if is_uuid u && startswith u "f" then "features"
   else if startswith u "pub://" then "publishers"
   else if startswith u "svc://" then "services"
   else "collections") = spec_type u.
Proof.
  unfold spec_type.
  destruct (is_uuid u) eqn:Hu; cbn [andb].
  - destruct (is_uuid_not_scheme u Hu) as [-> ->].
    destruct u as [|c rest]; [reflexivity|]. cbn [startswith].
    rewrite !andb_true_r.
    destruct (Ascii.eqb_spec c "d") as [->|_]; reflexivity.
  - destruct u as [|c rest]; [reflexivity|]. cbn [startswith].
    destruct (Ascii.eqb_spec c "p") as [->|_]; [|reflexivity].
    cbn [andb Ascii.eqb Bool.eqb]. reflexivity.
Qed.

Lemma type_column_spec (uris : list string) :
  set_where
    (set_where
       (set_where
          (set_where (map (fun _ => "collections") uris)
                     (map (fun u => startswith u "svc://") uris) "services")
          (map (fun u => startswith u "pub://") uris) "publishers")
       (and_mask (map is_uuid uris) (map (fun u => startswith u "f") uris))
       "features")
    (and_mask (map is_uuid uris) (map (fun u => startswith u "d") uris))
    "datasets"
  = map spec_type uris.
Proof.
  induction uris as [|u uris IH]; [reflexivity|].
  cbn [map set_where and_mask]. rewrite IH. f_equal.
  rewrite <- masked_assignments_spec.
  destruct (is_uuid u && startswith u "d"); [reflexivity|].
  destruct (is_uuid u && startswith u "f"); [reflexivity|].
  destruct (startswith u "pub://"); [reflexivity|].
  destruct (startswith u "svc://"); reflexivity.
Qed.

Lemma classify_uris_frame (uris : list string) :
  classify_uris uris false true false None
  = Ok (AsFrame {| col_uri := uris; col_type := map spec_type uris |}).
Proof. unfold classify_uris. rewrite type_column_spec. reflexivity. Qed.

Lemma classify_uris_groups (uris : list string) (grouped : bool) :
  classify_uris uris grouped false false None
  = Ok (AsDict (groups {| col_uri := uris; col_type := map spec_type uris |})).
Proof. unfold classify_uris. rewrite type_column_spec. reflexivity. Qed.

(** Thirty-two hexadecimal digits that are not the rendering of a version 4
    UUID are not a UUID for [is_uuid]; such a string is a collection. *)
Example hex_without_version_is_collection :
  is_uuid "ffffffffffffffffffffffffffffffff" = false
  /\ spec_type "ffffffffffffffffffffffffffffffff" = "collections".
Proof. vm_compute. split; reflexivity. Qed.

(** C7, amended.  [classify_uris] gives every input string one type, the
    one the decision list of the specification computes from the string
    alone; a string [is_uuid] accepts that starts with [f] is a feature, one
    that starts with [d] a dataset, a string with the prefix [svc://] a
    service, one with the prefix [pub://] a publisher, whatever the order of
    the tests, and any other string a collection, thirty-two hexadecimal
    digits that [is_uuid] rejects included.  The strings [is_uuid] accepts
    are the renderings, as 32 lower-case hexadecimal digits, of the 128-bit
    numbers that carry the version 4 and the variant bits. *)
Theorem classify_uris_by_syntax (uris : list string) :
  classify_uris uris false true false None
    = Ok (AsFrame {| col_uri := uris; col_type := map spec_type uris |})
  /\ (forall grouped,
        classify_uris uris grouped false false None
        = Ok (AsDict (groups {| col_uri := uris; col_type := map spec_type uris |})))
  /\ List.length (map spec_type uris) = List.length uris
  /\ forall u,
       (is_uuid u = true -> startswith u "f" = true -> spec_type u = "features")
       /\ (is_uuid u = true -> startswith u "d" = true -> spec_type u = "datasets")
       /\ (startswith u "svc://" = true -> spec_type u = "services")
       /\ (startswith u "pub://" = true -> spec_type u = "publishers")
       /\ ((is_uuid u && (startswith u "f" || startswith u "d")) = false ->
           startswith u "svc://" = false -> startswith u "pub://" = false ->
           spec_type u = "collections")
       /\ (is_uuid u = true <->
           exists n, (0 <= n < 2 ^ 128)%Z
                     /\ set_variant_version n 4 = n /\ u = UUID_hex n).
Proof.
  split; [apply classify_uris_frame|].
  split; [intros grouped; apply classify_uris_groups|].
  split; [apply length_map|].
  intros u. unfold spec_type.
  repeat match goal with |- _ /\ _ => split end; [| | | | |apply is_uuid_iff].
  - intros -> ->. reflexivity.
  - intros Hu Hd. rewrite Hu, Hd. cbn [andb].
    destruct u as [|c rest]; [discriminate Hd|]. cbn [startswith] in *.
    destruct (Ascii.eqb_spec c "d") as [->|_]; [reflexivity|discriminate Hd].
  - intros Hs. destruct (is_uuid u) eqn:Hu.
    + destruct (is_uuid_not_scheme u Hu) as [Hs' _]. congruence.
    + cbn [andb]. now rewrite Hs.
  - intros Hp. destruct (is_uuid u) eqn:Hu.
    + destruct (is_uuid_not_scheme u Hu) as [_ Hp']. congruence.
    + cbn [andb]. rewrite Hp.
      destruct u as [|c rest]; [discriminate Hp|]. cbn [startswith] in *.
      destruct (Ascii.eqb_spec c "p") as [->|_]; [reflexivity|discriminate Hp].
  - intros Hu Hs Hp. rewrite Hs, Hp.
    destruct (is_uuid u); [|reflexivity]. cbn [andb] in *.
    apply orb_false_iff in Hu as [-> ->]. reflexivity.
Qed.

Lemma classify_uris_by_syntax_witness :
  is_uuid "f0000000000040008000000000000000" = true
  /\ spec_type "f0000000000040008000000000000000" = "features".
Proof.
  split; [vm_compute; reflexivity|].
  apply (classify_uris_by_syntax ["f0000000000040008000000000000000"]);
    vm_compute; reflexivity.
Defined.

(** C7, as stated, fails: thirty-two hexadecimal digits of which the first
    is [f] need not be a feature.  [UUID(uuid, version=4)] stamps the
    version and the variant bits, so [is_uuid] rejects a token that does
    not carry them, and [classify_uris] leaves it a collection. *)
Lemma hex_token_need_not_be_a_feature :
  ~ (forall u : string,
        String.length u = 32%nat ->
        all_chars lower_hex u = true ->
        startswith u "f" = true ->
        classify_uris [u] false true false None
        = Ok (AsFrame {| col_uri := [u]; col_type := ["features"] |})).
Proof.
  intros Hall.
  specialize (Hall "ffffffffffffffffffffffffffffffff" eq_refl eq_refl eq_refl).
  vm_compute in Hall. discriminate Hall.
Qed.

(** ** Generated identifiers *)

Local Open Scope Z_scope.

Lemma uuid4_ok (rand : Z) :
  0 <= rand < 2 ^ 128 -> uuid4 rand = Ok (set_variant_version rand 4).
Proof.
  intros Hr. unfold uuid4, UUID_init. change (Z.shiftl 1 128) with (2 ^ 128).
  destruct (Z.leb_spec 0 rand); [|lia].
  destruct (Z.ltb_spec rand (2 ^ 128)); [|lia]. reflexivity.
Qed.

(** An identifier of [uuid4] whose first digit is overwritten with the digit
    [t] is still accepted by [is_uuid]. *)
Lemma is_uuid_retagged (t rand : Z) :
  0 <= t < 16 ->
  is_uuid (String (hexdigit t)
                  (drop_first (UUID_hex (set_variant_version rand 4)))) = true.
Proof.
  intros Ht. unfold UUID_hex at 1. rewrite <- (format_x_retag t _ Ht).
  apply (is_uuid_hex (retag t (set_variant_version rand 4))).
  - apply retag_range, Ht.
  - apply retag_keeps_version.
Qed.

(** C10.  With [raw] the identifier [uuid4] renders from the entropy [rand]:
    [uuid('feature')] is [raw] with its first character replaced by [f] and
    [classify_uris] types it [features]; [uuid('dataset')] is [raw] with its
    first character replaced by [d] and is typed [datasets]; for any other
    resource type [uuid] returns [raw], 32 characters that [is_uuid]
    accepts, unmodified. *)
Theorem uuid_classifies_as_its_type (rand : Z) :
  0 <= rand < 2 ^ 128 ->
  let raw := UUID_hex (set_variant_version rand 4) in
  let f := ("f" ++ drop_first raw)%string in
  let d := ("d" ++ drop_first raw)%string in
  uuid "feature" rand = Ok f
  /\ uuid "dataset" rand = Ok d
  /\ classify_uris [f] false true false None
     = Ok (AsFrame {| col_uri := [f]; col_type := ["features"%string] |})
  /\ classify_uris [d] false true false None
     = Ok (AsFrame {| col_uri := [d]; col_type := ["datasets"%string] |})
  /\ String.length raw = 32%nat
  /\ is_uuid raw = true
  /\ forall resource_type,
       resource_type <> "feature"%string -> resource_type <> "dataset"%string ->
       uuid resource_type rand = Ok raw.
Proof.
  intros Hr raw f d.
  assert (Hf : is_uuid f = true) by (apply (is_uuid_retagged 15); lia).
  assert (Hd : is_uuid d = true) by (apply (is_uuid_retagged 13); lia).
  split; [unfold uuid; rewrite (uuid4_ok rand Hr); reflexivity|].
  split; [unfold uuid; rewrite (uuid4_ok rand Hr); reflexivity|].
  split.
  { rewrite classify_uris_frame. cbn [map]. unfold spec_type.
    rewrite Hf. reflexivity. }
  split.
  { rewrite classify_uris_frame. cbn [map]. unfold spec_type.
    rewrite Hd. reflexivity. }
  split; [apply length_format_x|].
  split.
  { apply is_uuid_hex.
    - apply set_variant_version_4_range, Hr.
    - apply set_variant_version_4_idem. }
  intros resource_type Hnf Hnd. unfold uuid. rewrite (uuid4_ok rand Hr).
  apply String.eqb_neq in Hnf, Hnd. rewrite Hnf, Hnd. reflexivity.
Qed.

Lemma uuid_classifies_as_its_type_witness :
  0 <= 0 < 2 ^ 128
  /\ uuid "feature" 0 = Ok "f0000000000040008000000000000000"%string.
Proof.
  split; [lia|].
  apply (uuid_classifies_as_its_type 0). lia.
Defined.

Local Close Scope Z_scope.

(** ** Dictionaries *)

Lemma dict_mem_In {V : Type} (k : string) (d : dict V) :
  dict_mem k d = true <-> In k (keys d).
Proof.
  unfold dict_mem. rewrite existsb_exists. split.
  - intros (x & Hx & Heq). apply String.eqb_eq in Heq. now subst.
  - intros Hk. exists k. split; [exact Hk|apply String.eqb_refl].
Qed.

Lemma dict_mem_cons {V : Type} (k k' : string) (v : V) (d : dict V) :
  dict_mem k ((k', v) :: d) = String.eqb k k' || dict_mem k d.
Proof. reflexivity. Qed.

Lemma dict_mem_get {V : Type} (k : string) (d : dict V) :
  dict_mem k d = true -> exists v, dict_get k d = Some v.
Proof.
  induction d as [|[k' v'] d IH]; [discriminate|].
  rewrite dict_mem_cons. cbn [dict_get].
  destruct (String.eqb k k'); [intros _; now exists v'|exact IH].
Qed.

Lemma dict_get_update {V : Type} (k : string) (v : V) (d : dict V) :
  dict_get k (dict_update k v d) = Some v.
Proof.
  induction d as [|[k' v'] d IH]; cbn [dict_update dict_get].
  - now rewrite String.eqb_refl.
  - destruct (String.eqb k k') eqn:Hk; cbn [dict_get].
    + now rewrite String.eqb_refl.
    + now rewrite Hk.
Qed.

Lemma dict_mem_update {V : Type} (a k : string) (v : V) (d : dict V) :
  dict_mem a (dict_update k v d) = String.eqb a k || dict_mem a d.
Proof.
  induction d as [|[k' v'] d IH]; cbn [dict_update].
  - rewrite !dict_mem_cons. reflexivity.
  - destruct (String.eqb_spec k k') as [->|Hk]; rewrite !dict_mem_cons.
    + now destruct (String.eqb a k').
    + rewrite IH. now destruct (String.eqb a k), (String.eqb a k').
Qed.

Lemma dict_del_update {V : Type} (k : string) (v : V) (d : dict V) :
  dict_mem k d = false -> dict_del k (dict_update k v d) = d.
Proof.
  induction d as [|[k' v'] d IH]; cbn [dict_update dict_del].
  - now rewrite String.eqb_refl.
  - rewrite dict_mem_cons. intros Hk. apply orb_false_iff in Hk as [Hk Hd].
    rewrite Hk. cbn [dict_del]. now rewrite Hk, (IH Hd).
Qed.

Lemma dict_mem_del {V : Type} (a k : string) (d : dict V) :
  a <> k -> dict_mem a d = true -> dict_mem a (dict_del k d) = true.
Proof.
  intros Hak. induction d as [|[k' v'] d IH]; [discriminate|].
  rewrite dict_mem_cons. cbn [dict_del]. intros Ha.
  destruct (String.eqb_spec k k') as [->|Hk].
  - apply String.eqb_neq in Hak. now rewrite Hak in Ha.
  - rewrite dict_mem_cons. destruct (String.eqb a k'); [reflexivity|].
    now apply IH.
Qed.

(** ** The registry: how each function leaves the index file *)

Create HintDb keeps.

Section Registry.

Context {B : Type} `{Backend B}.
Variable cfg : settings.

Lemma keeps_ret {A : Type} (a : A) : keeps_index (@ret B A a).
Proof. intros w. reflexivity. Qed.

Lemma keeps_raise {A : Type} (e : exn) : keeps_index (@raise B A e).
Proof. intros w. reflexivity. Qed.

Lemma keeps_on_disk (f : B -> B) : keeps_index (on_disk f).
Proof. intros w. reflexivity. Qed.

Lemma keeps_read_yaml : keeps_index (@read_yaml B).
Proof. intros w. reflexivity. Qed.

Lemma keeps_path_exists (path : string) : keeps_index (path_exists path).
Proof. intros w. reflexivity. Qed.

Lemma keeps_bind {A C : Type} (m : M B A) (k : A -> M B C) :
  keeps_index m -> (forall a, keeps_index (k a)) -> keeps_index (bind m k).
Proof.
  intros Hm Hk w. unfold bind. specialize (Hm w).
  destruct (m w) as [w' [a|e]]; cbn [fst] in *; [rewrite Hk|]; exact Hm.
Qed.

(** After [m], a continuation that keeps the index leaves the index [m]
    wrote. *)
Lemma index_bind {A C : Type} (m : M B A) (k : A -> M B C) (w : world B) :
  (forall a, keeps_index (k a)) ->
  index (fst (bind m k w)) = index (fst (m w)).
Proof.
  intros Hk. unfold bind.
  destruct (m w) as [w' [a|e]]; cbn [fst]; [apply Hk|reflexivity].
Qed.

Lemma bind_ok {A C : Type} (m : M B A) (k : A -> M B C) (w w' : world B) (a : A) :
  m w = (w', Ok a) -> bind m k w = k a w'.
Proof. intros Hm. unfold bind. now rewrite Hm. Qed.

Lemma bind_raise {A C : Type} (m : M B A) (k : A -> M B C) (w w' : world B) (e : exn) :
  m w = (w', Raise e) -> bind m k w = (w', Raise e).
Proof. intros Hm. unfold bind. now rewrite Hm. Qed.

Lemma load_projects_eq (w : world B) : _load_projects w = (w, Ok (registry w)).
Proof.
  unfold _load_projects, registry, bind, read_yaml, ret.
  destruct (projects (index w)) as [[|p d]|]; reflexivity.
Qed.

Lemma get_active_project_eq (w : world B) : get_active_project w = (w, Ok (active w)).
Proof.
  unfold get_active_project, active, bind, read_yaml, ret.
  destruct (active_project (index w)); reflexivity.
Qed.

Lemma get_projects_eq (w : world B) : get_projects w = (w, Ok (keys (registry w))).
Proof. unfold get_projects. now rewrite (bind_ok _ _ _ _ _ (load_projects_eq w)). Qed.

Lemma write_projects_eq (d : dict entry) (w : world B) :
  _write_projects d w
  = ({| index := {| active_project := active_project (index w);
                    projects := Some d |};
        disk := disk w |}, Ok tt).
Proof. reflexivity. Qed.

Lemma keeps_load_projects : keeps_index (@_load_projects B).
Proof. intros w. now rewrite load_projects_eq. Qed.

Lemma keeps_get_active_project : keeps_index (@get_active_project B).
Proof. intros w. now rewrite get_active_project_eq. Qed.

Lemma keeps_get_projects : keeps_index (@get_projects B).
Proof. intros w. now rewrite get_projects_eq. Qed.

Hint Resolve keeps_ret keeps_raise keeps_on_disk keeps_read_yaml
     keeps_path_exists keeps_load_projects keeps_get_active_project
     keeps_get_projects : keeps.

Lemma keeps_get_project_db (name : string) : keeps_index (_get_project_db cfg name).
Proof.
  unfold _get_project_db, mkdir_if_doesnt_exist.
  apply keeps_bind; [auto with keeps|]. intros projects.
  destruct (negb _); [auto with keeps|].
  destruct (dict_get name projects); [|auto with keeps].
  apply keeps_bind; auto with keeps.
Qed.

Lemma keeps_load_project (name : string) : keeps_index (_load_project cfg name).
Proof.
  unfold _load_project.
  apply keeps_bind; [apply keeps_get_project_db|]. intros dbpath.
  apply keeps_bind; [auto with keeps|]. intros _ w.
  destruct (Project_get dbpath (disk w)); reflexivity.
Qed.

Lemma keeps_active_db : keeps_index (active_db cfg).
Proof.
  unfold active_db. apply keeps_bind; [auto with keeps|].
  intros name. apply keeps_get_project_db.
Qed.

Hint Resolve keeps_get_project_db keeps_load_project keeps_active_db : keeps.

(** One step of a computation, for rewriting. *)
Lemma bind_ret {A C : Type} (a : A) (k : A -> M B C) (w : world B) :
  bind (ret a) k w = k a w.
Proof. reflexivity. Qed.

Lemma bind_read_yaml {C : Type} (k : index_file -> M B C) (w : world B) :
  bind read_yaml k w = k (index w) w.
Proof. reflexivity. Qed.

Lemma bind_write_yaml {C : Type} (c : index_file) (k : unit -> M B C) (w : world B) :
  bind (write_yaml c) k w = k tt {| index := c; disk := disk w |}.
Proof. reflexivity. Qed.

Lemma bind_on_disk {C : Type} (f : B -> B) (k : unit -> M B C) (w : world B) :
  bind (on_disk f) k w = k tt {| index := index w; disk := f (disk w) |}.
Proof. reflexivity. Qed.

Lemma bind_path_exists {C : Type} (path : string) (k : bool -> M B C) (w : world B) :
  bind (path_exists path) k w = k (os_path_exists path (disk w)) w.
Proof. reflexivity. Qed.

Lemma bind_load_projects {C : Type} (k : dict entry -> M B C) (w : world B) :
  bind _load_projects k w = k (registry w) w.
Proof. apply bind_ok, load_projects_eq. Qed.

Lemma bind_get_active_project {C : Type} (k : string -> M B C) (w : world B) :
  bind get_active_project k w = k (active w) w.
Proof. apply bind_ok, get_active_project_eq. Qed.

Lemma bind_write_projects {C : Type} (d : dict entry) (k : unit -> M B C) (w : world B) :
  bind (_write_projects d) k w
  = k tt {| index := {| active_project := active_project (index w);
                        projects := Some d |};
            disk := disk w |}.
Proof. reflexivity. Qed.

Lemma bind_try_except {A C : Type} (m : M B A) (h : exn -> M B A)
      (k : A -> M B C) (w : world B) :
  bind (try_except m h) k w
  = match m w with
    | (w', Ok a) => k a w'
    | (w', Raise e) => bind (h e) k w'
    end.
Proof. unfold bind, try_except. destruct (m w) as [w' [a|e]]; reflexivity. Qed.

Lemma get_project_db_ok (name : string) (w : world B) :
  dict_mem name (registry w) = true ->
  exists e,
    dict_get name (registry w) = Some e
    /\ _get_project_db cfg name w
       = ({| index := index w;
             disk := makedirs (folder_path cfg (folder e)) (disk w) |},
          Ok (join (folder_path cfg (folder e)) PROJECT_DB_FILE)).
Proof.
  intros Hmem. destruct (dict_mem_get _ _ Hmem) as [e He].
  exists e. split; [exact He|].
  unfold _get_project_db.
  rewrite bind_load_projects, Hmem, He.
  reflexivity.
Qed.

Lemma set_active_project_ok (name : string) (w : world B) (d : dict entry) :
  projects (index w) = Some d ->
  dict_mem name d = true ->
  exists w',
    set_active_project cfg name w = (w', Ok name)
    /\ index w' = {| active_project := Some name; projects := Some d |}.
Proof.
  intros Hd Hmem. unfold set_active_project.
  rewrite bind_read_yaml, Hd, Hmem. cbn [negb].
  rewrite bind_write_yaml.
  set (w1 := {| index := {| active_project := Some name; projects := Some d |};
                disk := disk w |}).
  destruct (get_project_db_ok name w1 Hmem) as (e & _ & Hdb).
  unfold active_db at 1.
  erewrite bind_ok; [|rewrite bind_get_active_project; exact Hdb].
  rewrite bind_on_disk.
  eexists. split; reflexivity.
Qed.

Lemma set_active_project_index (name : string) (w : world B) :
  index (fst (set_active_project cfg name w))
  = match projects (index w) with
    | Some d =>
        if dict_mem name d
        then {| active_project := Some name; projects := Some d |}
        else index w
    | None => index w
    end.
Proof.
  destruct (projects (index w)) as [d|] eqn:Hd.
  - destruct (dict_mem name d) eqn:Hmem.
    + destruct (set_active_project_ok name w d Hd Hmem) as (w' & -> & Hw').
      exact Hw'.
    + unfold set_active_project.
      rewrite bind_read_yaml, Hd, Hmem. reflexivity.
  - unfold set_active_project.
    rewrite bind_read_yaml, Hd. reflexivity.
Qed.

Lemma new_project_index (name : string) (display_name description : option string)
      (metadata : option (list (string * string))) (folder : option string)
      (activate : bool) (w : world B) :
  index (fst (new_project cfg name display_name description metadata folder activate w))
  = if dict_mem (lower name) (registry w) then index w
    else {| active_project := if activate then Some (lower name)
                              else active_project (index w);
            projects :=
              Some (dict_update (lower name)
                      {| folder := match folder with
                                   | Some f => f
                                   | None => lower name
                                   end |}
                      (registry w)) |}.
Proof.
  unfold new_project. rewrite bind_load_projects.
  destruct (dict_mem (lower name) (registry w)) eqn:Hdup; [reflexivity|].
  unfold mkdir_if_doesnt_exist.
  rewrite !bind_on_disk, bind_write_projects.
  rewrite index_bind by (intros _; apply keeps_load_project).
  destruct activate.
  - rewrite index_bind by (intros _; apply keeps_ret).
    rewrite set_active_project_index. cbn [index projects].
    now rewrite dict_mem_update, String.eqb_refl.
  - reflexivity.
Qed.

Lemma remove_project_absent (name : string) (w : world B) :
  dict_mem name (registry w) = false ->
  remove_project cfg name w = (w, Ok (Projects (registry w))).
Proof.
  intros Hmem. unfold remove_project.
  now rewrite bind_load_projects, Hmem.
Qed.

Lemma delete_project_absent (name : string) (w : world B) :
  dict_mem name (registry w) = false ->
  delete_project cfg name w = (w, Ok (Projects (registry w))).
Proof.
  intros Hmem. unfold delete_project.
  now rewrite bind_load_projects, Hmem.
Qed.

Lemma remove_project_index (name : string) (w : world B) :
  dict_mem name (registry w) = true ->
  index (fst (remove_project cfg name w))
  = let remaining := dict_del name (registry w) in
    if String.eqb name (active w)
    then
      if dict_mem "default" remaining
      then {| active_project := Some "default"; projects := Some remaining |}
      else
        match remaining with
        | (first, _) :: _ =>
            {| active_project := Some first; projects := Some remaining |}
        | [] =>
            {| active_project := Some "default";
               projects := Some [("default", {| folder := "default" |})] |}
        end
    else {| active_project := active_project (index w);
            projects := Some remaining |}.
Proof.
  intros Hmem. unfold remove_project.
  rewrite bind_load_projects, Hmem. cbn [negb].
  rewrite bind_write_projects, bind_get_active_project.
  change (active _) with (active w). cbv zeta.
  destruct (String.eqb name (active w)); [|reflexivity].
  destruct (dict_mem "default" (dict_del name (registry w))) eqn:Hdefault.
  - rewrite index_bind by (intros _; apply keeps_ret).
    rewrite set_active_project_index. cbn [index projects].
    now rewrite Hdefault.
  - destruct (dict_del name (registry w)) as [|[first e] rest] eqn:Hrest.
    + cbn [List.length Nat.ltb Nat.leb].
      rewrite index_bind
        by (intros _; apply keeps_bind;
            [apply keeps_get_projects|intros names; apply keeps_ret]).
      rewrite new_project_index. reflexivity.
    + cbn [List.length Nat.ltb Nat.leb keys map fst hd_error].
      rewrite index_bind by (intros _; apply keeps_ret).
      rewrite set_active_project_index. cbn [index projects].
      now rewrite dict_mem_cons, String.eqb_refl.
Qed.

Lemma delete_project_index (name : string) (w : world B) :
  dict_mem name (registry w) = true ->
  index (fst (delete_project cfg name w)) = index (fst (remove_project cfg name w)).
Proof.
  intros Hmem. unfold delete_project.
  rewrite bind_load_projects, Hmem. cbn [negb].
  destruct (dict_mem_get _ _ Hmem) as [e ->].
  rewrite bind_path_exists.
  destruct (os_path_exists _ (disk w)).
  - rewrite bind_on_disk, !remove_project_index by exact Hmem. reflexivity.
  - rewrite bind_ret. reflexivity.
Qed.

Lemma add_project_cases (name path : string) (activate : bool) (w : world B) :
  let r := add_project cfg name path activate w in
  (exists e,
      snd r = Raise e
      /\ registry (fst r) = registry w
      /\ active_project (index (fst r)) = active_project (index w))
  \/ (exists a,
         snd r = Ok a
         /\ dict_mem (lower name) (registry w) = false
         /\ os_path_exists path (disk w) = true
         /\ index (fst r)
            = {| active_project := if activate then Some (lower name)
                                   else active_project (index w);
                 projects := Some (dict_update (lower name) {| folder := path |}
                                               (registry w)) |}).
Proof.
  cbv zeta. unfold add_project. rewrite bind_load_projects.
  destruct (dict_mem (lower name) (registry w)) eqn:Hdup.
  { left. eexists. repeat split. }
  rewrite bind_path_exists.
  destruct (os_path_exists path (disk w)) eqn:Hpath; cbn [negb].
  2: { left. eexists. repeat split. }
  set (updated := dict_update (lower name) {| folder := path |} (registry w)).
  assert (Hin : dict_mem (lower name) updated = true).
  { unfold updated. now rewrite dict_mem_update, String.eqb_refl. }
  rewrite bind_try_except, bind_write_projects.
  match goal with
  | |- context [_load_project cfg (lower name) ?w1] =>
      pose proof (keeps_load_project (lower name) w1) as Hkeep;
      destruct (_load_project cfg (lower name) w1) as [w2 [a|e]]
  end; cbn [fst index] in Hkeep.
  - right. exists a. destruct activate.
    + destruct (set_active_project_ok (lower name) w2 updated) as (w3 & Hset & Hw3);
        [now rewrite Hkeep|exact Hin|].
      erewrite bind_ok; [|rewrite (bind_ok _ _ _ _ _ Hset); reflexivity].
      cbn [fst snd ret].
      repeat split. exact Hw3.
    + rewrite bind_ret. cbn [fst snd ret]. repeat split. exact Hkeep.
  - left. rewrite Hin. cbn [negb].
    erewrite bind_raise; [|rewrite bind_write_projects; reflexivity].
    cbn [fst snd].
    eexists. split; [reflexivity|].
    split.
    + unfold registry at 1. cbn [index projects].
      apply dict_del_update, Hdup.
    + cbn [index active_project]. now rewrite Hkeep.
Qed.

Lemma load_project_eq (name : string) (w : world B) :
  dict_mem name (registry w) = true ->
  exists e,
    dict_get name (registry w) = Some e
    /\ _load_project cfg name w
       = let dir := folder_path cfg (folder e) in
         let dbpath := join dir PROJECT_DB_FILE in
         let w' := {| index := index w;
                      disk := init_db dbpath (makedirs dir (disk w)) |} in
         (w', match Project_get dbpath (disk w') with
              | Some project => Ok project
              | None => Raise StoreError
              end).
Proof.
  intros Hmem. destruct (get_project_db_ok name w Hmem) as (e & He & Hdb).
  exists e. split; [exact He|].
  unfold _load_project. rewrite (bind_ok _ _ _ _ _ Hdb), bind_on_disk.
  cbv zeta. cbn [index disk].
  destruct (Project_get _ _); reflexivity.
Qed.

(** ** The active project stays registered *)

Lemma active_registered_of_index (w : world B) (a : option string) (d : dict entry) :
  index w = {| active_project := a; projects := Some d |} ->
  In (match a with Some name => name | None => "default" end) (keys d) ->
  active_registered w.
Proof.
  intros Hw Hin. unfold active_registered, active, registry.
  rewrite Hw. exact Hin.
Qed.

Lemma active_registered_same_index (w w' : world B) :
  index w' = index w -> active_registered w -> active_registered w'.
Proof.
  intros Hw. unfold active_registered, active, registry. now rewrite Hw.
Qed.

Lemma active_registered_same_views (w w' : world B) :
  registry w' = registry w ->
  active_project (index w') = active_project (index w) ->
  active_registered w -> active_registered w'.
Proof.
  intros Hr Ha. unfold active_registered, active. now rewrite Hr, Ha.
Qed.

Lemma registered_nonempty (w : world B) :
  active_registered w -> (1 <= List.length (keys (registry w)))%nat.
Proof.
  unfold active_registered. destruct (keys (registry w)); cbn; [tauto|lia].
Qed.

Lemma set_active_project_preserves (name : string) (w : world B) :
  active_registered w -> active_registered (fst (set_active_project cfg name w)).
Proof.
  intros Hw. pose proof (set_active_project_index name w) as Hi.
  destruct (projects (index w)) as [d|] eqn:Hd;
    [destruct (dict_mem name d) eqn:Hmem|].
  - apply (active_registered_of_index _ _ _ Hi). now apply dict_mem_In.
  - now apply (active_registered_same_index w).
  - now apply (active_registered_same_index w).
Qed.

Lemma new_project_preserves (name : string) (display_name description : option string)
      (metadata : option (list (string * string))) (folder : option string)
      (activate : bool) (w : world B) :
  active_registered w ->
  active_registered
    (fst (new_project cfg name display_name description metadata folder activate w)).
Proof.
  intros Hw. pose proof (new_project_index name display_name description
                                            metadata folder activate w) as Hi.
  destruct (dict_mem (lower name) (registry w)).
  - now apply (active_registered_same_index w).
  - apply (active_registered_of_index _ _ _ Hi).
    apply dict_mem_In. rewrite dict_mem_update.
    destruct activate; [now rewrite String.eqb_refl|].
    apply orb_true_iff. right. now apply dict_mem_In.
Qed.

Lemma add_project_preserves (name path : string) (activate : bool) (w : world B) :
  active_registered w ->
  active_registered (fst (add_project cfg name path activate w)).
Proof.
  intros Hw.
  destruct (add_project_cases name path activate w)
    as [(e & _ & Hr & Ha)|(a & _ & _ & _ & Hi)].
  - now apply (active_registered_same_views w).
  - apply (active_registered_of_index _ _ _ Hi).
    apply dict_mem_In. rewrite dict_mem_update.
    destruct activate; [now rewrite String.eqb_refl|].
    apply orb_true_iff. right. now apply dict_mem_In.
Qed.

Lemma remove_project_preserves (name : string) (w : world B) :
  active_registered w -> active_registered (fst (remove_project cfg name w)).
Proof.
  intros Hw. destruct (dict_mem name (registry w)) eqn:Hmem.
  - pose proof (remove_project_index name w Hmem) as Hi. cbv zeta in Hi.
    destruct (String.eqb_spec name (active w)) as [Hname|Hname].
    + destruct (dict_mem "default" (dict_del name (registry w))) eqn:Hdefault.
      * apply (active_registered_of_index _ _ _ Hi). now apply dict_mem_In.
      * destruct (dict_del name (registry w)) as [|[first e] rest].
        -- apply (active_registered_of_index _ _ _ Hi). now left.
        -- apply (active_registered_of_index _ _ _ Hi). now left.
    + apply (active_registered_of_index _ _ _ Hi).
      apply dict_mem_In, dict_mem_del.
      * intros Heq. apply Hname. symmetry. exact Heq.
      * apply dict_mem_In. exact Hw.
  - now rewrite remove_project_absent.
Qed.

Lemma delete_project_preserves (name : string) (w : world B) :
  active_registered w -> active_registered (fst (delete_project cfg name w)).
Proof.
  intros Hw. destruct (dict_mem name (registry w)) eqn:Hmem.
  - apply (active_registered_same_index (fst (remove_project cfg name w))).
    + now apply delete_project_index.
    + now apply remove_project_preserves.
  - now rewrite delete_project_absent.
Qed.

Lemma exec_preserves (c : call) (w : world B) :
  active_registered w -> active_registered (exec cfg c w).
Proof.
  destruct c; cbn [exec].
  - apply new_project_preserves.
  - apply add_project_preserves.
  - apply delete_project_preserves.
  - apply remove_project_preserves.
  - apply set_active_project_preserves.
Qed.

Lemma run_preserves (calls : list call) (w : world B) :
  active_registered w -> active_registered (run cfg calls w).
Proof.
  revert w. induction calls as [|c calls IH]; intros w Hw; [exact Hw|].
  cbn [run fold_left]. apply IH, exec_preserves, Hw.
Qed.

Lemma views_of_index (w : world B) (a : option string) (d : dict entry) :
  index w = {| active_project := a; projects := Some d |} ->
  registry w = d /\ active_project (index w) = a.
Proof. intros Hw. unfold registry. now rewrite Hw. Qed.

Lemma removal_index (c : call) (name : string) (w : world B) :
  c = DeleteProject name \/ c = RemoveProject name ->
  dict_mem name (registry w) = true ->
  index (exec cfg c w) = index (fst (remove_project cfg name w)).
Proof.
  intros [-> | ->] Hmem; cbn [exec];
    [now apply delete_project_index|reflexivity].
Qed.

Lemma dict_del_last {V : Type} (name : string) (d : dict V) :
  In name (keys d) -> dict_del name d = [] -> exists v, d = [(name, v)].
Proof.
  destruct d as [|[k v] d']; [intros []|].
  intros _. cbn [dict_del].
  destruct (String.eqb_spec name k) as [->|_]; [|discriminate].
  intros ->. now exists v.
Qed.

(** ** The claims on the registry *)

(** C1.  Start where the active project is registered and make any
    sequence of [delete_project] and [remove_project] calls.  After each
    call [get_projects()] lists at least one project; and when a further
    such call removes the only project left, [get_projects()] is
    [['default']] and the active project is [default] afterwards. *)
Theorem registry_never_empty (calls : list call) (w : world B) :
  active_registered w ->
  forallb is_removal calls = true ->
  forall n,
    let w' := run cfg (firstn n calls) w in
    (exists names,
        get_projects w' = (w', Ok names) /\ (1 <= List.length names)%nat)
    /\ forall name c,
         c = DeleteProject name \/ c = RemoveProject name ->
         In name (keys (registry w')) ->
         dict_del name (registry w') = [] ->
         let w'' := exec cfg c w' in
         get_projects w'' = (w'', Ok ["default"])
         /\ get_active_project w'' = (w'', Ok "default").
Proof.
  intros Hw Hcalls n w'.
  assert (Hw' : active_registered w') by (apply run_preserves, Hw).
  split.
  - exists (keys (registry w')). split; [apply get_projects_eq|].
    apply registered_nonempty, Hw'.
  - intros name c Hc Hin Hlast w''.
    destruct (dict_del_last name _ Hin Hlast) as [e He].
    assert (Hactive : active w' = name).
    { unfold active_registered in Hw'. rewrite He in Hw'.
      destruct Hw' as [Heq|[]]. now symmetry. }
    assert (Hindex : index w''
                     = {| active_project := Some "default";
                          projects := Some [("default", {| folder := "default" |})] |}).
    { unfold w''. rewrite (removal_index c name w' Hc)
        by (now apply dict_mem_In).
      rewrite remove_project_index by (now apply dict_mem_In).
      rewrite Hactive, String.eqb_refl, Hlast. reflexivity. }
    rewrite get_projects_eq, get_active_project_eq.
    unfold registry, active. rewrite Hindex. split; reflexivity.
Qed.

(** C2.  Start where the active project is registered (a persisted pointer
    that names a registered project is such a state).  After any sequence
    of [new_project], [add_project], [delete_project], [remove_project]
    and [set_active_project] calls, returning or raising,
    [get_active_project()] returns a name that [get_projects()] lists. *)
Theorem active_pointer_valid (calls : list call) (w : world B) :
  active_registered w ->
  let w' := run cfg calls w in
  exists name names,
    get_active_project w' = (w', Ok name)
    /\ get_projects w' = (w', Ok names)
    /\ In name names.
Proof.
  intros Hw w'. exists (active w'), (keys (registry w')).
  split; [apply get_active_project_eq|].
  split; [apply get_projects_eq|].
  apply run_preserves, Hw.
Qed.


(** C4.  When the lower-cased name is already a key of the registry,
    [new_project] raises [ValueError] and the world it leaves (the
    registry, the active pointer, the disk) is the one it found; the same
    check opens [add_project]. *)
Theorem duplicate_name_rejected (name : string) (display_name description : option string)
        (metadata : option (list (string * string))) (folder : option string)
        (activate : bool) (w : world B) :
  In (lower name) (keys (registry w)) ->
  new_project cfg name display_name description metadata folder activate w
  = (w, Raise (ValueError ("Project " ++ lower name
                           ++ " exists, please use a unique name")))
  /\ forall path activate',
       add_project cfg name path activate' w
       = (w, Raise (ValueError ("Project " ++ lower name
                                ++ " exists, please use a unique name"))).
Proof.
  intros Hin. apply dict_mem_In in Hin. split.
  - unfold new_project. now rewrite bind_load_projects, Hin.
  - intros path activate'. unfold add_project.
    now rewrite bind_load_projects, Hin.
Qed.

(** Whatever the first [new_project(name)] did, a second one raises and
    changes nothing. *)
Lemma second_creation_rejected (name : string) (w : world B) :
  let w1 := fst (new_project cfg name None None None None true w) in
  new_project cfg name None None None None true w1
  = (w1, Raise (ValueError ("Project " ++ lower name
                            ++ " exists, please use a unique name"))).
Proof.
  intros w1.
  assert (Hin : dict_mem (lower name) (registry w1) = true).
  { pose proof (new_project_index name None None None None true w) as Hi.
    fold w1 in Hi. destruct (dict_mem (lower name) (registry w)) eqn:Hdup.
    - unfold registry. rewrite Hi. exact Hdup.
    - apply views_of_index in Hi as [-> _].
      now rewrite dict_mem_update, String.eqb_refl. }
  unfold new_project. now rewrite bind_load_projects, Hin.
Qed.

(** C5.  For a name that is not registered, [delete_project] and
    [remove_project] raise nothing, return the dictionary they loaded and
    leave the world (registry, active pointer, folders) as it was. *)
Theorem removal_of_unknown_name_is_noop (name : string) (w : world B) :
  ~ In name (keys (registry w)) ->
  delete_project cfg name w = (w, Ok (Projects (registry w)))
  /\ remove_project cfg name w = (w, Ok (Projects (registry w))).
Proof.
  intros Hnot.
  assert (Hmem : dict_mem name (registry w) = false).
  { destruct (dict_mem name (registry w)) eqn:Hmem; [|reflexivity].
    apply dict_mem_In in Hmem. contradiction. }
  split; [now apply delete_project_absent|now apply remove_project_absent].
Qed.

(** C6.  Whenever [add_project] raises, the registry and the active pointer
    read afterwards are those read before.  It raises whenever the store
    under [path] does not load; for a name that is not registered yet, a
    [path] that does not exist makes it raise before it writes anything, and
    a [path] that exists with a store that does not load makes it raise
    ['Invalid Project Folder'] after it has taken back the entry it wrote. *)
Theorem add_project_failure_rolled_back (name path : string) (activate : bool)
        (w : world B) :
  let r := add_project cfg name path activate w in
  let dir := folder_path cfg path in
  let dbpath := join dir PROJECT_DB_FILE in
  (forall e, snd r = Raise e ->
      registry (fst r) = registry w
      /\ active_project (index (fst r)) = active_project (index w))
  /\ (Project_get dbpath (init_db dbpath (makedirs dir (disk w))) = None ->
      exists e, snd r = Raise e
                /\ registry (fst r) = registry w
                /\ active_project (index (fst r)) = active_project (index w))
  /\ (~ In (lower name) (keys (registry w)) ->
      os_path_exists path (disk w) = false ->
      r = (w, Raise (ValueError ("Path does not exist: " ++ path))))
  /\ (~ In (lower name) (keys (registry w)) ->
      os_path_exists path (disk w) = true ->
      Project_get dbpath (init_db dbpath (makedirs dir (disk w))) = None ->
      snd r = Raise (ValueError ("Invalid Project Folder: " ++ path))).
Proof.
  intros r dir dbpath.
  assert (Hraise : forall e, snd r = Raise e ->
                   registry (fst r) = registry w
                   /\ active_project (index (fst r)) = active_project (index w)).
  { intros e He.
    destruct (add_project_cases name path activate w)
      as [(e' & _ & Hr & Ha)|(a & Hok & _)].
    - split; assumption.
    - fold r in Hok. congruence. }
  assert (Hmissing : dict_mem (lower name) (registry w) = false ->
                     os_path_exists path (disk w) = false ->
                     r = (w, Raise (ValueError ("Path does not exist: " ++ path)))).
  { intros Hdup Hpath. unfold r, add_project.
    now rewrite bind_load_projects, Hdup, bind_path_exists, Hpath. }
  assert (Hstore : dict_mem (lower name) (registry w) = false ->
                   os_path_exists path (disk w) = true ->
                   Project_get dbpath (init_db dbpath (makedirs dir (disk w))) = None ->
                   snd r = Raise (ValueError ("Invalid Project Folder: " ++ path))).
  { intros Hdup Hpath Hget. unfold r, add_project.
    rewrite bind_load_projects, Hdup, bind_path_exists, Hpath. cbn [negb].
    set (updated := dict_update (lower name) {| folder := path |} (registry w)).
    assert (Hin : dict_mem (lower name) updated = true).
    { unfold updated. now rewrite dict_mem_update, String.eqb_refl. }
    rewrite bind_try_except, bind_write_projects.
    match goal with
    | |- context [_load_project cfg (lower name) ?w1] =>
        destruct (load_project_eq (lower name) w1 Hin) as (e & He & ->)
    end.
    unfold registry in He. cbn [index projects] in He.
    unfold updated in He. rewrite dict_get_update in He.
    injection He as <-. cbv zeta. cbn [folder index disk].
    fold dir. fold dbpath. rewrite Hget, Hin. reflexivity. }
  assert (Hmem : forall k, ~ In k (keys (registry w)) -> dict_mem k (registry w) = false).
  { intros k Hnot. destruct (dict_mem k (registry w)) eqn:Hk; [|reflexivity].
    apply dict_mem_In in Hk. contradiction. }
  split; [exact Hraise|]. split; [|split].
  - intros Hget.
    assert (Hsome : exists e, snd r = Raise e).
    { destruct (dict_mem (lower name) (registry w)) eqn:Hdup.
      - unfold r, add_project. rewrite bind_load_projects, Hdup.
        eexists. reflexivity.
      - destruct (os_path_exists path (disk w)) eqn:Hpath.
        + eexists. apply (Hstore eq_refl eq_refl Hget).
        + rewrite (Hmissing eq_refl eq_refl). eexists. reflexivity. }
    destruct Hsome as [e He]. exists e. split; [exact He|]. apply (Hraise e He).
  - intros Hnot Hpath. apply Hmissing; [apply Hmem, Hnot|exact Hpath].
  - intros Hnot Hpath Hget. apply Hstore; [apply Hmem, Hnot|exact Hpath|exact Hget].
Qed.

End Registry.

(** ** The claims on the registry, at concrete worlds *)

Lemma registry_never_empty_witness :
  active_registered (world_of "p1" ["p1"; "p2"])
  /\ exists names,
       get_projects (run cfg0 [DeleteProject "p1"; RemoveProject "p2"]
                         (world_of "p1" ["p1"; "p2"]))
       = (run cfg0 [DeleteProject "p1"; RemoveProject "p2"]
              (world_of "p1" ["p1"; "p2"]), Ok names)
       /\ (1 <= List.length names)%nat.
Proof.
  assert (Hw : active_registered (world_of "p1" ["p1"; "p2"])) by (left; reflexivity).
  split; [exact Hw|].
  apply (registry_never_empty cfg0 [DeleteProject "p1"; RemoveProject "p2"]
                              (world_of "p1" ["p1"; "p2"]) Hw eq_refl 2).
Defined.

Lemma active_pointer_valid_witness :
  active_registered (world_of "p1" ["p1"; "p2"])
  /\ exists name names,
       let w' := run cfg0 [NewProject "P3" None None None None false;
                           SetActiveProject "p3"; DeleteProject "p3"]
                     (world_of "p1" ["p1"; "p2"]) in
       get_active_project w' = (w', Ok name)
       /\ get_projects w' = (w', Ok names)
       /\ In name names.
Proof.
  assert (Hw : active_registered (world_of "p1" ["p1"; "p2"])) by (left; reflexivity).
  split; [exact Hw|].
  apply (active_pointer_valid cfg0 _ (world_of "p1" ["p1"; "p2"]) Hw).
Defined.


Lemma duplicate_name_rejected_witness :
  In (lower "Test") (keys (registry (world_of "default" ["default"; "test"])))
  /\ new_project cfg0 "Test" None None None None true
                 (world_of "default" ["default"; "test"])
     = (world_of "default" ["default"; "test"],
        Raise (ValueError "Project test exists, please use a unique name")).
Proof.
  assert (Hin : In (lower "Test")
                   (keys (registry (world_of "default" ["default"; "test"]))))
    by (right; left; reflexivity).
  split; [exact Hin|].
  apply (duplicate_name_rejected cfg0 "Test" None None None None true _ Hin).
Defined.

Lemma removal_of_unknown_name_is_noop_witness :
  ~ In "ghost" (keys (registry (world_of "default" ["default"])))
  /\ delete_project cfg0 "ghost" (world_of "default" ["default"])
     = (world_of "default" ["default"],
        Ok (Projects [("default", {| folder := "default" |})])).
Proof.
  assert (Hnot : ~ In "ghost" (keys (registry (world_of "default" ["default"])))).
  { intros [Heq|[]]. discriminate Heq. }
  split; [exact Hnot|].
  apply (removal_of_unknown_name_is_noop cfg0 "ghost" _ Hnot).
Defined.

Lemma add_project_failure_rolled_back_witness :
  ~ In (lower "Added") (keys (registry world_with_folder))
  /\ snd (add_project cfg0 "Added" "/data/x" true world_with_folder)
     = Raise (ValueError "Invalid Project Folder: /data/x")
  /\ registry (fst (add_project cfg0 "Added" "/data/x" true world_with_folder))
     = registry world_with_folder.
Proof.
  assert (Hnot : ~ In (lower "Added") (keys (registry world_with_folder))).
  { intros [Heq|[]]. discriminate Heq. }
  split; [exact Hnot|].
  destruct (add_project_failure_rolled_back cfg0 "Added" "/data/x" true
              world_with_folder) as (Hraise & _ & _ & Hstore).
  pose proof (Hstore Hnot eq_refl eq_refl) as Hsnd.
  split; [exact Hsnd|]. apply (Hraise _ Hsnd).
Defined.

(* ================================================================= *)
(** * Part III: further properties of the sources *)
(* ================================================================= *)

(** ** More on dictionaries *)

Lemma keys_dict_update_new {V : Type} (k : string) (v : V) (d : dict V) :
  dict_mem k d = false -> keys (dict_update k v d) = (keys d ++ [k])%list.
Proof.
  induction d as [|[k' v'] d IH]; [reflexivity|].
  rewrite dict_mem_cons. intros Hk. apply orb_false_iff in Hk as [Hk Hd].
  cbn [dict_update]. rewrite Hk. cbn [keys map fst app].
  f_equal. apply IH, Hd.
Qed.

Lemma dict_get_update_other {V : Type} (a k : string) (v : V) (d : dict V) :
  a <> k -> dict_get a (dict_update k v d) = dict_get a d.
Proof.
  intros Hak. apply String.eqb_neq in Hak.
  induction d as [|[k' v'] d IH]; cbn [dict_update dict_get].
  - now rewrite Hak.
  - destruct (String.eqb_spec k k') as [->|Hk]; cbn [dict_get].
    + now rewrite Hak.
    + now rewrite IH.
Qed.

Lemma dict_mem_false {V : Type} (k : string) (d : dict V) :
  ~ In k (keys d) -> dict_mem k d = false.
Proof.
  intros Hnot. destruct (dict_mem k d) eqn:Hk; [|reflexivity].
  apply dict_mem_In in Hk. contradiction.
Qed.

Lemma keys_dict_del_subset {V : Type} (a k : string) (d : dict V) :
  In a (keys (dict_del k d)) -> In a (keys d).
Proof.
  induction d as [|[k' v'] d IH]; [intros []|].
  cbn [dict_del]. destruct (String.eqb k k').
  - intros Ha. now right.
  - intros [Ha|Ha]; [now left|right; now apply IH].
Qed.

(** With distinct keys, the deleted key is gone. *)
Lemma dict_del_unlisted {V : Type} (k : string) (d : dict V) :
  NoDup (keys d) -> ~ In k (keys (dict_del k d)).
Proof.
  induction d as [|[k' v'] d IH]; [intros _ []|].
  cbn [keys map fst]. intros Hnd. inversion Hnd as [|x l Hx Hl]; subst.
  cbn [dict_del]. destruct (String.eqb_spec k k') as [->|Hk].
  - exact Hx.
  - cbn [keys map fst]. intros [Heq|Hin]; [congruence|]. now apply IH.
Qed.

(** A listing with one name added, whatever its place. *)
Lemma keys_with_new_name (names : list string) (name n : string) :
  In n (names ++ [name])%list <-> In n names \/ n = name.
Proof.
  rewrite in_app_iff. cbn [In]. split.
  - intros [Hin|[Heq|[]]]; [now left|now right].
  - intros [Hin|Heq]; [now left|right; now left].
Qed.

Lemma length_with_new_name (names : list string) (name : string) :
  List.length (names ++ [name])%list = S (List.length names).
Proof. rewrite length_app. cbn [List.length]. now rewrite Nat.add_1_r. Qed.

Section RegistryMore.

Context {B : Type} `{Backend B}.
Variable cfg : settings.

Lemma registry_some (name : string) (w : world B) :
  In name (keys (registry w)) -> projects (index w) = Some (registry w).
Proof.
  unfold registry. destruct (projects (index w)); [reflexivity|intros []].
Qed.

(** X1.  [set_active_project] on a registered name returns the name, after
    which [get_active_project()] returns it and the registry is the same; on
    a name that is not registered it raises ([ValueError], or [KeyError] when
    the index has no [projects] key) and leaves the world as it was. *)
Theorem set_active_project_checked (name : string) (w : world B) :
  (In name (keys (registry w)) ->
   exists w',
     set_active_project cfg name w = (w', Ok name)
     /\ get_active_project w' = (w', Ok name)
     /\ registry w' = registry w)
  /\ (~ In name (keys (registry w)) ->
      exists e,
        set_active_project cfg name w = (w, Raise e)
        /\ (e = ValueError ("Project " ++ name ++ " does not exist")
            \/ e = KeyError "projects")).
Proof.
  split.
  - intros Hin.
    destruct (set_active_project_ok cfg name w (registry w)
                (registry_some name w Hin) (proj2 (dict_mem_In _ _) Hin))
      as (w' & Hset & Hw').
    exists w'. split; [exact Hset|].
    rewrite get_active_project_eq. unfold active, registry at 1.
    rewrite Hw'. split; reflexivity.
  - intros Hnot. unfold set_active_project. rewrite bind_read_yaml.
    destruct (projects (index w)) as [d|] eqn:Hd.
    + assert (Hmem : dict_mem name d = false).
      { apply dict_mem_false. unfold registry in Hnot. now rewrite Hd in Hnot. }
      rewrite Hmem. eexists. split; [reflexivity|now left].
    + eexists. split; [reflexivity|now right].
Qed.

(** X2.  [new_project] with a name whose lower-cased form is not registered
    registers that form with the folder given (the lower-cased name by
    default): the listing then holds the names it held and the new one, one
    name more than before, in whatever order; the other entries stay as
    they were; the pointer goes to the new project when [activate] is set
    and stays put otherwise.  This holds of the world the call leaves
    whether the final [_load_project] returns or raises. *)
Theorem new_project_registers (name : string) (display_name description : option string)
        (metadata : option (list (string * string))) (folder : option string)
        (activate : bool) (w : world B) :
  ~ In (lower name) (keys (registry w)) ->
  let w' := fst (new_project cfg name display_name description metadata folder
                             activate w) in
  (exists names,
      get_projects w' = (w', Ok names)
      /\ (forall n, In n names <-> In n (keys (registry w)) \/ n = lower name)
      /\ List.length names = S (List.length (keys (registry w))))
  /\ dict_get (lower name) (registry w')
     = Some {| folder := match folder with Some f => f | None => lower name end |}
  /\ (forall other, other <> lower name ->
        dict_get other (registry w') = dict_get other (registry w))
  /\ active_project (index w')
     = (if activate then Some (lower name) else active_project (index w)).
Proof.
  intros Hnot w'. apply dict_mem_false in Hnot.
  pose proof (new_project_index cfg name display_name description metadata
                                folder activate w) as Hi.
  fold w' in Hi. rewrite Hnot in Hi.
  apply views_of_index in Hi as [Hr Ha].
  rewrite get_projects_eq, Hr. split; [|repeat split].
  - eexists. split; [reflexivity|]. rewrite (keys_dict_update_new _ _ _ Hnot).
    split; [apply keys_with_new_name|apply length_with_new_name].
  - apply dict_get_update.
  - intros other Hother. now apply dict_get_update_other.
  - exact Ha.
Qed.

Lemma registry_same_index (w w' : world B) :
  index w' = index w -> registry w' = registry w /\ active w' = active w.
Proof. intros Hi. unfold registry, active. now rewrite Hi. Qed.

Lemma dict_get_mem {V : Type} (k : string) (d : dict V) (v : V) :
  dict_get k d = Some v -> dict_mem k d = true.
Proof.
  induction d as [|[k' v'] d IH]; [discriminate|].
  cbn [dict_get]. rewrite dict_mem_cons.
  destruct (String.eqb k k'); [reflexivity|exact IH].
Qed.

(** X3.  Names are lower-cased by [new_project] and by nothing else: after
    [new_project(name)] with a name that has an upper-case letter (and is not
    itself a key), the project is registered under the lower-cased name,
    [set_active_project(name)] raises [ValueError], and [delete_project(name)]
    and [remove_project(name)] change nothing. *)
Theorem names_lowered_on_creation_only (name : string)
        (display_name description : option string)
        (metadata : option (list (string * string))) (folder : option string)
        (activate : bool) (w : world B) :
  lower name <> name ->
  ~ In name (keys (registry w)) ->
  let w1 := fst (new_project cfg name display_name description metadata folder
                             activate w) in
  In (lower name) (keys (registry w1))
  /\ set_active_project cfg name w1
     = (w1, Raise (ValueError ("Project " ++ name ++ " does not exist")))
  /\ delete_project cfg name w1 = (w1, Ok (Projects (registry w1)))
  /\ remove_project cfg name w1 = (w1, Ok (Projects (registry w1))).
Proof.
  intros Hlower Hnot w1.
  pose proof (new_project_index cfg name display_name description metadata
                                folder activate w) as Hi.
  fold w1 in Hi.
  assert (Hviews : In (lower name) (keys (registry w1))
                   /\ dict_mem name (registry w1) = false).
  { destruct (dict_mem (lower name) (registry w)) eqn:Hdup.
    - destruct (registry_same_index w w1 Hi) as [-> _].
      split; [now apply dict_mem_In|now apply dict_mem_false].
    - apply views_of_index in Hi as [-> _]. split.
      + apply dict_mem_In. now rewrite dict_mem_update, String.eqb_refl.
      + rewrite dict_mem_update, (dict_mem_false _ _ Hnot), orb_false_r.
        apply String.eqb_neq. congruence. }
  destruct Hviews as [Hin Hmem].
  split; [exact Hin|]. split; [|split].
  - unfold set_active_project.
    rewrite bind_read_yaml, (registry_some _ _ Hin), Hmem. reflexivity.
  - now apply delete_project_absent.
  - now apply remove_project_absent.
Qed.

(** X4.  On a registered project that is not the active one,
    [remove_project] rewrites the registry without the project and leaves
    the disk alone, and [delete_project] does the same after [rmtree] of the
    project folder when that folder exists; both return the remaining
    dictionary and keep the pointer. *)
Theorem removal_of_inactive_project (name : string) (e : entry) (w : world B) :
  dict_get name (registry w) = Some e ->
  name <> active w ->
  let remaining := dict_del name (registry w) in
  let path := folder_path cfg (folder e) in
  let index' := {| active_project := active_project (index w);
                   projects := Some remaining |} in
  remove_project cfg name w
  = ({| index := index'; disk := disk w |}, Ok (Projects remaining))
  /\ delete_project cfg name w
     = ({| index := index';
           disk := if os_path_exists path (disk w)
                   then rmtree path (disk w) else disk w |},
        Ok (Projects remaining)).
Proof.
  intros He Hname remaining path index'.
  pose proof (dict_get_mem _ _ _ He) as Hmem.
  apply String.eqb_neq in Hname.
  assert (Hremove : forall w0 : world B,
             index w0 = index w ->
             remove_project cfg name w0
             = ({| index := index'; disk := disk w0 |}, Ok (Projects remaining))).
  { intros w0 Hi. destruct (registry_same_index w w0 Hi) as [Hr Ha].
    unfold remove_project.
    rewrite bind_load_projects, Hr, Hmem. cbn [negb].
    rewrite bind_write_projects, bind_get_active_project.
    change (active _) with (active w0). rewrite Ha, Hname, Hi. reflexivity. }
  split; [now apply Hremove|].
  unfold delete_project. rewrite bind_load_projects, Hmem, He. cbn [negb].
  rewrite bind_path_exists.
  change (if negb (isabs (folder e))
          then join (get_projects_dir cfg) (folder e) else folder e) with path.
  destruct (os_path_exists path (disk w)).
  - rewrite bind_on_disk. now rewrite Hremove.
  - rewrite bind_ret. now rewrite Hremove.
Qed.

(** X5.  After [delete_project(name)] or [remove_project(name)] on a registry
    with distinct keys, [name] is no longer listed, unless it is [default]
    and the registry was left empty, in which case the registry is the
    re-created [default] alone. *)
Theorem removed_project_unlisted (c : call) (name : string) (w : world B) :
  c = DeleteProject name \/ c = RemoveProject name ->
  NoDup (keys (registry w)) ->
  let w' := exec cfg c w in
  ~ In name (keys (registry w'))
  \/ (name = "default"
      /\ registry w' = [("default", {| folder := "default" |})]).
Proof.
  intros Hc Hnd w'.
  destruct (dict_mem name (registry w)) eqn:Hmem.
  - pose proof (removal_index cfg c name w Hc Hmem) as Hi.
    rewrite remove_project_index in Hi by exact Hmem. cbv zeta in Hi.
    fold w' in Hi.
    pose proof (dict_del_unlisted name (registry w) Hnd) as Hgone.
    destruct (String.eqb name (active w)).
    + destruct (dict_mem "default" (dict_del name (registry w))).
      * apply views_of_index in Hi as [-> _]. now left.
      * destruct (dict_del name (registry w)) as [|[first e] rest] eqn:Hrest.
        -- apply views_of_index in Hi as [Hr _].
           destruct (String.eqb_spec name "default") as [->|Hname].
           ++ right. split; [reflexivity|exact Hr].
           ++ left. rewrite Hr. intros [Heq|[]]. cbn in Heq. congruence.
        -- apply views_of_index in Hi as [-> _]. now left.
    + apply views_of_index in Hi as [-> _]. now left.
  - left. unfold w'.
    assert (Hw : exec cfg c w = w).
    { destruct Hc as [-> | ->]; cbn [exec].
      - now rewrite delete_project_absent.
      - now rewrite remove_project_absent. }
    rewrite Hw. intros Hin. apply dict_mem_In in Hin. congruence.
Qed.

(** X6.  Creating a project without activating it and then removing it
    gives back the registry and the pointer one started with. *)
Theorem create_then_remove_restores (name : string)
        (display_name description : option string)
        (metadata : option (list (string * string))) (folder : option string)
        (w : world B) :
  active_registered w ->
  ~ In (lower name) (keys (registry w)) ->
  let w1 := exec cfg (NewProject name display_name description metadata folder false) w in
  let w2 := exec cfg (RemoveProject (lower name)) w1 in
  registry w2 = registry w
  /\ active_project (index w2) = active_project (index w).
Proof.
  intros Hw Hnot w1 w2.
  assert (Hdup : dict_mem (lower name) (registry w) = false)
    by now apply dict_mem_false.
  pose proof (new_project_index cfg name display_name description metadata
                                folder false w) as Hi.
  rewrite Hdup in Hi.
  change (fst (new_project cfg name display_name description metadata folder false w))
    with w1 in Hi.
  destruct (views_of_index w1 _ _ Hi) as [Hr1 Ha1].
  assert (Hactive : active w1 = active w).
  { unfold active. now rewrite Ha1. }
  assert (Hmem : dict_mem (lower name) (registry w1) = true).
  { now rewrite Hr1, dict_mem_update, String.eqb_refl. }
  pose proof (remove_project_index cfg (lower name) w1 Hmem) as Hi2.
  cbv zeta in Hi2.
  change (fst (remove_project cfg (lower name) w1)) with w2 in Hi2.
  assert (Hne : String.eqb (lower name) (active w1) = false).
  { apply String.eqb_neq. rewrite Hactive. intros Heq. apply Hnot.
    rewrite Heq. exact Hw. }
  rewrite Hne, Hr1, (dict_del_update _ _ _ Hdup) in Hi2.
  apply views_of_index in Hi2 as [Hr2 Ha2].
  split; [exact Hr2|]. now rewrite Ha2.
Qed.

(** X7.  [active_db] returns [<folder>/metadata.db] for the folder of the
    active project, resolved under the projects directory when it is
    relative, after creating that folder; when the active project is not
    registered it raises [ValueError] and changes nothing. *)
Theorem active_db_of_registered (w : world B) :
  (forall e, dict_get (active w) (registry w) = Some e ->
     active_db cfg w
     = ({| index := index w;
           disk := makedirs (folder_path cfg (folder e)) (disk w) |},
        Ok (join (folder_path cfg (folder e)) PROJECT_DB_FILE)))
  /\ (~ In (active w) (keys (registry w)) ->
      active_db cfg w
      = (w, Raise (ValueError ("Project " ++ active w ++ " not found")))).
Proof.
  split.
  - intros e He. unfold active_db. rewrite bind_get_active_project.
    destruct (get_project_db_ok cfg (active w) w (dict_get_mem _ _ _ He))
      as (e' & He' & ->).
    rewrite He in He'. now injection He' as <-.
  - intros Hnot. unfold active_db, _get_project_db.
    rewrite bind_get_active_project, bind_load_projects.
    now rewrite (dict_mem_false _ _ Hnot).
Qed.

(** X8.  [add_project] with a new name, an existing path and a store that
    loads returns the attributes of that store and registers the
    lower-cased name with [path] as its folder: the listing then holds the
    names it held and the new one, one name more than before, in whatever
    order; the pointer goes to the new project when [activate] is set and
    stays put otherwise. *)
Theorem add_project_registers (name path : string) (activate : bool)
        (a : attrs) (w : world B) :
  let dir := folder_path cfg path in
  let dbpath := join dir PROJECT_DB_FILE in
  ~ In (lower name) (keys (registry w)) ->
  os_path_exists path (disk w) = true ->
  Project_get dbpath (init_db dbpath (makedirs dir (disk w))) = Some a ->
  exists w',
    add_project cfg name path activate w = (w', Ok a)
    /\ (exists names,
          get_projects w' = (w', Ok names)
          /\ (forall n, In n names <-> In n (keys (registry w)) \/ n = lower name)
          /\ List.length names = S (List.length (keys (registry w))))
    /\ dict_get (lower name) (registry w') = Some {| folder := path |}
    /\ active_project (index w')
       = (if activate then Some (lower name) else active_project (index w)).
Proof.
  intros dir dbpath Hnot Hpath Hget.
  assert (Hdup : dict_mem (lower name) (registry w) = false)
    by now apply dict_mem_false.
  set (updated := dict_update (lower name) {| folder := path |} (registry w)).
  assert (Hin : dict_mem (lower name) updated = true).
  { unfold updated. now rewrite dict_mem_update, String.eqb_refl. }
  assert (Hrun : exists w',
             add_project cfg name path activate w = (w', Ok a)
             /\ index w'
                = {| active_project := if activate then Some (lower name)
                                       else active_project (index w);
                     projects := Some updated |}).
  { unfold add_project.
    rewrite bind_load_projects, Hdup, bind_path_exists, Hpath. cbn [negb].
    fold updated.
    rewrite bind_try_except, bind_write_projects.
    match goal with
    | |- context [_load_project cfg (lower name) ?w1] =>
        destruct (load_project_eq cfg (lower name) w1 Hin) as (e & He & ->)
    end.
    unfold registry in He. cbn [index projects] in He.
    unfold updated in He. rewrite dict_get_update in He.
    injection He as <-. cbv zeta. cbn [folder index disk].
    fold dir. fold dbpath. rewrite Hget.
    destruct activate.
    - match goal with
      | |- exists w', bind _ _ ?w2 = _ /\ _ =>
          destruct (set_active_project_ok cfg (lower name) w2 updated eq_refl Hin)
            as (w3 & Hset & Hw3)
      end.
      exists w3. split; [|exact Hw3].
      erewrite bind_ok; [reflexivity|].
      rewrite (bind_ok _ _ _ _ _ Hset). reflexivity.
    - rewrite bind_ret. eexists. split; reflexivity. }
  destruct Hrun as (w' & Hrun & Hi). exists w'. split; [exact Hrun|].
  apply views_of_index in Hi as [Hr Ha].
  rewrite get_projects_eq, Hr. unfold updated. split; [|split].
  - eexists. split; [reflexivity|]. rewrite (keys_dict_update_new _ _ _ Hdup).
    split; [apply keys_with_new_name|apply length_with_new_name].
  - apply dict_get_update.
  - exact Ha.
Qed.

End RegistryMore.

(** ** More on splitting and on service URIs *)

Lemma contains_suffix (sub a b : string) :
  contains sub (a ++ b) = false -> contains sub b = false.
Proof.
  induction a as [|x a IH]; [intros Hb; exact Hb|].
  cbn [append contains]. intros Hc. apply orb_false_iff in Hc as [_ Hc].
  apply IH, Hc.
Qed.

(** A result of a single piece is the string itself. *)
Lemma split_single_piece (sep : string) (maxsplit : option nat) (s h : string) :
  split_from sep maxsplit 0 s = [h] -> h = s.
Proof.
  revert h. induction s as [|c s IH]; intros h; cbn [split_from].
  - intros Heq. now injection Heq as <-.
  - destruct (startswith (String c s) sep && can_split maxsplit).
    + intros Heq. injection Heq as _ Hrest.
      now apply split_from_nonempty in Hrest.
    + destruct (split_from sep maxsplit 0 s) as [|h' [|h'' t]] eqn:Hrec;
        cbn [push]; intros Heq; try discriminate.
      * now apply split_from_nonempty in Hrec.
      * injection Heq as <-. f_equal. now apply IH.
Qed.

Lemma last_item_last (pieces : list string) :
  pieces <> [] -> last_item pieces = Ok (last pieces EmptyString).
Proof.
  induction pieces as [|p [|q t] IH]; intros Hne; [congruence|reflexivity|].
  change (last_item (p :: q :: t)) with (last_item (q :: t)).
  change (last (p :: q :: t) EmptyString) with (last (q :: t) EmptyString).
  apply IH. discriminate.
Qed.

(** The last piece of an unlimited split holds no separator. *)
Lemma last_piece_no_sep (x : ascii) (sep' : string) (s : string) :
  forall skip,
    contains (String x sep')
             (last (split_from (String x sep') None skip s) EmptyString) = false.
Proof.
  set (sep := String x sep').
  induction s as [|c s IH]; intros skip; [reflexivity|].
  cbn [split_from]. destruct skip as [|k]; [|apply IH].
  destruct (startswith (String c s) sep) eqn:Hm; cbn [andb can_split].
  - pose proof (split_from_nonempty sep s None (String.length sep - 1)) as Hne.
    specialize (IH (String.length sep - 1)). cbn [dec_split option_map].
    destruct (split_from sep None (String.length sep - 1) s) as [|h t];
      [congruence|exact IH].
  - specialize (IH 0).
    destruct (split_from sep None 0 s) as [|h [|h' t]] eqn:Hrec.
    + now apply split_from_nonempty in Hrec.
    + apply split_single_piece in Hrec. subst h.
      cbn [push last contains] in *. now rewrite Hm, IH.
    + exact IH.
Qed.

(** Every piece of an unlimited split on a character is free of it. *)
Lemma pieces_without_char (c : ascii) (s : string) :
  forall skip,
    Forall (fun p => contains (String c EmptyString) p = false)
           (split_from (String c EmptyString) None skip s).
Proof.
  induction s as [|x s IH]; intros skip.
  - repeat constructor.
  - cbn [split_from]. destruct skip as [|k]; [|apply IH].
    rewrite startswith_char. cbn [can_split].
    destruct (Ascii.eqb x c) eqn:Hx; cbn [andb].
    + constructor; [reflexivity|apply IH].
    + specialize (IH 0).
      destruct (split_from (String c EmptyString) None 0 s) as [|h t];
        [constructor; [|constructor]|].
      * rewrite contains_char_cons, Hx. reflexivity.
      * inversion IH as [|? ? Hh Ht]; subst. cbn [push]. constructor; [|exact Ht].
        now rewrite contains_char_cons, Hx, Hh.
Qed.

(** The first piece of a split on a character, limited or not, is free of it
    as long as one split is allowed. *)
Lemma first_piece_without_char (c : ascii) (maxsplit : option nat) (s : string) :
  can_split maxsplit = true ->
  forall h t,
    split_from (String c EmptyString) maxsplit 0 s = h :: t ->
    contains (String c EmptyString) h = false.
Proof.
  intros Hm. induction s as [|x s IH]; intros h t; cbn [split_from].
  - intros Heq. now injection Heq as <- _.
  - rewrite startswith_char, Hm, andb_true_r.
    destruct (Ascii.eqb x c) eqn:Hx.
    + intros Heq. now injection Heq as <- _.
    + destruct (split_from (String c EmptyString) maxsplit 0 s) as [|h' t'] eqn:Hrec.
      * now apply split_from_nonempty in Hrec.
      * cbn [push]. intros Heq. injection Heq as <- _.
        rewrite contains_char_cons, Hx. apply (IH h' t' eq_refl).
Qed.

(** A character absent from a string is absent from every piece of it. *)
Lemma pieces_keep_absent_char (d : ascii) (sep : string) (maxsplit : option nat)
      (s : string) :
  contains (String d EmptyString) s = false ->
  forall skip,
    Forall (fun p => contains (String d EmptyString) p = false)
           (split_from sep maxsplit skip s).
Proof.
  revert maxsplit. induction s as [|x s IH]; intros maxsplit Hd skip.
  - repeat constructor.
  - rewrite contains_char_cons in Hd. apply orb_false_iff in Hd as [Hx Hd].
    cbn [split_from]. destruct skip as [|k]; [|now apply IH].
    destruct (startswith (String x s) sep && can_split maxsplit).
    + constructor; [reflexivity|now apply IH].
    + specialize (IH maxsplit Hd 0).
      destruct (split_from sep maxsplit 0 s) as [|h t]; cbn [push].
      * constructor; [|constructor]. now rewrite contains_char_cons, Hx.
      * inversion IH as [|? ? Hh Ht]; subst. constructor; [|exact Ht].
        now rewrite contains_char_cons, Hx, Hh.
Qed.

(** What follows the first split is a suffix of the string. *)
Lemma split_once_suffix (c : ascii) (s h f : string) (t : list string) :
  split_from (String c EmptyString) (Some 1%nat) 0 s = h :: f :: t ->
  t = [] /\ s = h ++ String c f.
Proof.
  revert h. induction s as [|x s IH]; intros h; cbn [split_from].
  - discriminate.
  - rewrite startswith_char. cbn [can_split]. rewrite andb_true_r.
    destruct (Ascii.eqb_spec x c) as [->|Hx].
    + cbn [dec_split option_map Nat.pred String.length Nat.sub].
      change (split_from (String c EmptyString) (Some 0%nat) 0 s)
        with (split (String c EmptyString) (Some 0%nat) s).
      rewrite split_exhausted. intros Heq. injection Heq as <- <- <-.
      split; reflexivity.
    + destruct (split_from (String c EmptyString) (Some 1%nat) 0 s)
        as [|h' t'] eqn:Hrec.
      * now apply split_from_nonempty in Hrec.
      * cbn [push]. intros Heq. injection Heq as <- ->.
        destruct (IH h' eq_refl) as [-> ->]. split; reflexivity.
Qed.

(** X9.  Whatever the string, the provider [parse_service_uri] returns has
    no [:] and no [/], the service it returns (when there is one) has
    neither, and the feature (when there is one) holds no [://]. *)
Theorem parse_service_uri_shape (uri : string)
        (provider service feature : option string) :
  parse_service_uri uri = Ok (provider, service, feature) ->
  (exists p, provider = Some p
             /\ contains ":" p = false /\ contains "/" p = false)
  /\ (forall s, service = Some s ->
        contains ":" s = false /\ contains "/" s = false)
  /\ (forall f, feature = Some f -> contains "://" f = false).
Proof.
  unfold parse_service_uri, split.
  rewrite (last_item_last _ (split_from_nonempty "://" uri None 0)).
  pose proof (last_piece_no_sep ":" "//" uri 0) as Htail.
  set (tail := last (split_from "://" None 0 uri) EmptyString) in *.
  destruct (split_from "/" (Some 1%nat) 0 tail) as [|svc rest] eqn:Hsplit;
    [now apply split_from_nonempty in Hsplit|].
  rewrite firstn_two_of_pieces.
  pose proof (first_piece_without_char "/" (Some 1%nat) tail eq_refl svc rest Hsplit)
    as Hsvc.
  pose proof (pieces_without_char ":" svc 0) as Hcolon.
  pose proof (pieces_keep_absent_char "/" ":" None svc Hsvc 0) as Hslash.
  destruct (split_from ":" None 0 svc) as [|p rest'] eqn:Hsplit';
    [now apply split_from_nonempty in Hsplit'|].
  rewrite firstn_two_of_pieces.
  inversion Hcolon as [|? ? Hpc Hrc]; subst.
  inversion Hslash as [|? ? Hps Hrs]; subst.
  intros Heq. injection Heq as <- <- <-. split; [|split].
  - exists p. repeat split; assumption.
  - intros s Hs. destruct rest' as [|s' rest'']; [discriminate|].
    injection Hs as <-.
    inversion Hrc; subst. inversion Hrs; subst. split; assumption.
  - intros f Hf. destruct rest as [|f' rest'']; [discriminate|].
    injection Hf as ->.
    destruct (split_once_suffix "/" tail svc f rest'' Hsplit) as [_ Heq].
    rewrite Heq in Htail.
    apply contains_suffix in Htail.
    apply (contains_suffix "://" "/" f Htail).
Qed.

Lemma split_after_scheme (b : string) :
  contains "://" b = false ->
  forall a skip,
    skip <= String.length a ->
    let pieces := split_from "://" None skip (a ++ "://" ++ b) in
    2 <= List.length pieces /\ last pieces EmptyString = b.
Proof.
  intros Hb a. remember ("://" ++ b) as r eqn:Hr.
  induction a as [|c a IH]; intros skip Hskip.
  - assert (skip = 0) as -> by (cbn in Hskip; lia).
    subst r. cbn -[last].
    change (split_from "://" None 0 b) with (split "://" None b).
    rewrite (split_absent _ _ _ Hb). split; [cbn; lia|reflexivity].
  - destruct skip as [|k].
    + cbn [append split_from can_split].
      destruct (startswith (String c (a ++ r)) "://") eqn:Hm; cbn [andb].
      * assert (Hlen : 2 <= String.length a).
        { subst r. cbn [startswith] in Hm.
          destruct a as [|x [|y a']]; cbn [append String.length] in *; [| |lia].
          - rewrite andb_false_r in Hm. discriminate.
          - rewrite !andb_false_r in Hm. discriminate. }
        destruct (IH 2 Hlen) as [Hl Hlast]. cbv zeta in *.
        cbn [dec_split option_map String.length Nat.sub].
        destruct (split_from "://" None 2 (a ++ r)) as [|h t];
          [cbn in Hl; lia|].
        split; [cbn in Hl |- *; lia|exact Hlast].
      * destruct (IH 0 (Nat.le_0_l _)) as [Hl Hlast]. cbv zeta in *.
        destruct (split_from "://" None 0 (a ++ r)) as [|h [|h' t]];
          [cbn in Hl; lia|cbn in Hl; lia|].
        split; [cbn in Hl |- *; lia|exact Hlast].
    + cbn [append split_from]. apply IH. cbn [String.length] in Hskip. lia.
Qed.

(** X10.  [parse_service_uri] reads only what follows the last [://]: with
    [rest] free of [://], a URI [anything://rest] parses as [rest] does,
    whatever stands before. *)
Theorem parse_service_uri_ignores_scheme (scheme rest : string) :
  contains "://" rest = false ->
  parse_service_uri (scheme ++ "://" ++ rest) = parse_service_uri rest.
Proof.
  intros Hrest. unfold parse_service_uri, split.
  rewrite (last_item_last _ (split_from_nonempty "://" _ None 0)).
  destruct (split_after_scheme rest Hrest scheme 0 (Nat.le_0_l _)) as [_ ->].
  change (split_from "://" None 0 rest) with (split "://" None rest).
  now rewrite (split_absent _ _ _ Hrest).
Qed.

(** ** More on classification *)

Lemma spec_type_cases (u : string) :
  In (spec_type u) type_names.
Proof.
  unfold spec_type, type_names.
  destruct (is_uuid u && startswith u "f"); [cbn; tauto|].
  destruct (is_uuid u && startswith u "d"); [cbn; tauto|].
  destruct (startswith u "svc://"); [cbn; tauto|].
  destruct (startswith u "pub://"); cbn; tauto.
Qed.

Lemma spec_type_service (u : string) :
  startswith u "svc://" = true -> spec_type u = "services".
Proof.
  intros Hs. unfold spec_type. destruct (is_uuid u) eqn:Hu.
  - destruct (is_uuid_not_scheme u Hu) as [Hs' _]. congruence.
  - cbn [andb]. now rewrite Hs.
Qed.

Lemma rows_of_type_filter (t : string) (uris : list string) :
  rows_of_type t uris (map spec_type uris)
  = filter (fun u => String.eqb (spec_type u) t) uris.
Proof.
  induction uris as [|u uris IH]; [reflexivity|].
  cbn [map rows_of_type filter]. rewrite IH. reflexivity.
Qed.

Lemma groups_of_In (uris : list string) (t : string) (rows : list string) :
  In (t, rows) (groups_of uris) <->
  In t type_names
  /\ rows = filter (fun u => String.eqb (spec_type u) t) uris
  /\ rows <> [].
Proof.
  unfold groups_of, groups. cbn [col_uri col_type].
  rewrite filter_In, in_map_iff. split.
  - intros [(t' & Heq & Ht') Hne]. injection Heq as -> <-.
    rewrite rows_of_type_filter in Hne |- *. cbn [snd] in Hne.
    repeat split; [exact Ht'|].
    intros Hnil. rewrite Hnil in Hne. discriminate.
  - intros (Ht & -> & Hne). split.
    + exists t. now rewrite rows_of_type_filter.
    + cbn [snd]. destruct (filter _ uris); [congruence|reflexivity].
Qed.

Lemma groups_of_key (uris : list string) (t : string) :
  existsb (fun kv => String.eqb (fst kv) t) (groups_of uris) = true <->
  exists u, In u uris /\ spec_type u = t.
Proof.
  rewrite existsb_exists. split.
  - intros ([t' rows] & Hin & Heq). cbn [fst] in Heq.
    apply String.eqb_eq in Heq. subst t'.
    apply groups_of_In in Hin as (_ & -> & Hne).
    destruct (filter (fun u => String.eqb (spec_type u) t) uris) as [|u l] eqn:Hf;
      [congruence|].
    assert (Hu : In u (filter (fun u => String.eqb (spec_type u) t) uris))
      by (rewrite Hf; now left).
    apply filter_In in Hu as [Hu Ht]. apply String.eqb_eq in Ht.
    now exists u.
  - intros (u & Hu & Ht).
    exists (t, filter (fun u => String.eqb (spec_type u) t) uris). split.
    + apply groups_of_In. repeat split.
      * rewrite <- Ht. apply spec_type_cases.
      * intros Hnil.
        assert (Hin : In u (filter (fun u => String.eqb (spec_type u) t) uris)).
        { apply filter_In. split; [exact Hu|now apply String.eqb_eq]. }
        now rewrite Hnil in Hin.
    + apply String.eqb_refl.
Qed.

Lemma type_names_NoDup : NoDup type_names.
Proof.
  unfold type_names.
  repeat (constructor; [cbn; intros Hin; repeat destruct Hin as [Hin|Hin];
                        try discriminate Hin; exact Hin|]).
  constructor.
Qed.

Lemma groups_of_keys_NoDup (uris : list string) : NoDup (map fst (groups_of uris)).
Proof.
  unfold groups_of, groups. cbn [col_uri col_type].
  pose proof type_names_NoDup as Hnd.
  induction type_names as [|t names IH]; [constructor|].
  inversion Hnd as [|? ? Ht Hnames]; subst.
  cbn [map filter]. destruct (negb _).
  - cbn [map fst]. constructor; [|now apply IH].
    intros Hin. apply in_map_iff in Hin as ([t' rows] & Heq & Hin).
    cbn [fst] in Heq. subst t'.
    apply filter_In in Hin as [Hin _].
    apply in_map_iff in Hin as (t' & Heq & Hin). injection Heq as -> _.
    contradiction.
  - now apply IH.
Qed.

Lemma group_sizes_add_up (uris : list string) :
  list_sum (map (fun kv => List.length (snd kv)) (groups_of uris))
  = List.length uris.
Proof.
  assert (Hdrop : forall l : list (string * list string),
             list_sum (map (fun kv => List.length (snd kv))
                           (filter (fun g => negb (Nat.eqb (List.length (snd g)) 0)) l))
             = list_sum (map (fun kv => List.length (snd kv)) l)).
  { induction l as [|[t rows] l IH]; [reflexivity|].
    unfold list_sum in *.
    destruct rows as [|r rows]; cbn in IH |- *; now rewrite IH. }
  unfold groups_of, groups. rewrite Hdrop. cbn [col_uri col_type].
  unfold type_names. cbn [map list_sum snd]. rewrite !rows_of_type_filter.
  induction uris as [|u uris IH]; [reflexivity|].
  cbn [filter List.length].
  pose proof (spec_type_cases u) as Hu. unfold type_names in Hu.
  cbn [In] in Hu.
  destruct Hu as [Hu|[Hu|[Hu|[Hu|[Hu|[]]]]]]; rewrite <- Hu;
    cbn [String.eqb Ascii.eqb Bool.eqb List.length]; cbn in IH |- *; lia.
Qed.

Lemma two_members_length {A : Type} (a b : A) (l : list A) :
  In a l -> In b l -> a <> b -> 2 <= List.length l.
Proof.
  destruct l as [|x [|y l]]; cbn; intros Ha Hb Hab; try lia; try tauto.
  destruct Ha as [<-|[]], Hb as [<-|[]]. congruence.
Qed.

Lemma one_member_length {A : Type} (t : A) (l : list A) :
  NoDup l -> (forall x, In x l -> x = t) -> List.length l <= 1.
Proof.
  destruct l as [|x [|y l]]; cbn; intros Hnd Hall; try lia.
  inversion Hnd as [|? ? Hx _]; subst. exfalso. apply Hx. left.
  rewrite (Hall x), (Hall y); tauto.
Qed.

Lemma groups_of_has_key (uris : list string) (u : string) :
  In u uris -> In (spec_type u) (map fst (groups_of uris)).
Proof.
  intros Hu.
  assert (Hk : existsb (fun kv => String.eqb (fst kv) (spec_type u)) (groups_of uris) = true)
    by (apply groups_of_key; now exists u).
  apply existsb_exists in Hk as ([t rows] & Hin & Heq).
  apply String.eqb_eq in Heq. cbn [fst] in Heq. subst t.
  apply in_map_iff. exists (spec_type u, rows). split; [reflexivity|exact Hin].
Qed.

Lemma classify_uris_unfold (uris : list string) (grouped as_dataframe same : bool)
      (exclude : option (list string)) :
  classify_uris uris grouped as_dataframe same exclude
  = let df := {| col_uri := uris; col_type := map spec_type uris |} in
    let g := groups_of uris in
    match match exclude with
          | None => None
          | Some ex => List.find (fun t => existsb (fun kv => String.eqb (fst kv) t) g) ex
          end with
    | Some t => Raise (ValueError ("Uris for " ++ t ++ " are not allowed."))
    | None =>
        if same && (1 <? List.length g)%nat
        then Raise (ValueError "All uris must be of the same type")
        else if negb as_dataframe then Ok (AsDict g)
        else if grouped then Ok (AsGroupBy df g)
        else Ok (AsFrame df)
    end.
Proof. unfold classify_uris. rewrite type_column_spec. reflexivity. Qed.

(** X11.  The dictionary [classify_uris] returns with [as_dataframe=False]
    has one entry per type that occurs, and no other; the entry of a type
    lists, in the order of the input, exactly the uris of that type; every
    uri is in the entry of its type; and the entries together hold as many
    uris as were passed. *)
Theorem classify_uris_groups_partition (uris : list string) (grouped : bool) :
  exists g,
    classify_uris uris grouped false false None = Ok (AsDict g)
    /\ NoDup (map fst g)
    /\ (forall t rows, In (t, rows) g ->
          rows <> []
          /\ rows = filter (fun u => String.eqb (spec_type u) t) uris)
    /\ (forall u, In u uris ->
          exists rows, In (spec_type u, rows) g /\ In u rows)
    /\ list_sum (map (fun kv => List.length (snd kv)) g) = List.length uris.
Proof.
  exists (groups_of uris).
  split; [now rewrite classify_uris_unfold|].
  split; [apply groups_of_keys_NoDup|].
  split; [|split; [|apply group_sizes_add_up]].
  - intros t rows Hin. apply groups_of_In in Hin as (_ & Hrows & Hne).
    split; assumption.
  - intros u Hu.
    assert (Hin : In u (filter (fun v => String.eqb (spec_type v) (spec_type u)) uris)).
    { apply filter_In. split; [exact Hu|apply String.eqb_refl]. }
    eexists. split; [|exact Hin].
    apply groups_of_In. repeat split; [apply spec_type_cases|].
    intros Hnil. now rewrite Hnil in Hin.
Qed.

(** X12.  The two checks of [classify_uris].  With [exclude]: if a uri has
    an excluded type the call raises [ValueError] naming an excluded type,
    and if none has, the call goes on as without [exclude].  With
    [require_same_type]: two uris of different types make the call raise
    [ValueError], and uris that all have one type (or no uri at all) do
    not. *)
Theorem classify_uris_checks (uris : list string) (grouped as_dataframe : bool) :
  (forall ex same t u,
      In t ex -> In u uris -> spec_type u = t ->
      exists t',
        In t' ex
        /\ classify_uris uris grouped as_dataframe same (Some ex)
           = Raise (ValueError ("Uris for " ++ t' ++ " are not allowed.")))
  /\ (forall ex same,
         (forall u, In u uris -> ~ In (spec_type u) ex) ->
         classify_uris uris grouped as_dataframe same (Some ex)
         = classify_uris uris grouped as_dataframe same None)
  /\ (forall u1 u2,
         In u1 uris -> In u2 uris -> spec_type u1 <> spec_type u2 ->
         classify_uris uris grouped as_dataframe true None
         = Raise (ValueError "All uris must be of the same type"))
  /\ (forall t,
         (forall u, In u uris -> spec_type u = t) ->
         classify_uris uris grouped as_dataframe true None
         = classify_uris uris grouped as_dataframe false None).
Proof.
  split; [|split; [|split]].
  - intros ex same t u Ht Hu Htype. rewrite classify_uris_unfold. cbv zeta.
    destruct (List.find (fun t0 => existsb (fun kv => String.eqb (fst kv) t0)
                                      (groups_of uris)) ex) as [t'|] eqn:Hfind.
    + apply find_some in Hfind as [Hin _]. exists t'. split; [exact Hin|reflexivity].
    + pose proof (find_none _ _ Hfind t Ht) as Hnone. cbv beta in Hnone.
      assert (Hsome : existsb (fun kv => String.eqb (fst kv) t) (groups_of uris) = true)
        by (apply groups_of_key; now exists u).
      congruence.
  - intros ex same Hnone. rewrite !classify_uris_unfold. cbv zeta.
    destruct (List.find (fun t0 => existsb (fun kv => String.eqb (fst kv) t0)
                                      (groups_of uris)) ex) as [t'|] eqn:Hfind;
      [|reflexivity].
    apply find_some in Hfind as [Hin Hkey].
    apply groups_of_key in Hkey as (u & Hu & Ht). subst t'.
    now apply Hnone in Hu.
  - intros u1 u2 H1 H2 Hne. rewrite classify_uris_unfold. cbv zeta.
    assert (Hlen : 2 <= List.length (map fst (groups_of uris))).
    { apply (two_members_length (spec_type u1) (spec_type u2));
        [now apply groups_of_has_key|now apply groups_of_has_key|exact Hne]. }
    rewrite length_map in Hlen.
    destruct (Nat.ltb_spec 1 (List.length (groups_of uris))); [reflexivity|lia].
  - intros t Hall. rewrite !classify_uris_unfold. cbv zeta.
    assert (Hlen : List.length (map fst (groups_of uris)) <= 1).
    { apply (one_member_length t); [apply groups_of_keys_NoDup|].
      intros t' Hin. apply in_map_iff in Hin as ([t'' rows] & Heq & Hin).
      cbn [fst] in Heq. subst t''.
      assert (Hk : existsb (fun kv => String.eqb (fst kv) t') (groups_of uris) = true).
      { apply existsb_exists. exists (t', rows). split; [exact Hin|apply String.eqb_refl]. }
      apply groups_of_key in Hk as (u & Hu & <-). now apply Hall. }
    rewrite length_map in Hlen.
    destruct (Nat.ltb_spec 1 (List.length (groups_of uris))); [lia|reflexivity].
Qed.

Lemma construct_service_uri_scheme (provider service : string) (feature : option string) :
  startswith (construct_service_uri provider service feature) "svc://" = true.
Proof. destruct feature; reflexivity. Qed.

(** X13.  A URI built by [construct_service_uri], whatever its parts, is
    typed [services] by [classify_uris], is no UUID and is no remote URI;
    and a remote URI (one that starts with [http://] or [https://]) is no
    UUID and is typed [collections]. *)
Theorem service_and_remote_uris (provider service : string) (feature : option string) :
  let uri := construct_service_uri provider service feature in
  classify_uris [uri] false true false None
    = Ok (AsFrame {| col_uri := [uri]; col_type := ["services"] |})
  /\ is_uuid uri = false
  /\ is_remote_uri uri = false
  /\ forall remote,
       is_remote_uri remote = true ->
       is_uuid remote = false /\ spec_type remote = "collections".
Proof.
  intros uri.
  pose proof (construct_service_uri_scheme provider service feature) as Hs.
  fold uri in Hs.
  split; [|split; [|split]].
  - rewrite classify_uris_frame. cbn [map]. now rewrite (spec_type_service uri Hs).
  - destruct (is_uuid uri) eqn:Hu; [|reflexivity].
    destruct (is_uuid_not_scheme uri Hu) as [Hs' _]. congruence.
  - unfold uri. destruct feature; reflexivity.
  - intros remote Hr.
    assert (Hh : exists rest, remote = String "h" rest).
    { unfold is_remote_uri in Hr. destruct remote as [|c rest]; [discriminate Hr|].
      cbn [startswith] in Hr.
      destruct (Ascii.eqb_spec c "h") as [->|_]; [now exists rest|discriminate Hr]. }
    destruct Hh as [rest ->].
    assert (Hu : is_uuid (String "h" rest) = false).
    { destruct (is_uuid (String "h" rest)) eqn:Hu; [|reflexivity].
      destruct (is_uuid_first_char _ Hu) as (c & rest' & Heq & Hc).
      injection Heq as <- _. discriminate Hc. }
    split; [exact Hu|]. unfold spec_type. rewrite Hu. reflexivity.
Qed.

Local Open Scope Z_scope.

Lemma set_variant_version_4_top (n : Z) :
  set_variant_version n 4 / 2 ^ 124 = n / 2 ^ 124.
Proof.
  apply Z.bits_inj'. intros i Hi.
  rewrite !Z.div_pow2_bits by lia.
  rewrite set_variant_version_4_bits by lia.
  destruct (Z.eqb_spec (i + 124) 62); [lia|].
  destruct (Z.eqb_spec (i + 124) 63); [lia|].
  destruct (Z.eqb_spec (i + 124) 76); [lia|].
  destruct (Z.eqb_spec (i + 124) 77); [lia|].
  destruct (Z.eqb_spec (i + 124) 79); [lia|].
  destruct (Z.eqb_spec (i + 124) 78); [lia|].
  reflexivity.
Qed.

Lemma hexdigit_is (d : Z) (k : nat) :
  0 <= d < 16 -> (k < 16)%nat ->
  Ascii.eqb (hexdigit d) (hexdigit (Z.of_nat k)) = (d =? Z.of_nat k).
Proof.
  intros Hd Hk.
  assert (Hj : exists j, (j < 16)%nat /\ d = Z.of_nat j).
  { exists (Z.to_nat d). lia. }
  destruct Hj as (j & Hj & ->).
  do 16 (destruct j as [|j];
         [do 16 (destruct k as [|k]; [reflexivity|]); lia|]).
  lia.
Qed.

(** X14.  For a resource type other than [feature] and [dataset], [uuid]
    returns the identifier of [uuid4] as it is, and [classify_uris] types
    it by its random first digit: [features] when the four highest bits of
    the entropy are [f], [datasets] when they are [d], [collections]
    otherwise. *)
Theorem untagged_uuid_type (resource_type : string) (rand : Z) :
  0 <= rand < 2 ^ 128 ->
  resource_type <> "feature"%string ->
  resource_type <> "dataset"%string ->
  exists id,
    uuid resource_type rand = Ok id
    /\ is_uuid id = true
    /\ spec_type id
       = (if rand / 2 ^ 124 =? 15 then "features"%string
          else if rand / 2 ^ 124 =? 13 then "datasets"%string
          else "collections"%string).
Proof.
  intros Hr Hnf Hnd.
  exists (UUID_hex (set_variant_version rand 4)). split.
  { unfold uuid. rewrite (uuid4_ok rand Hr).
    apply String.eqb_neq in Hnf, Hnd. now rewrite Hnf, Hnd. }
  assert (Hu : is_uuid (UUID_hex (set_variant_version rand 4)) = true).
  { apply is_uuid_hex.
    - apply set_variant_version_4_range, Hr.
    - apply set_variant_version_4_idem. }
  split; [exact Hu|].
  destruct (is_uuid_not_scheme _ Hu) as [Hs Hp].
  unfold spec_type. rewrite Hu, Hs, Hp. cbn [andb].
  unfold UUID_hex.
  change (format_x 32 (set_variant_version rand 4))
    with (String (hexdigit ((set_variant_version rand 4 / 16 ^ 31) mod 16))
                 (format_x 31 (set_variant_version rand 4))).
  cbn [startswith]. rewrite !andb_true_r.
  change (16 ^ 31) with (2 ^ 124). rewrite set_variant_version_4_top.
  assert (Hd : 0 <= rand / 2 ^ 124 < 16).
  { split; [apply Z.div_pos; lia|].
    apply Z.div_lt_upper_bound; [lia|]. change (2 ^ 124 * 16) with (2 ^ 128). lia. }
  rewrite Z.mod_small by exact Hd.
  change "f"%char with (hexdigit (Z.of_nat 15)).
  change "d"%char with (hexdigit (Z.of_nat 13)).
  rewrite !hexdigit_is by (try exact Hd; lia).
  reflexivity.
Qed.

Local Close Scope Z_scope.

(** ** The strings [is_uuid] accepts *)

Local Open Scope Z_scope.

Lemma get_format_x (k : nat) (n : Z) :
  forall i, (i < k)%nat ->
  String.get i (format_x k n)
  = Some (hexdigit ((n / 16 ^ Z.of_nat (k - 1 - i)) mod 16)).
Proof.
  induction k as [|k IH]; intros i Hi; [lia|].
  cbn [format_x]. destruct i as [|i]; cbn [String.get].
  - replace (S k - 1 - 0)%nat with k by lia. reflexivity.
  - rewrite IH by lia. replace (S k - 1 - S i)%nat with (k - 1 - i)%nat by lia.
    reflexivity.
Qed.

Lemma nibble_bit (n s i : Z) :
  0 <= s -> 0 <= i < 4 ->
  Z.testbit ((n / 2 ^ s) mod 16) i = Z.testbit n (i + s).
Proof.
  intros Hs Hi. change 16 with (2 ^ 4).
  rewrite Z.mod_pow2_bits_low by lia. apply Z.div_pow2_bits; lia.
Qed.

Lemma nibble_of_bits (m : Z) :
  0 <= m < 16 ->
  m = Z.b2z (Z.testbit m 0) + 2 * Z.b2z (Z.testbit m 1)
      + 4 * Z.b2z (Z.testbit m 2) + 8 * Z.b2z (Z.testbit m 3).
Proof.
  intros Hm.
  assert (Hk : exists k, (k < 16)%nat /\ m = Z.of_nat k).
  { exists (Z.to_nat m). lia. }
  destruct Hk as (k & Hk & ->).
  do 16 (destruct k as [|k]; [reflexivity|]). lia.
Qed.

(** The two nibbles [set_variant_version] fixes, read off a number. *)
Lemma version_nibbles_iff (n : Z) :
  set_variant_version n 4 = n <->
  (n / 2 ^ 76) mod 16 = 4 /\ 8 <= (n / 2 ^ 60) mod 16 < 12.
Proof.
  pose proof (Z.mod_pos_bound (n / 2 ^ 76) 16 ltac:(lia)) as Hv.
  pose proof (Z.mod_pos_bound (n / 2 ^ 60) 16 ltac:(lia)) as Hr.
  pose proof (nibble_of_bits _ Hv) as Hvb.
  pose proof (nibble_of_bits _ Hr) as Hrb.
  rewrite !nibble_bit in Hvb, Hrb by lia.
  change (0 + 76)%Z with 76%Z in Hvb. change (1 + 76)%Z with 77%Z in Hvb.
  change (2 + 76)%Z with 78%Z in Hvb. change (3 + 76)%Z with 79%Z in Hvb.
  change (0 + 60)%Z with 60%Z in Hrb. change (1 + 60)%Z with 61%Z in Hrb.
  change (2 + 60)%Z with 62%Z in Hrb. change (3 + 60)%Z with 63%Z in Hrb.
  split.
  - intros Hfix.
    assert (Hb : forall i, 0 <= i ->
               Z.testbit n i
               = if i =? 62 then false
                 else if i =? 63 then true
                 else if (i =? 76) || (i =? 77) || (i =? 79) then false
                 else if i =? 78 then true
                 else Z.testbit n i).
    { intros i Hi. rewrite <- Hfix at 1. now apply set_variant_version_4_bits. }
    assert (H62 : Z.testbit n 62 = false) by (rewrite (Hb 62) by lia; reflexivity).
    assert (H63 : Z.testbit n 63 = true) by (rewrite (Hb 63) by lia; reflexivity).
    assert (H76 : Z.testbit n 76 = false) by (rewrite (Hb 76) by lia; reflexivity).
    assert (H77 : Z.testbit n 77 = false) by (rewrite (Hb 77) by lia; reflexivity).
    assert (H78 : Z.testbit n 78 = true) by (rewrite (Hb 78) by lia; reflexivity).
    assert (H79 : Z.testbit n 79 = false) by (rewrite (Hb 79) by lia; reflexivity).
    rewrite H76, H77, H78, H79 in Hvb. rewrite H62, H63 in Hrb.
    cbn [Z.b2z] in Hvb, Hrb.
    destruct (Z.testbit n 60), (Z.testbit n 61); cbn [Z.b2z] in Hrb; lia.
  - intros [H4 Hvar].
    assert (Hbits : Z.testbit n 76 = false /\ Z.testbit n 77 = false
                    /\ Z.testbit n 78 = true /\ Z.testbit n 79 = false
                    /\ Z.testbit n 62 = false /\ Z.testbit n 63 = true).
    { destruct (Z.testbit n 76), (Z.testbit n 77), (Z.testbit n 78),
        (Z.testbit n 79), (Z.testbit n 60), (Z.testbit n 61),
        (Z.testbit n 62), (Z.testbit n 63);
        cbn [Z.b2z] in Hvb, Hrb; try lia; repeat split; reflexivity. }
    destruct Hbits as (H76 & H77 & H78 & H79 & H62 & H63).
    apply Z.bits_inj'. intros i Hi.
    rewrite set_variant_version_4_bits by exact Hi.
    destruct (Z.eqb_spec i 62) as [->|]; [now rewrite H62|].
    destruct (Z.eqb_spec i 63) as [->|]; [now rewrite H63|].
    destruct (Z.eqb_spec i 76) as [->|]; [now rewrite H76|].
    destruct (Z.eqb_spec i 77) as [->|]; [now rewrite H77|].
    destruct (Z.eqb_spec i 79) as [->|]; [now rewrite H79|].
    destruct (Z.eqb_spec i 78) as [->|]; [now rewrite H78|].
    reflexivity.
Qed.

Lemma lower_hex_digit (c : ascii) :
  lower_hex c = true -> exists d, 0 <= d < 16 /\ c = hexdigit d.
Proof.
  unfold lower_hex. cbn [mem_char]. intros Hc.
  repeat (apply orb_true_iff in Hc as [Hc|Hc];
          [apply Ascii.eqb_eq in Hc; subst c;
           first [ exists 0; split; [lia|reflexivity]
                 | exists 1; split; [lia|reflexivity]
                 | exists 2; split; [lia|reflexivity]
                 | exists 3; split; [lia|reflexivity]
                 | exists 4; split; [lia|reflexivity]
                 | exists 5; split; [lia|reflexivity]
                 | exists 6; split; [lia|reflexivity]
                 | exists 7; split; [lia|reflexivity]
                 | exists 8; split; [lia|reflexivity]
                 | exists 9; split; [lia|reflexivity]
                 | exists 10; split; [lia|reflexivity]
                 | exists 11; split; [lia|reflexivity]
                 | exists 12; split; [lia|reflexivity]
                 | exists 13; split; [lia|reflexivity]
                 | exists 14; split; [lia|reflexivity]
                 | exists 15; split; [lia|reflexivity] ]|]).
  discriminate Hc.
Qed.

(** A string of lower-case hexadecimal digits is the rendering of a number. *)
Lemma lower_hex_rendering (s : string) :
  all_chars lower_hex s = true ->
  exists v, 0 <= v < 16 ^ Z.of_nat (String.length s)
            /\ format_x (String.length s) v = s.
Proof.
  induction s as [|c s IH]; intros Hs.
  - exists 0. split; [cbn; lia|reflexivity].
  - cbn [all_chars] in Hs. apply andb_true_iff in Hs as [Hc Hs].
    destruct (lower_hex_digit c Hc) as (d & Hd & ->).
    destruct (IH Hs) as (v & Hv & Hfmt).
    set (k := String.length s) in *.
    pose proof (pow16_pos k) as Hpos.
    exists (d * 16 ^ Z.of_nat k + v). split.
    + cbn [String.length]. fold k. rewrite pow16_succ. nia.
    + cbn [String.length format_x]. fold k. f_equal.
      * f_equal. rewrite Z.add_comm, Z.div_add, Z.div_small by lia.
        apply Z.mod_small. lia.
      * rewrite <- format_x_mod, Z.add_comm, Z_mod_plus_full, Z.mod_small by lia.
        exact Hfmt.
Qed.

Lemma hexdigit_inj (d e : Z) :
  0 <= d < 16 -> 0 <= e < 16 -> hexdigit d = hexdigit e -> d = e.
Proof.
  intros Hd He Heq.
  pose proof (hexdigit_is d (Z.to_nat e) Hd ltac:(lia)) as His.
  rewrite Z2Nat.id in His by lia.
  rewrite Heq, Ascii.eqb_refl in His. symmetry in His.
  now apply Z.eqb_eq in His.
Qed.

Lemma variant_digit (m : Z) :
  0 <= m < 16 -> mem_char (hexdigit m) "89ab" = (8 <=? m) && (m <? 12).
Proof.
  intros Hm.
  assert (Hk : exists k, (k < 16)%nat /\ m = Z.of_nat k).
  { exists (Z.to_nat m). lia. }
  destruct Hk as (k & Hk & ->).
  do 16 (destruct k as [|k]; [reflexivity|]). lia.
Qed.

(** X15.  [is_uuid] accepts exactly the strings of 32 lower-case hexadecimal
    digits whose digit at index 12 is [4] (the version) and whose digit at
    index 16 is [8], [9], [a] or [b] (the variant). *)
Theorem is_uuid_syntax (u : string) :
  is_uuid u = true <->
  String.length u = 32%nat
  /\ all_chars lower_hex u = true
  /\ String.get 12 u = Some "4"%char
  /\ exists c, String.get 16 u = Some c /\ mem_char c "89ab" = true.
Proof.
  rewrite is_uuid_iff. split.
  - intros (n & Hn & Hfix & ->). unfold UUID_hex.
    apply version_nibbles_iff in Hfix as [H4 Hvar].
    split; [apply length_format_x|]. split; [apply format_x_lower_hex|].
    rewrite !get_format_x by lia.
    change (16 ^ Z.of_nat (32 - 1 - 12)) with (2 ^ 76).
    change (16 ^ Z.of_nat (32 - 1 - 16)) with (2 ^ 60).
    rewrite H4. split; [reflexivity|].
    eexists. split; [reflexivity|].
    rewrite variant_digit by lia.
    destruct (Z.leb_spec 8 ((n / 2 ^ 60) mod 16)); [|lia].
    destruct (Z.ltb_spec ((n / 2 ^ 60) mod 16) 12); [reflexivity|lia].
  - intros (Hlen & Hhex & H12 & c & H16 & Hc).
    destruct (lower_hex_rendering u Hhex) as (n & Hn & Hfmt).
    rewrite Hlen in Hn, Hfmt. change (16 ^ Z.of_nat 32) with (2 ^ 128) in Hn.
    exists n. split; [exact Hn|]. split; [|now symmetry].
    rewrite <- Hfmt in H12, H16. rewrite get_format_x in H12, H16 by lia.
    change (16 ^ Z.of_nat (32 - 1 - 12)) with (2 ^ 76) in H12.
    change (16 ^ Z.of_nat (32 - 1 - 16)) with (2 ^ 60) in H16.
    pose proof (Z.mod_pos_bound (n / 2 ^ 76) 16 ltac:(lia)) as Hv.
    pose proof (Z.mod_pos_bound (n / 2 ^ 60) 16 ltac:(lia)) as Hr.
    apply version_nibbles_iff. split.
    + injection H12 as H12. apply (hexdigit_inj _ 4 Hv ltac:(lia) H12).
    + injection H16 as <-. rewrite variant_digit in Hc by exact Hr.
      apply andb_true_iff in Hc as [Hlo Hhi].
      apply Z.leb_le in Hlo. apply Z.ltb_lt in Hhi. lia.
Qed.

Local Close Scope Z_scope.

(** ** [listify] *)

Lemma rstrip_idem (chars s : string) :
  rstrip chars (rstrip chars s) = rstrip chars s.
Proof.
  induction s as [|c s IH]; [reflexivity|].
  cbn [rstrip]. destruct (rstrip chars s) as [|x r] eqn:Hr.
  - destruct (mem_char c chars) eqn:Hc; [reflexivity|].
    cbn [rstrip]. now rewrite Hc.
  - change (rstrip chars (String c (String x r)))
      with (match rstrip chars (String x r) with
            | EmptyString => if mem_char c chars then EmptyString
                             else String c EmptyString
            | String y r' => String c (String y r')
            end).
    now rewrite IH.
Qed.

Lemma lstrip_clean (chars : string) (c : ascii) (s : string) :
  mem_char c chars = false -> lstrip chars (String c s) = String c s.
Proof. intros Hc. cbn [lstrip]. now rewrite Hc. Qed.

Lemma lstrip_starts_clean (chars s : string) :
  lstrip chars s = EmptyString
  \/ exists c r, lstrip chars s = String c r /\ mem_char c chars = false.
Proof.
  induction s as [|c s IH]; [now left|].
  cbn [lstrip]. destruct (mem_char c chars) eqn:Hc; [exact IH|].
  right. now exists c, s.
Qed.

Lemma rstrip_keeps_clean_start (chars : string) (c : ascii) (s : string) :
  mem_char c chars = false ->
  exists r, rstrip chars (String c s) = String c r.
Proof.
  intros Hc. cbn [rstrip]. destruct (rstrip chars s) as [|x r].
  - rewrite Hc. now exists EmptyString.
  - now exists (String x r).
Qed.

Lemma strip_idem (chars s : string) :
  strip chars (strip chars s) = strip chars s.
Proof.
  unfold strip. destruct (lstrip_starts_clean chars s) as [->|(c & r & -> & Hc)].
  - reflexivity.
  - destruct (rstrip_keeps_clean_start chars c r Hc) as [r' Hr'].
    rewrite Hr' at 1. rewrite (lstrip_clean chars c r' Hc), <- Hr'.
    apply rstrip_idem.
Qed.

(** X16.  What [listify] returns it returns again when applied to its own
    result, whatever the delimiter.  On a string (and a non-empty
    delimiter) it returns a list that is never empty, and each of its items
    is a piece with no white space left at either end; a string that does
    not contain the delimiter gives the single item of the stripped string,
    so the empty string gives one empty item. *)
Theorem listify_normalises (liststr : value) (delimiter : string) (r : value) :
  listify liststr delimiter = Ok r ->
  (forall delimiter', listify r delimiter' = Ok r)
  /\ (forall s, liststr = VStr s ->
        exists pieces,
          r = VList (map VStr pieces)
          /\ pieces <> []
          /\ Forall (fun p => strip whitespace p = p) pieces
          /\ (contains delimiter s = false -> pieces = [strip whitespace s])).
Proof.
  intros Hr. split.
  - intros delimiter'. destruct liststr as [|s|items|items|n]; cbn [listify] in Hr.
    + now injection Hr as <-.
    + destruct delimiter; [discriminate|]. now injection Hr as <-.
    + now injection Hr as <-.
    + now injection Hr as <-.
    + now injection Hr as <-.
  - intros s ->. cbn [listify] in Hr.
    destruct delimiter as [|x sep]; [discriminate|]. injection Hr as <-.
    exists (map (strip whitespace) (split (String x sep) None s)).
    split; [now rewrite map_map|]. split; [|split].
    + pose proof (split_from_nonempty (String x sep) s None 0) as Hne.
      unfold split. destruct (split_from (String x sep) None 0 s); [congruence|].
      discriminate.
    + apply Forall_map, Forall_forall. intros p _. apply strip_idem.
    + intros Habsent. now rewrite (split_absent _ _ _ Habsent).
Qed.

Example listify_examples :
  listify (VStr " a, b ,,c ") "," = Ok (VList [VStr "a"; VStr "b"; VStr ""; VStr "c"])
  /\ listify (VStr "") "," = Ok (VList [VStr ""])
  /\ listify (VInt 3) "," = Ok (VList [VInt 3])
  /\ listify (VStr "a") "" = Raise (ValueError "empty separator").
Proof. repeat split. Qed.

(** ** Unit conversion of rasters *)

Lemma find_from_first (c : ascii) (a b : string) (i : Z) :
  contains (String c EmptyString) a = false ->
  find_from (String c EmptyString) (a ++ String c b) i
  = (i + Z.of_nat (String.length a))%Z.
Proof.
  revert i. induction a as [|x a IH]; intros i Ha.
  - cbn [append find_from]. rewrite startswith_char, Ascii.eqb_refl.
    cbn [String.length]. lia.
  - rewrite contains_char_cons in Ha. apply orb_false_iff in Ha as [Hx Ha].
    cbn [append find_from]. rewrite startswith_char, Hx, (IH _ Ha).
    cbn [String.length]. lia.
Qed.

Lemma substring_all (s : string) : String.substring 0 (String.length s) s = s.
Proof. induction s as [|c s IH]; [reflexivity|]. cbn. now rewrite IH. Qed.

Lemma substring_tail (a b : string) :
  String.substring (String.length a) (String.length b) (a ++ b) = b.
Proof.
  induction a as [|c a IH]; [apply substring_all|].
  cbn [String.length append String.substring]. exact IH.
Qed.

Lemma length_append (a b : string) :
  String.length (a ++ b) = String.length a + String.length b.
Proof. induction a as [|c a IH]; [reflexivity|]. cbn. now rewrite IH. Qed.

(** [s[s.find(c):len(s)]] is [s] from its first [c] on. *)
Lemma slice_from_first (c : ascii) (a b : string) :
  contains (String c EmptyString) a = false ->
  let s := a ++ String c b in
  slice s (find (String c EmptyString) s) (Z.of_nat (String.length s))
  = String c b.
Proof.
  intros Ha s.
  assert (Hfind : find (String c EmptyString) s = Z.of_nat (String.length a)).
  { unfold find, s. rewrite (find_from_first c a b 0 Ha). lia. }
  assert (Hlen : String.length s = String.length a + String.length (String c b))
    by apply length_append.
  unfold slice. rewrite Hfind.
  destruct (Z.ltb_spec (Z.of_nat (String.length a)) 0); [lia|].
  destruct (Z.ltb_spec (Z.of_nat (String.length s)) 0); [lia|].
  rewrite Z.min_l by lia. rewrite Z.min_id.
  replace (Z.to_nat (Z.of_nat (String.length a))) with (String.length a) by lia.
  replace (Z.to_nat (Z.of_nat (String.length s) - Z.of_nat (String.length a)))
    with (String.length (String c b)) by lia.
  apply substring_tail.
Qed.

Lemma dict_get_del_other {V : Type} (a k : string) (d : dict V) :
  a <> k -> dict_get a (dict_del k d) = dict_get a d.
Proof.
  intros Hak. induction d as [|[k' v'] d IH]; [reflexivity|].
  cbn [dict_del dict_get]. destruct (String.eqb_spec k k') as [->|Hk].
  - apply String.eqb_neq in Hak. now rewrite Hak.
  - cbn [dict_get]. now rewrite IH.
Qed.

Section RasterProofs.

Variables (D F : Type).
Variable scale : D -> F -> D.
Variable convert : string -> string -> result F.

(** The dictionary [_run] works on once [file_path] is deleted. *)
Lemma without_file_path_unit (md : dict string) :
  dict_get "unit" (if dict_mem "file_path" md then dict_del "file_path" md else md)
  = dict_get "unit" md.
Proof.
  destruct (dict_mem "file_path" md); [|reflexivity].
  apply dict_get_del_other. discriminate.
Qed.

(** X17.  A rate stays a rate: when the unit of the data is
    [num/den] ([num] free of [/]) and the target unit has no [/], the
    conversion is made to [to_units/den], and [_run] returns the data
    scaled by the factor of that conversion, having set the unit of the
    metadata to [to_units/den] and pointed [df.metadata] at the metadata;
    when the target unit has a [/] of its own, or the unit of the data has
    none, the conversion is made to the target unit as given. *)
Theorem unit_conversion_target (to_units from_units : string) (data : D)
        (st : rst_state) (conversion : F) :
  dict_get "unit" (orig_metadata st) = Some from_units ->
  let metadata := if dict_mem "file_path" (orig_metadata st)
                  then dict_del "file_path" (orig_metadata st)
                  else orig_metadata st in
  let done target :=
    ({| orig_metadata := dict_update "unit" target metadata;
        df_metadata := Some (dict_update "unit" target metadata) |},
     Ok (scale data conversion)) in
  (forall num den,
      from_units = num ++ "/" ++ den ->
      contains "/" num = false ->
      contains "/" to_units = false ->
      convert from_units (to_units ++ "/" ++ den) = Ok conversion ->
      RstUnitConversion_run D F scale convert (Some to_units) data st
      = done (to_units ++ "/" ++ den))
  /\ (contains "/" from_units && negb (contains "/" to_units) = false ->
      convert from_units to_units = Ok conversion ->
      RstUnitConversion_run D F scale convert (Some to_units) data st
      = done to_units).
Proof.
  intros Hunit metadata done.
  assert (Hunit' : dict_get "unit" metadata = Some from_units).
  { unfold metadata. now rewrite without_file_path_unit. }
  split.
  - intros num den -> Hnum Hto Hconv.
    unfold RstUnitConversion_run. fold metadata. rewrite Hunit'.
    assert (Hrate : contains "/" (num ++ "/" ++ den) = true).
    { rewrite contains_char_app. cbn [append].
      rewrite contains_char_cons. cbn [Ascii.eqb Bool.eqb orb].
      apply orb_true_r. }
    rewrite Hrate, Hto. cbn [andb negb].
    pose proof (slice_from_first "/" num den Hnum) as Hslice. cbv zeta in Hslice.
    cbn [append] in Hslice |- *. rewrite Hslice.
    cbn [append] in Hconv. rewrite Hconv. reflexivity.
  - intros Hplain Hconv.
    unfold RstUnitConversion_run. fold metadata.
    rewrite Hunit', Hplain, Hconv. reflexivity.
Qed.

(** X18.  What [_run] does to the caller's metadata on every path.  Without
    [to_units] it raises before touching anything.  Otherwise [file_path] is
    deleted first, so the caller's dictionary has lost it even when [_run]
    then raises, for a missing [unit] ([KeyError]) or a failed conversion,
    and in these two cases nothing else has changed; when [_run] returns,
    [unit] is the only other key it has written. *)
Theorem unit_conversion_metadata (to_units : option string) (data : D)
        (st : rst_state) :
  NoDup (keys (orig_metadata st)) ->
  let r := RstUnitConversion_run D F scale convert to_units data st in
  let metadata' := orig_metadata (fst r) in
  (to_units = None ->
   r = (st, Raise (ValueError "to_units cannot be None")))
  /\ (to_units <> None ->
      dict_mem "file_path" metadata' = false
      /\ (forall key, key <> "file_path" -> key <> "unit" ->
            dict_get key metadata' = dict_get key (orig_metadata st)))
  /\ (to_units <> None -> dict_get "unit" (orig_metadata st) = None ->
      snd r = Raise (KeyError "unit"))
  /\ (forall e, to_units <> None -> snd r = Raise e ->
      dict_get "unit" metadata' = dict_get "unit" (orig_metadata st)
      /\ df_metadata (fst r) = df_metadata st).
Proof.
  intros Hnd r metadata'.
  set (md := if dict_mem "file_path" (orig_metadata st)
             then dict_del "file_path" (orig_metadata st)
             else orig_metadata st).
  assert (Hgone : dict_mem "file_path" md = false).
  { unfold md. destruct (dict_mem "file_path" (orig_metadata st)) eqn:Hm; [|exact Hm].
    apply dict_mem_false. now apply dict_del_unlisted. }
  assert (Hkeep : forall key, key <> "file_path" ->
                  dict_get key md = dict_get key (orig_metadata st)).
  { intros key Hkey. unfold md.
    destruct (dict_mem "file_path" (orig_metadata st)); [|reflexivity].
    now apply dict_get_del_other. }
  split; [intros ->; reflexivity|].
  destruct to_units as [to|]; [|repeat split; congruence].
  unfold metadata', r, RstUnitConversion_run. fold md.
  rewrite <- (Hkeep "unit") by discriminate.
  destruct (dict_get "unit" md) as [from|] eqn:Hfrom.
  - destruct (convert from _) as [c|e'] eqn:Hconv; cbn [fst snd orig_metadata df_metadata].
    + split; [|split].
      * intros _. split; [now rewrite dict_mem_update, Hgone|].
        intros key Hfp Hu. rewrite dict_get_update_other by exact Hu.
        now apply Hkeep.
      * intros _ Hnone. discriminate Hnone.
      * intros e _ Hraise. discriminate Hraise.
    + split; [|split].
      * intros _. split; [exact Hgone|]. intros key Hfp _. now apply Hkeep.
      * intros _ Hnone. discriminate Hnone.
      * intros e _ _. split; [exact Hfrom|reflexivity].
  - cbn [fst snd orig_metadata df_metadata]. split; [|split].
    + intros _. split; [exact Hgone|]. intros key Hfp _. now apply Hkeep.
    + intros _ _. reflexivity.
    + intros e _ _. split; [exact Hfrom|reflexivity].
Qed.

End RasterProofs.

(** ** [bbox2poly] *)

Section BboxProofs.

Context {F : Type} `{Float F}.

Lemma closed_ring_closed (xmin ymin xmax ymax : F) :
  List.length (closed_ring xmin ymin xmax ymax) = 5
  /\ nth_error (closed_ring xmin ymin xmax ymax) 4
     = nth_error (closed_ring xmin ymin xmax ymax) 0.
Proof. split; reflexivity. Qed.

(** X19.  Every ring [bbox2poly] returns has five points, the last being
    the first.  Without [as_geojson] and [as_shapely] the result is the
    plain ring of the box, however far it reaches; otherwise it is built
    with shapely when [as_shapely] is set (also when [as_geojson] is set
    too) and with geojson if not: one polygon, the ring of the box, when
    neither [xmin < -180] nor [xmax > 180], and a multi-polygon of two
    polygons when one of them holds. *)
Theorem bbox2poly_rings (x1 y1 x2 y2 : F) (reverse_order as_geojson as_shapely : bool) :
  let r := bbox2poly x1 y1 x2 y2 reverse_order as_geojson as_shapely in
  let xmin := if reverse_order then y1 else x1 in
  let ymin := if reverse_order then x1 else y1 in
  let xmax := if reverse_order then y2 else x2 in
  let ymax := if reverse_order then x2 else y2 in
  let library := if as_shapely then shapely else geojson in
  let outside := float_lt xmin (float_of_int (-180))
                 || float_lt (float_of_int 180) xmax in
  Forall (fun ring => List.length ring = 5
                      /\ nth_error ring 4 = nth_error ring 0) (rings r)
  /\ (as_geojson || as_shapely = false ->
      r = PlainRing (closed_ring xmin ymin xmax ymax))
  /\ (as_geojson || as_shapely = true -> outside = false ->
      r = Polygon library (closed_ring xmin ymin xmax ymax))
  /\ (as_geojson || as_shapely = true -> outside = true ->
      exists west east, r = MultiPolygon library [west; east]).
Proof.
  cbv zeta. unfold bbox2poly.
  destruct reverse_order;
    destruct (as_geojson || as_shapely);
    cbn [negb];
    match goal with
    | |- context [float_lt ?a (float_of_int (-180))] =>
        destruct (float_lt a (float_of_int (-180)))
    | _ => idtac
    end;
    match goal with
    | |- context [float_lt (float_of_int 180) ?b] =>
        destruct (float_lt (float_of_int 180) b)
    | _ => idtac
    end;
    cbn [rings orb];
    (split; [repeat (apply Forall_cons; [apply closed_ring_closed|]);
             apply Forall_nil|]);
    (split; [intros Hf; try discriminate Hf; reflexivity|]);
    (split; [intros Ht Hf; try discriminate Ht; try discriminate Hf; reflexivity|]);
    intros Ht Ho; try discriminate Ht; try discriminate Ho;
    eexists _, _; reflexivity.
Qed.

End BboxProofs.

(** A box that starts at 360 degrees west: [360 + xmin] is zero, which
    [xmin2 or -180] takes for an absent value, so the second polygon starts
    at -180 and not at 0. *)
Example bbox2poly_zero_is_absent :
  bbox2poly (-360)%Z 10%Z (-170)%Z 20%Z false true false
  = MultiPolygon geojson
      [closed_ring (-180)%Z 10%Z (-170)%Z 20%Z;
       closed_ring (-180)%Z 10%Z 180%Z 20%Z]
  /\ bbox2poly (-350)%Z 10%Z (-170)%Z 20%Z false true false
     = MultiPolygon geojson
         [closed_ring (-180)%Z 10%Z (-170)%Z 20%Z;
          closed_ring 10%Z 10%Z 180%Z 20%Z].
Proof. split; reflexivity. Qed.

(** ** The expanded listing of projects *)

Lemma dict_update_new {V : Type} (k : string) (v : V) (d : dict V) :
  dict_mem k d = false -> dict_update k v d = (d ++ [(k, v)])%list.
Proof.
  induction d as [|[k' v'] d IH]; [reflexivity|].
  rewrite dict_mem_cons. intros Hk. apply orb_false_iff in Hk as [Hk Hd].
  cbn [dict_update app]. now rewrite Hk, (IH Hd).
Qed.

Section ListingProofs.

Context {B : Type} `{Backend B}.
Variable cfg : settings.

Lemma expand_projects_spec (items : list (string * entry)) :
  forall (acc : dict expanded) (w : world B),
    (forall kv, In kv items -> dict_get (fst kv) (registry w) = Some (snd kv)) ->
    NoDup (keys acc ++ keys items) ->
    let r := expand_projects cfg items acc w in
    index (fst r) = index w
    /\ (forall rows, snd r = Ok rows ->
          row_summary rows = (row_summary acc ++ entry_summary cfg items)%list)
    /\ (forall e, snd r = Raise e -> e = StoreError).
Proof.
  induction items as [|[name project] items IH]; intros acc w Hreg Hnd; cbv zeta.
  - cbn [expand_projects ret fst snd]. split; [reflexivity|]. split.
    + intros rows Hrows. injection Hrows as <-.
      unfold entry_summary. cbn [map]. now rewrite app_nil_r.
    + discriminate.
  - cbn [expand_projects].
    pose proof (Hreg (name, project) (or_introl eq_refl)) as Hget. cbn [fst snd] in Hget.
    destruct (load_project_eq cfg name w (dict_get_mem _ _ _ Hget)) as (e & He & Hload).
    rewrite Hget in He. injection He as <-.
    cbv zeta in Hload.
    set (w1 := {| index := index w;
                  disk := init_db (join (folder_path cfg (folder project)) PROJECT_DB_FILE)
                            (makedirs (folder_path cfg (folder project)) (disk w)) |})
      in Hload.
    destruct (Project_get (join (folder_path cfg (folder project)) PROJECT_DB_FILE)
                          (disk w1)) as [a|].
    + rewrite (bind_ok _ _ _ _ _ Hload).
      assert (Hfresh : dict_mem name acc = false).
      { apply dict_mem_false. cbn [keys map fst] in Hnd.
        apply NoDup_remove_2 in Hnd. intros Hin. apply Hnd.
        apply in_or_app. now left. }
      rewrite (dict_update_new _ _ _ Hfresh).
      match goal with
      | |- context [expand_projects cfg items ?acc' w1] =>
          destruct (IH acc' w1) as (Hi & Hok & Hraise)
      end.
      * intros kv Hkv. apply (Hreg kv). now right.
      * unfold keys in *. rewrite map_app, <- app_assoc. exact Hnd.
      * cbv zeta in Hi, Hok, Hraise. split; [exact Hi|]. split; [|exact Hraise].
        intros rows Hrows. rewrite (Hok rows Hrows).
        unfold row_summary, entry_summary. rewrite map_app, <- app_assoc. reflexivity.
    + rewrite (bind_raise _ _ _ _ _ Hload). cbn [fst snd].
      split; [reflexivity|]. split; [discriminate|].
      intros e He. now injection He as <-.
Qed.

Lemma registry_items (w : world B) :
  NoDup (keys (registry w)) ->
  forall kv, In kv (registry w) -> dict_get (fst kv) (registry w) = Some (snd kv).
Proof.
  induction (registry w) as [|[k v] d IH]; intros Hnd kv; [intros []|].
  cbn [keys map fst] in Hnd. inversion Hnd as [|? ? Hk Hd]; subst.
  intros [<-|Hin]; cbn [dict_get fst snd].
  - now rewrite String.eqb_refl.
  - destruct (String.eqb_spec (fst kv) k) as [Heq|_]; [|now apply IH].
    exfalso. apply Hk. rewrite <- Heq. apply in_map_iff. now exists kv.
Qed.

Lemma summary_lookup (rows : dict expanded) (projects : dict entry)
      (name : string) :
  row_summary rows = entry_summary cfg projects ->
  match dict_get name rows with
  | Some row =>
      exists e, dict_get name projects = Some e
                /\ project_name row = name
                /\ project_folder row = folder_path cfg (folder e)
  | None => dict_get name projects = None
  end.
Proof.
  revert projects. induction rows as [|[k r] rows IH]; intros projects Heq;
    destruct projects as [|[k' e'] projects]; try discriminate; [reflexivity|].
  unfold row_summary, entry_summary in Heq. cbn [map fst snd] in Heq.
  injection Heq as <- Hname Hfolder Hrest.
  cbn [dict_get]. destruct (String.eqb_spec name k) as [->|_].
  - exists e'. repeat split; assumption.
  - apply IH. exact Hrest.
Qed.

Lemma get_projects_expanded_spec (as_dataframe : bool) (w : world B) :
  NoDup (keys (registry w)) ->
  exists w',
    index w' = index w
    /\ ((exists rows,
            get_projects_with cfg true as_dataframe w
            = (w', Ok (if as_dataframe then RowFrame rows else RowDict rows))
            /\ row_summary rows = entry_summary cfg (registry w))
        \/ get_projects_with cfg true as_dataframe w = (w', Raise StoreError)).
Proof.
  intros Hnd.
  destruct (expand_projects_spec (registry w) [] w (registry_items w Hnd) Hnd)
    as (Hi & Hok & Hraise).
  cbv zeta in Hi, Hok, Hraise.
  unfold get_projects_with. cbn [negb andb]. rewrite bind_load_projects.
  destruct (expand_projects cfg (registry w) [] w) as [w' [rows|e]] eqn:Hrun;
    cbn [fst snd] in *; exists w'; (split; [exact Hi|]).
  - left. exists rows. split; [|now rewrite (Hok rows eq_refl)].
    rewrite (bind_ok _ _ _ _ _ Hrun). now destruct as_dataframe.
  - right. rewrite (bind_raise _ _ _ _ _ Hrun).
    now rewrite (Hraise e eq_refl).
Qed.

(** X20.  The expanded form of [get_projects] leaves the index file as it
    is.  When it returns, its rows are the registered projects in their
    order, one row each, with the key as [name] and as [folder] the project
    folder resolved under the projects directory when it is relative; when
    it raises, a store failed to load.  The plain form lists the keys. *)
Theorem expanded_listing (as_dataframe : bool) (w : world B) :
  NoDup (keys (registry w)) ->
  let r := get_projects_with cfg true as_dataframe w in
  index (fst r) = index w
  /\ (forall rows,
        snd r = Ok (RowDict rows) \/ snd r = Ok (RowFrame rows) ->
        row_summary rows = entry_summary cfg (registry w))
  /\ (forall e, snd r = Raise e -> e = StoreError)
  /\ get_projects_with cfg false false w = (w, Ok (NameList (keys (registry w)))).
Proof.
  intros Hnd r.
  assert (Hplain : get_projects_with cfg false false w
                   = (w, Ok (NameList (keys (registry w))))).
  { unfold get_projects_with. cbn [negb andb]. now rewrite bind_load_projects. }
  destruct (get_projects_expanded_spec as_dataframe w Hnd)
    as (w' & Hi & [(rows & Hr & Hrows)|Hr]); unfold r; rewrite Hr; cbn [fst snd].
  - split; [exact Hi|]. split; [|split; [discriminate|exact Hplain]].
    intros rows' Hrows'.
    destruct as_dataframe, Hrows' as [Heq|Heq]; try discriminate Heq;
      now injection Heq as <-.
  - split; [exact Hi|]. split; [|split; [|exact Hplain]].
    + intros rows [Heq|Heq]; discriminate Heq.
    + intros e He. now injection He as <-.
Qed.

(** X21.  [_get_project_dir] leaves the index file as it is; what it returns
    is the folder of the active project, resolved under the projects
    directory when it is relative; and it raises when the active project is
    not registered. *)
Theorem project_dir_of_active (w : world B) :
  NoDup (keys (registry w)) ->
  let r := _get_project_dir cfg w in
  index (fst r) = index w
  /\ (forall path, snd r = Ok path ->
        exists e, dict_get (active w) (registry w) = Some e
                  /\ path = folder_path cfg (folder e))
  /\ (~ In (active w) (keys (registry w)) -> exists e, snd r = Raise e).
Proof.
  intros Hnd r.
  destruct (get_projects_expanded_spec false w Hnd)
    as (w' & Hi & [(rows & Hr & Hrows)|Hr]); unfold r, _get_project_dir.
  - rewrite (bind_ok _ _ _ _ _ Hr), bind_get_active_project.
    destruct (registry_same_index w w' Hi) as [_ Ha]. rewrite Ha.
    pose proof (summary_lookup rows (registry w) (active w) Hrows) as Hlook.
    destruct (dict_get (active w) rows) as [row|]; cbn [ret raise fst snd].
    + destruct Hlook as (e & He & _ & Hfolder).
      split; [exact Hi|]. split.
      * intros path Hpath. injection Hpath as <-. now exists e.
      * intros Hnot. apply dict_mem_false in Hnot.
        apply dict_get_mem in He. congruence.
    + split; [exact Hi|]. split; [discriminate|]. intros _. now eexists.
  - rewrite (bind_raise _ _ _ _ _ Hr). cbn [fst snd].
    split; [exact Hi|]. split; [discriminate|]. intros _. now eexists.
Qed.

End ListingProofs.

(* ================================================================= *)
(** * Part IV: the further properties at concrete inputs *)
(* ================================================================= *)

(** ** The registry *)

Lemma set_active_project_checked_witness :
  (In "p2" (keys (registry (world_of "p1" ["p1"; "p2"])))
   /\ exists w',
        set_active_project cfg0 "p2" (world_of "p1" ["p1"; "p2"]) = (w', Ok "p2")
        /\ get_active_project w' = (w', Ok "p2")
        /\ registry w' = registry (world_of "p1" ["p1"; "p2"]))
  /\ (~ In "ghost" (keys (registry (world_of "p1" ["p1"; "p2"])))
      /\ exists e,
           set_active_project cfg0 "ghost" (world_of "p1" ["p1"; "p2"])
           = (world_of "p1" ["p1"; "p2"], Raise e)
           /\ (e = ValueError ("Project " ++ "ghost" ++ " does not exist")
               \/ e = KeyError "projects")).
Proof.
  assert (Hin : In "p2" (keys (registry (world_of "p1" ["p1"; "p2"]))))
    by (right; left; reflexivity).
  assert (Hnot : ~ In "ghost" (keys (registry (world_of "p1" ["p1"; "p2"])))).
  { intros [Heq|[Heq|[]]]; discriminate Heq. }
  split.
  - split; [exact Hin|].
    apply (proj1 (set_active_project_checked cfg0 "p2" (world_of "p1" ["p1"; "p2"])) Hin).
  - split; [exact Hnot|].
    apply (proj2 (set_active_project_checked cfg0 "ghost" (world_of "p1" ["p1"; "p2"]))
                 Hnot).
Defined.

Lemma new_project_registers_witness :
  ~ In (lower "P3") (keys (registry (world_of "p1" ["p1"; "p2"])))
  /\ let w' := fst (new_project cfg0 "P3" None None None (Some "/data/p3") true
                                (world_of "p1" ["p1"; "p2"])) in
     (exists names,
         get_projects w' = (w', Ok names)
         /\ (forall n, In n names
                       <-> In n (keys (registry (world_of "p1" ["p1"; "p2"])))
                           \/ n = lower "P3")
         /\ List.length names
            = S (List.length (keys (registry (world_of "p1" ["p1"; "p2"])))))
     /\ dict_get (lower "P3") (registry w') = Some {| folder := "/data/p3" |}
     /\ (forall other, other <> lower "P3" ->
           dict_get other (registry w')
           = dict_get other (registry (world_of "p1" ["p1"; "p2"])))
     /\ active_project (index w') = Some (lower "P3").
Proof.
  assert (Hnot : ~ In (lower "P3") (keys (registry (world_of "p1" ["p1"; "p2"])))).
  { intros [Heq|[Heq|[]]]; discriminate Heq. }
  split; [exact Hnot|].
  apply (new_project_registers cfg0 "P3" None None None (Some "/data/p3") true
                               (world_of "p1" ["p1"; "p2"]) Hnot).
Defined.

Lemma names_lowered_on_creation_only_witness :
  lower "P3" <> "P3"
  /\ ~ In "P3" (keys (registry (world_of "p1" ["p1"; "p2"])))
  /\ let w1 := fst (new_project cfg0 "P3" None None None None false
                                (world_of "p1" ["p1"; "p2"])) in
     In (lower "P3") (keys (registry w1))
     /\ set_active_project cfg0 "P3" w1
        = (w1, Raise (ValueError ("Project " ++ "P3" ++ " does not exist")))
     /\ delete_project cfg0 "P3" w1 = (w1, Ok (Projects (registry w1)))
     /\ remove_project cfg0 "P3" w1 = (w1, Ok (Projects (registry w1))).
Proof.
  assert (Hlower : lower "P3" <> "P3") by (intros Heq; discriminate Heq).
  assert (Hnot : ~ In "P3" (keys (registry (world_of "p1" ["p1"; "p2"])))).
  { intros [Heq|[Heq|[]]]; discriminate Heq. }
  split; [exact Hlower|]. split; [exact Hnot|].
  apply (names_lowered_on_creation_only cfg0 "P3" None None None None false
                                        (world_of "p1" ["p1"; "p2"]) Hlower Hnot).
Defined.

Lemma removal_of_inactive_project_witness :
  dict_get "p2" (registry (world_of "p1" ["p1"; "p2"])) = Some {| folder := "p2" |}
  /\ "p2" <> active (world_of "p1" ["p1"; "p2"])
  /\ remove_project cfg0 "p2" (world_of "p1" ["p1"; "p2"])
     = ({| index := {| active_project := Some "p1";
                       projects := Some [("p1", {| folder := "p1" |})] |};
           disk := disk_of ["p1"; "p2"] |},
        Ok (Projects [("p1", {| folder := "p1" |})]))
  /\ delete_project cfg0 "p2" (world_of "p1" ["p1"; "p2"])
     = ({| index := {| active_project := Some "p1";
                       projects := Some [("p1", {| folder := "p1" |})] |};
           disk := disk_of ["p1"] |},
        Ok (Projects [("p1", {| folder := "p1" |})])).
Proof.
  assert (Hne : "p2" <> active (world_of "p1" ["p1"; "p2"]))
    by (intros Heq; discriminate Heq).
  split; [reflexivity|]. split; [exact Hne|].
  exact (removal_of_inactive_project cfg0 "p2" {| folder := "p2" |}
                                     (world_of "p1" ["p1"; "p2"]) eq_refl Hne).
Defined.

Lemma removed_project_unlisted_witness :
  NoDup (keys (registry (world_of "p1" ["p1"; "p2"])))
  /\ (~ In "p1" (keys (registry (exec cfg0 (DeleteProject "p1")
                                      (world_of "p1" ["p1"; "p2"]))))
      \/ ("p1" = "default"
          /\ registry (exec cfg0 (DeleteProject "p1") (world_of "p1" ["p1"; "p2"]))
             = [("default", {| folder := "default" |})])).
Proof.
  assert (Hnd : NoDup (keys (registry (world_of "p1" ["p1"; "p2"])))).
  { constructor; [intros [Heq|[]]; discriminate Heq|].
    constructor; [intros []|constructor]. }
  split; [exact Hnd|].
  apply (removed_project_unlisted cfg0 (DeleteProject "p1") "p1"
                                  (world_of "p1" ["p1"; "p2"]) (or_introl eq_refl) Hnd).
Defined.

Lemma create_then_remove_restores_witness :
  active_registered (world_of "p1" ["p1"; "p2"])
  /\ ~ In (lower "P3") (keys (registry (world_of "p1" ["p1"; "p2"])))
  /\ let w1 := exec cfg0 (NewProject "P3" None None None None false)
                    (world_of "p1" ["p1"; "p2"]) in
     let w2 := exec cfg0 (RemoveProject (lower "P3")) w1 in
     registry w2 = registry (world_of "p1" ["p1"; "p2"])
     /\ active_project (index w2)
        = active_project (index (world_of "p1" ["p1"; "p2"])).
Proof.
  assert (Hw : active_registered (world_of "p1" ["p1"; "p2"])) by (left; reflexivity).
  assert (Hnot : ~ In (lower "P3") (keys (registry (world_of "p1" ["p1"; "p2"])))).
  { intros [Heq|[Heq|[]]]; discriminate Heq. }
  split; [exact Hw|]. split; [exact Hnot|].
  apply (create_then_remove_restores cfg0 "P3" None None None None
                                     (world_of "p1" ["p1"; "p2"]) Hw Hnot).
Defined.

Lemma active_db_of_registered_witness :
  (dict_get (active (world_of "p2" ["p1"; "p2"])) (registry (world_of "p2" ["p1"; "p2"]))
   = Some {| folder := "p2" |}
   /\ active_db cfg0 (world_of "p2" ["p1"; "p2"])
      = (world_of "p2" ["p1"; "p2"], Ok "/q/projects/p2/metadata.db"))
  /\ (~ In (active (world_of "gone" ["p1"; "p2"]))
           (keys (registry (world_of "gone" ["p1"; "p2"])))
      /\ active_db cfg0 (world_of "gone" ["p1"; "p2"])
         = (world_of "gone" ["p1"; "p2"],
            Raise (ValueError ("Project " ++ "gone" ++ " not found")))).
Proof.
  assert (Hnot : ~ In (active (world_of "gone" ["p1"; "p2"]))
                      (keys (registry (world_of "gone" ["p1"; "p2"])))).
  { intros [Heq|[Heq|[]]]; discriminate Heq. }
  split.
  - split; [reflexivity|].
    exact (proj1 (active_db_of_registered cfg0 (world_of "p2" ["p1"; "p2"]))
                 {| folder := "p2" |} eq_refl).
  - split; [exact Hnot|].
    apply (proj2 (active_db_of_registered cfg0 (world_of "gone" ["p1"; "p2"])) Hnot).
Defined.

Lemma add_project_registers_witness :
  ~ In (lower "Copy") (keys (registry (world_of "p1" ["p1"; "p2"])))
  /\ os_path_exists "/q/projects/p2" (disk (world_of "p1" ["p1"; "p2"])) = true
  /\ exists w',
       add_project cfg0 "Copy" "/q/projects/p2" false (world_of "p1" ["p1"; "p2"])
       = (w', Ok (attrs_of "p2"))
       /\ (exists names,
             get_projects w' = (w', Ok names)
             /\ (forall n, In n names
                           <-> In n (keys (registry (world_of "p1" ["p1"; "p2"])))
                               \/ n = lower "Copy")
             /\ List.length names
                = S (List.length (keys (registry (world_of "p1" ["p1"; "p2"])))))
       /\ dict_get (lower "Copy") (registry w') = Some {| folder := "/q/projects/p2" |}
       /\ active_project (index w')
          = active_project (index (world_of "p1" ["p1"; "p2"])).
Proof.
  assert (Hnot : ~ In (lower "Copy") (keys (registry (world_of "p1" ["p1"; "p2"])))).
  { intros [Heq|[Heq|[]]]; discriminate Heq. }
  assert (Hpath : os_path_exists "/q/projects/p2" (disk (world_of "p1" ["p1"; "p2"]))
                  = true) by reflexivity.
  assert (Hget : Project_get
                   (join (folder_path cfg0 "/q/projects/p2") PROJECT_DB_FILE)
                   (init_db (join (folder_path cfg0 "/q/projects/p2") PROJECT_DB_FILE)
                            (makedirs (folder_path cfg0 "/q/projects/p2")
                                      (disk (world_of "p1" ["p1"; "p2"]))))
                 = Some (attrs_of "p2")) by reflexivity.
  split; [exact Hnot|]. split; [exact Hpath|].
  exact (add_project_registers cfg0 "Copy" "/q/projects/p2" false (attrs_of "p2")
                               (world_of "p1" ["p1"; "p2"]) Hnot Hpath Hget).
Defined.

Lemma expanded_listing_witness :
  NoDup (keys (registry (world_of "p1" ["p1"; "p2"])))
  /\ let r := get_projects_with cfg0 true false (world_of "p1" ["p1"; "p2"]) in
     index (fst r) = index (world_of "p1" ["p1"; "p2"])
     /\ (forall rows,
           snd r = Ok (RowDict rows) \/ snd r = Ok (RowFrame rows) ->
           row_summary rows
           = entry_summary cfg0 (registry (world_of "p1" ["p1"; "p2"])))
     /\ (forall e, snd r = Raise e -> e = StoreError)
     /\ get_projects_with cfg0 false false (world_of "p1" ["p1"; "p2"])
        = (world_of "p1" ["p1"; "p2"],
           Ok (NameList (keys (registry (world_of "p1" ["p1"; "p2"]))))).
Proof.
  assert (Hnd : NoDup (keys (registry (world_of "p1" ["p1"; "p2"])))).
  { constructor; [intros [Heq|[]]; discriminate Heq|].
    constructor; [intros []|constructor]. }
  split; [exact Hnd|].
  apply (expanded_listing cfg0 false (world_of "p1" ["p1"; "p2"]) Hnd).
Defined.

Lemma project_dir_of_active_witness :
  NoDup (keys (registry (world_of "p2" ["p1"; "p2"])))
  /\ snd (_get_project_dir cfg0 (world_of "p2" ["p1"; "p2"])) = Ok "/q/projects/p2"
  /\ exists e, dict_get (active (world_of "p2" ["p1"; "p2"]))
                        (registry (world_of "p2" ["p1"; "p2"])) = Some e
               /\ "/q/projects/p2" = folder_path cfg0 (folder e).
Proof.
  assert (Hnd : NoDup (keys (registry (world_of "p2" ["p1"; "p2"])))).
  { constructor; [intros [Heq|[]]; discriminate Heq|].
    constructor; [intros []|constructor]. }
  split; [exact Hnd|]. split; [reflexivity|].
  destruct (project_dir_of_active cfg0 (world_of "p2" ["p1"; "p2"]) Hnd)
    as (_ & Hpath & _).
  apply (Hpath "/q/projects/p2" eq_refl).
Defined.

(** ** Service URIs, classification and identifiers *)

Lemma parse_service_uri_shape_witness :
  parse_service_uri "svc://usgs-nwis:dv/0800345522"
  = Ok (Some "usgs-nwis", Some "dv", Some "0800345522")
  /\ (exists p, Some "usgs-nwis" = Some p
                /\ contains ":" p = false /\ contains "/" p = false)
  /\ (forall s, Some "dv" = Some s ->
        contains ":" s = false /\ contains "/" s = false)
  /\ (forall f, Some "0800345522" = Some f -> contains "://" f = false).
Proof.
  split; [reflexivity|].
  apply (parse_service_uri_shape "svc://usgs-nwis:dv/0800345522"
                                 (Some "usgs-nwis") (Some "dv") (Some "0800345522")
                                 eq_refl).
Defined.

Lemma parse_service_uri_ignores_scheme_witness :
  contains "://" "usgs-nwis:dv/0800345522" = false
  /\ parse_service_uri ("svc" ++ "://" ++ "usgs-nwis:dv/0800345522")
     = parse_service_uri "usgs-nwis:dv/0800345522".
Proof.
  split; [reflexivity|].
  apply (parse_service_uri_ignores_scheme "svc" "usgs-nwis:dv/0800345522" eq_refl).
Defined.

Lemma classify_uris_checks_witness :
  (In "services" ["services"]
   /\ In "svc://a:b" ["svc://a:b"; "pub://c"]
   /\ spec_type "svc://a:b" = "services"
   /\ exists t',
        In t' ["services"]
        /\ classify_uris ["svc://a:b"; "pub://c"] true false false (Some ["services"])
           = Raise (ValueError ("Uris for " ++ t' ++ " are not allowed.")))
  /\ (spec_type "svc://a:b" <> spec_type "pub://c"
      /\ classify_uris ["svc://a:b"; "pub://c"] true false true None
         = Raise (ValueError "All uris must be of the same type")).
Proof.
  destruct (classify_uris_checks ["svc://a:b"; "pub://c"] true false)
    as (Hexcluded & _ & Hmixed & _).
  assert (Hne : spec_type "svc://a:b" <> spec_type "pub://c")
    by (intros Heq; discriminate Heq).
  split.
  - split; [left; reflexivity|]. split; [left; reflexivity|]. split; [reflexivity|].
    apply (Hexcluded ["services"] false "services" "svc://a:b"
                     (or_introl eq_refl) (or_introl eq_refl) eq_refl).
  - split; [exact Hne|].
    apply (Hmixed "svc://a:b" "pub://c" (or_introl eq_refl)
                  (or_intror (or_introl eq_refl)) Hne).
Defined.

Lemma service_and_remote_uris_witness :
  is_remote_uri "https://example.org/dv" = true
  /\ is_uuid "https://example.org/dv" = false
  /\ spec_type "https://example.org/dv" = "collections".
Proof.
  split; [reflexivity|].
  destruct (service_and_remote_uris "usgs-nwis" "dv" (Some "0800345522"))
    as (_ & _ & _ & Hremote).
  apply (Hremote "https://example.org/dv" eq_refl).
Defined.

Lemma untagged_uuid_type_witness :
  (0 <= 15 * 2 ^ 124 + 7 < 2 ^ 128)%Z
  /\ "collection" <> "feature"
  /\ "collection" <> "dataset"
  /\ exists id,
       uuid "collection" (15 * 2 ^ 124 + 7)%Z = Ok id
       /\ is_uuid id = true
       /\ spec_type id
          = (if ((15 * 2 ^ 124 + 7) / 2 ^ 124 =? 15)%Z then "features"
             else if ((15 * 2 ^ 124 + 7) / 2 ^ 124 =? 13)%Z then "datasets"
             else "collections").
Proof.
  assert (Hrange : (0 <= 15 * 2 ^ 124 + 7 < 2 ^ 128)%Z)
    by (split; [discriminate|reflexivity]).
  assert (Hf : "collection" <> "feature") by discriminate.
  assert (Hd : "collection" <> "dataset") by discriminate.
  split; [exact Hrange|]. split; [exact Hf|]. split; [exact Hd|].
  apply (untagged_uuid_type "collection" (15 * 2 ^ 124 + 7)%Z Hrange Hf Hd).
Defined.

Lemma is_uuid_syntax_witness :
  (String.length "f4d7e2a91c3b4f5e8a6b0c1d2e3f4a5b" = 32%nat
   /\ all_chars lower_hex "f4d7e2a91c3b4f5e8a6b0c1d2e3f4a5b" = true
   /\ String.get 12 "f4d7e2a91c3b4f5e8a6b0c1d2e3f4a5b" = Some "4"%char
   /\ exists c, String.get 16 "f4d7e2a91c3b4f5e8a6b0c1d2e3f4a5b" = Some c
                /\ mem_char c "89ab" = true)
  /\ is_uuid "f4d7e2a91c3b4f5e8a6b0c1d2e3f4a5b" = true.
Proof.
  assert (Hsyntax :
            String.length "f4d7e2a91c3b4f5e8a6b0c1d2e3f4a5b" = 32%nat
            /\ all_chars lower_hex "f4d7e2a91c3b4f5e8a6b0c1d2e3f4a5b" = true
            /\ String.get 12 "f4d7e2a91c3b4f5e8a6b0c1d2e3f4a5b" = Some "4"%char
            /\ exists c, String.get 16 "f4d7e2a91c3b4f5e8a6b0c1d2e3f4a5b" = Some c
                         /\ mem_char c "89ab" = true).
  { split; [reflexivity|]. split; [reflexivity|]. split; [reflexivity|].
    exists "8"%char. split; reflexivity. }
  split; [exact Hsyntax|].
  apply (proj2 (is_uuid_syntax "f4d7e2a91c3b4f5e8a6b0c1d2e3f4a5b") Hsyntax).
Defined.

(** ** [listify], the unit conversion and [bbox2poly] *)

Lemma listify_normalises_witness :
  listify (VStr " a, b ,c ") "," = Ok (VList [VStr "a"; VStr "b"; VStr "c"])
  /\ (forall delimiter',
        listify (VList [VStr "a"; VStr "b"; VStr "c"]) delimiter'
        = Ok (VList [VStr "a"; VStr "b"; VStr "c"]))
  /\ (forall s, VStr " a, b ,c " = VStr s ->
        exists pieces,
          VList [VStr "a"; VStr "b"; VStr "c"] = VList (map VStr pieces)
          /\ pieces <> []
          /\ Forall (fun p => strip whitespace p = p) pieces
          /\ (contains "," s = false -> pieces = [strip whitespace s])).
Proof.
  split; [reflexivity|].
  apply (listify_normalises (VStr " a, b ,c ") ","
                            (VList [VStr "a"; VStr "b"; VStr "c"]) eq_refl).
Defined.

Lemma unit_conversion_target_witness :
  let convert src dst :=
    if String.eqb src "ft/s" && String.eqb dst "m/s"
    then Ok 3%Z else Raise (ValueError "no conversion") in
  let st := {| orig_metadata := [("file_path", "/data/x.tif"); ("unit", "ft/s")];
               df_metadata := None |} in
  dict_get "unit" (orig_metadata st) = Some "ft/s"
  /\ "ft/s" = "ft" ++ "/" ++ "s"
  /\ contains "/" "ft" = false
  /\ contains "/" "m" = false
  /\ convert "ft/s" ("m" ++ "/" ++ "s") = Ok 3%Z
  /\ RstUnitConversion_run Z Z Z.mul convert (Some "m") 10%Z st
     = ({| orig_metadata := [("unit", "m/s")];
           df_metadata := Some [("unit", "m/s")] |}, Ok 30%Z).
Proof.
  intros convert st.
  split; [reflexivity|]. split; [reflexivity|]. split; [reflexivity|].
  split; [reflexivity|]. split; [reflexivity|].
  apply (proj1 (unit_conversion_target Z Z Z.mul convert "m" "ft/s" 10%Z st 3%Z eq_refl)
               "ft" "s" eq_refl eq_refl eq_refl eq_refl).
Defined.

Lemma unit_conversion_metadata_witness :
  let convert (src dst : string) : result Z := Raise (ValueError "no conversion") in
  let st := {| orig_metadata := [("file_path", "/data/x.tif"); ("unit", "ft/s")];
               df_metadata := None |} in
  NoDup (keys (orig_metadata st))
  /\ Some "m" <> None
  /\ snd (RstUnitConversion_run Z Z Z.mul convert (Some "m") 10%Z st)
     = Raise (ValueError "no conversion")
  /\ dict_mem "file_path"
       (orig_metadata (fst (RstUnitConversion_run Z Z Z.mul convert (Some "m") 10%Z st)))
     = false
  /\ dict_get "unit"
       (orig_metadata (fst (RstUnitConversion_run Z Z Z.mul convert (Some "m") 10%Z st)))
     = dict_get "unit" (orig_metadata st)
  /\ df_metadata (fst (RstUnitConversion_run Z Z Z.mul convert (Some "m") 10%Z st))
     = df_metadata st.
Proof.
  intros convert st.
  assert (Hnd : NoDup (keys (orig_metadata st))).
  { constructor; [intros [Heq|[]]; discriminate Heq|].
    constructor; [intros []|constructor]. }
  assert (Hsome : Some "m" <> None) by discriminate.
  destruct (unit_conversion_metadata Z Z Z.mul convert (Some "m") 10%Z st Hnd)
    as (_ & Hdeleted & _ & Hraise).
  split; [exact Hnd|]. split; [exact Hsome|]. split; [reflexivity|].
  split; [apply (proj1 (Hdeleted Hsome))|].
  apply (Hraise (ValueError "no conversion") Hsome eq_refl).
Defined.

Lemma bbox2poly_rings_witness :
  (true || false = true
   /\ float_lt (-190)%Z (float_of_int (-180)) || float_lt (float_of_int 180) (-170)%Z
      = true
   /\ exists west east,
        bbox2poly (-190)%Z 10%Z (-170)%Z 20%Z false true false
        = MultiPolygon geojson [west; east])
  /\ (false || false = false
      /\ bbox2poly 10%Z (-190)%Z 20%Z (-170)%Z true false false
         = PlainRing (closed_ring (-190)%Z 10%Z (-170)%Z 20%Z)).
Proof.
  split.
  - split; [reflexivity|]. split; [reflexivity|].
    destruct (bbox2poly_rings (-190)%Z 10%Z (-170)%Z 20%Z false true false)
      as (_ & _ & _ & Hmulti).
    apply (Hmulti eq_refl eq_refl).
  - split; [reflexivity|].
    destruct (bbox2poly_rings 10%Z (-190)%Z 20%Z (-170)%Z true false false)
      as (_ & Hplain & _).
    apply (Hplain eq_refl).
Defined.
